(** * Smart Learning App: the scheduling core of [app.py]

    A shallow embedding of the functions of [src/app.py] that carry the
    application's logic:

    - [compute_subject_speed]  (per-subject duration multipliers),
    - [smart_schedule]         (day-capacity placement and review creation),
    - [reschedule_missed]      (re-placement of missed tasks),

    together with the SQLite helpers they call ([run_query], [add_task],
    [fetch_tasks], [update_task_schedule]).

    Modelling conventions.
    - A calendar date is its day ordinal, a [Z]; [d + timedelta(days=k)]
      is [d + k].  The ISO strings used as dictionary keys are in
      bijection with dates, so the dictionaries are keyed by [Z].
      Python raises [OverflowError] when a date leaves the ordinals
      1..3652059; the statements about what a run writes assume that
      the dates of the run stay within them ([window_in_range],
      [dates_in_range]).
    - Python [int] is [Z]; Python [float] is the kernel's binary64
      [float], so [0.6], [1.6] and [0.25] are the doubles Python uses.
    - Python dictionaries are [gmap]s, except
      [first_scheduled_for_topic], whose iteration order (insertion
      order) drives the review loop and which is an association list.
    - The database is a record of three tables held as lists in rowid
      order; every [run_query] opens a connection of its own, as in the
      source.  A new rowid is the largest one plus one, which is
      SQLite's choice below its limit of 2^63 - 1 ([rowids_fit]).
    - The means of the speed estimator divide the exact integer sum,
      which is the sum pandas forms in binary64 as long as it stays
      below 2^53 ([sums_exact]). *)

From Stdlib Require Import ZArith List Bool Lia Floats Permutation Sorted.
From Stdlib Require Uint63.
From stdpp Require Import base gmap strings list.
Import ListNotations.

Set Warnings "-inexact-float".
Local Open Scope Z_scope.

(** ** Python numbers *)

Module PyFloat.

(** [float(z)]: conversion of an [int] to the nearest double. *)
Definition of_int (z : Z) : float :=
  SF2Prim (binary_normalize prec emax z 0 false).

(** [int(x)]: truncation toward zero.  Python raises on NaN and on the
    infinities; the multipliers that reach [int] are clamped doubles, so
    those cases do not arise and are mapped to [0]. *)
Definition trunc (x : float) : Z :=
  match Prim2SF x with
  | S754_finite s m e =>
      let mag := if 0 <=? e then Z.pos m * 2 ^ e else Z.pos m / 2 ^ (- e) in
      if s then - mag else mag
  | _ => 0
  end.

(** [math.ceil(x)]. *)
Definition ceil (x : float) : Z :=
  match Prim2SF x with
  | S754_finite s m e =>
      let n := if s then Z.neg m else Z.pos m in
      if 0 <=? e then n * 2 ^ e else - ((- n) / 2 ^ (- e))
  | _ => 0
  end.

(** [round(x)] with one argument: nearest integer, ties to even.  The
    source never calls it; it is here for the comparison with the
    specification's wording of the calibration formula. *)
Definition round (x : float) : Z :=
  match Prim2SF x with
  | S754_finite s m e =>
      let mag :=
        if 0 <=? e then Z.pos m * 2 ^ e
        else
          let q := Z.pos m / 2 ^ (- e) in
          let r := Z.pos m mod 2 ^ (- e) in
          match 2 * r ?= 2 ^ (- e) with
          | Lt => q
          | Gt => q + 1
          | Eq => if Z.even q then q else q + 1
          end in
      if s then - mag else mag
  | _ => 0
  end.

(** The builtins [min(a, b)] and [max(a, b)]: the first argument is kept
    unless the second compares strictly smaller (greater). *)
Definition min (a b : float) : float := if PrimFloat.ltb b a then b else a.
Definition max (a b : float) : float := if PrimFloat.ltb a b then b else a.

End PyFloat.

(** [range(a, b)] *)
Definition py_range (a b : Z) : list Z := seqZ a (b - a).

(** ** Data model: the rows of the SQLite tables *)

Inductive task_status : Set :=
  | pending
  | review
  | done
  | missed.

Record task : Set := mk_task {
  t_id : Z;
  subject : string;
  topic : string;
  minutes : Z;
  difficulty : Z;
  priority : Z;
  deadline : Z;
  scheduled_date : option Z;
  time_window : string;
  status : task_status;
  created_at : Z
}.

Record session : Set := mk_session {
  task_id : Z;
  duration_minutes : Z
}.

Record review_link : Set := mk_review {
  original_task_id : Z;
  review_task_id : Z;
  interval_days : Z
}.

(** The tables [quizzes] and [progress] are not touched by the
    scheduling functions and are left out. *)
Record store : Set := mk_store {
  tasks : list task;
  sessions : list session;
  reviews : list review_link
}.

Global Instance task_status_eq_dec : EqDecision task_status.
Proof. solve_decision. Defined.

Global Instance task_eq_dec : EqDecision task.
Proof. solve_decision. Defined.

Definition status_eqb (a b : task_status) : bool := bool_decide (a = b).

(** ** SQLite through [run_query] *)

(** A connection carries the database and the rowid of the last INSERT
    made *on that connection*; a new connection has made none, and
    [last_insert_rowid()] is then 0. *)
Record connection : Set := mk_conn {
  conn_db : store;
  conn_last_rowid : Z
}.

Definition db_connect (db : store) : connection :=
  {| conn_db := db; conn_last_rowid := 0 |}.

(** [run_query q] connects, executes, commits and closes: the statement
    runs on a fresh connection, and only the database survives it. *)
Definition run_query {R : Type} (q : connection -> R * connection)
    (db : store) : R * store :=
  let '(r, c) := q (db_connect db) in (r, conn_db c).

(** An INTEGER PRIMARY KEY left out of an INSERT is one more than the
    largest rowid in the table, or 1 in an empty table.  This is what
    SQLite does while the largest rowid is below 2^63 - 1; at that
    limit it picks an unused rowid at random, which is outside this
    function ([rowids_fit] below states the condition). *)
Definition next_rowid (ts : list task) : Z :=
  match ts with
  | [] => 1
  | t :: ts' => 1 + fold_right Z.max (t_id t) (map t_id ts')
  end.

Definition with_tasks (db : store) (ts : list task) : store :=
  {| tasks := ts; sessions := sessions db; reviews := reviews db |}.

Definition with_reviews (db : store) (rs : list review_link) : store :=
  {| tasks := tasks db; sessions := sessions db; reviews := rs |}.

(** INSERT INTO tasks (subject, topic, minutes, difficulty, priority,
    deadline, status, time_window): [scheduled_date] stays NULL and
    [created_at] takes the current timestamp [now]. *)
Definition sql_insert_task (now : Z) (sub top : string) (mins diff prio dl : Z)
    (st : task_status) (tw : string) (c : connection) : unit * connection :=
  let db := conn_db c in
  let rid := next_rowid (tasks db) in
  let row := mk_task rid sub top mins diff prio dl None tw st now in
  (tt, {| conn_db := with_tasks db (tasks db ++ [row]); conn_last_rowid := rid |}).

(** SELECT last_insert_rowid() *)
Definition sql_last_insert_rowid (c : connection) : Z * connection :=
  (conn_last_rowid c, c).

(** UPDATE tasks SET scheduled_date = ?, status = ?, time_window = ?
    WHERE id = ? *)
Definition set_schedule (d : Z) (st : task_status) (tw : string) (tid : Z)
    (t : task) : task :=
  if t_id t =? tid
  then mk_task (t_id t) (subject t) (topic t) (minutes t) (difficulty t)
         (priority t) (deadline t) (Some d) tw st (created_at t)
  else t.

Definition sql_update_schedule (d : Z) (st : task_status) (tw : string)
    (tid : Z) (c : connection) : unit * connection :=
  let db := conn_db c in
  (tt, {| conn_db := with_tasks db (map (set_schedule d st tw tid) (tasks db));
          conn_last_rowid := conn_last_rowid c |}).

(** UPDATE tasks SET status = ? WHERE id = ? *)
Definition set_status (st : task_status) (tid : Z) (t : task) : task :=
  if t_id t =? tid
  then mk_task (t_id t) (subject t) (topic t) (minutes t) (difficulty t)
         (priority t) (deadline t) (scheduled_date t) (time_window t) st
         (created_at t)
  else t.

Definition sql_update_status (st : task_status) (tid : Z) (c : connection)
    : unit * connection :=
  let db := conn_db c in
  (tt, {| conn_db := with_tasks db (map (set_status st tid) (tasks db));
          conn_last_rowid := conn_last_rowid c |}).

(** INSERT INTO reviews (original_task_id, review_task_id, interval_days).
    The rowid of the new link is never read: the connection is closed
    right after. *)
Definition sql_insert_review (oid rid off : Z) (c : connection)
    : unit * connection :=
  let db := conn_db c in
  (tt, {| conn_db := with_reviews db (reviews db ++ [mk_review oid rid off]);
          conn_last_rowid := 1 + Z.of_nat (length (reviews db)) |}).

(** ** DB helpers *)

Definition add_task (now : Z) (sub top : string) (mins diff prio dl : Z)
    (st : task_status) (tw : string) (db : store) : store :=
  snd (run_query (sql_insert_task now sub top mins diff prio dl st tw) db).

(** [update_task_schedule(task_id, scheduled_dt, time_window='any')]:
    the statement also writes the status ['pending']. *)
Definition update_task_schedule (tid d : Z) (tw : string) (db : store) : store :=
  snd (run_query (sql_update_schedule d pending tw tid) db).

Definition update_status_query (st : task_status) (tid : Z) (db : store) : store :=
  snd (run_query (sql_update_status st tid) db).

(** ** Ordered results: a stable sort

    pandas' multi-key [sort_values] is a stable sort: rows with equal
    keys stay in the order of the frame.  SQLite promises no order among
    rows with equal ORDER BY keys; its sorter hands them back in scan
    order, which for these tables is rowid order, and that is what is
    modelled.  Both are one insertion sort that puts a new row before
    the first row it is less than or equal to, the rows being inserted
    from the right. *)

Section StableSort.
Context {A : Type} (leb : A -> A -> bool).

Fixpoint insert_sorted (x : A) (l : list A) : list A :=
  match l with
  | [] => [x]
  | y :: l' => if leb x y then x :: l else y :: insert_sorted x l'
  end.

Definition stable_sort (l : list A) : list A :=
  fold_right insert_sorted [] l.

End StableSort.

Definition lex (c1 c2 : comparison) : comparison :=
  match c1 with Eq => c2 | _ => c1 end.

Definition cmp_leb (c : comparison) : bool :=
  match c with Gt => false | _ => true end.

(** NULL sorts by [scheduled_date IS NULL] (0 before 1) and then compares
    equal to NULL. *)
Definition cmp_null_flag (a b : option Z) : comparison :=
  match a, b with
  | None, None | Some _, Some _ => Eq
  | Some _, None => Lt
  | None, Some _ => Gt
  end.

Definition cmp_option (a b : option Z) : comparison :=
  match a, b with
  | Some x, Some y => x ?= y
  | _, _ => Eq
  end.

(** ORDER BY scheduled_date IS NULL, scheduled_date, deadline *)
Definition fetch_cmp (a b : task) : comparison :=
  lex (cmp_null_flag (scheduled_date a) (scheduled_date b))
    (lex (cmp_option (scheduled_date a) (scheduled_date b))
       (deadline a ?= deadline b)).

Definition fetch_leb (a b : task) : bool := cmp_leb (fetch_cmp a b).

(** [fetch_tasks(where_clause)]: the DataFrame is the list of its rows. *)
Definition fetch_tasks (where_clause : task -> bool) (db : store) : list task :=
  stable_sort fetch_leb (List.filter where_clause (tasks db)).

Definition is_unscheduled_pending (t : task) : bool :=
  status_eqb (status t) pending && bool_decide (scheduled_date t = None).

Definition is_scheduled (t : task) : bool :=
  negb (bool_decide (scheduled_date t = None)).

Definition is_missed (t : task) : bool := status_eqb (status t) missed.

(** [sort_values(by=['deadline_date','priority','difficulty'],
                 ascending=[True, False, False])] *)
Definition sort_values_cmp (a b : task) : comparison :=
  lex (deadline a ?= deadline b)
    (lex (priority b ?= priority a) (difficulty b ?= difficulty a)).

Definition sort_values_leb (a b : task) : bool := cmp_leb (sort_values_cmp a b).

Definition sort_values (rows : list task) : list task :=
  stable_sort sort_values_leb rows.

(** ** Learning pattern helpers: [compute_subject_speed] *)

Definition sum_Z (l : list Z) : Z := fold_right Z.add 0 l.

(** SELECT t.subject, t.minutes, s.duration_minutes
    FROM sessions s JOIN tasks t ON s.task_id = t.id *)
Definition joined_rows (db : store) : list (string * Z * Z) :=
  flat_map
    (fun s =>
       map (fun t => (subject t, minutes t, duration_minutes s))
         (List.filter (fun t => task_id s =? t_id t) (tasks db)))
    (sessions db).

Definition row_subject (r : string * Z * Z) : string := fst (fst r).
Definition row_estimated (r : string * Z * Z) : Z := snd (fst r).
Definition row_actual (r : string * Z * Z) : Z := snd r.

Definition group_of (rows : list (string * Z * Z)) (sub : string)
    : list (string * Z * Z) :=
  List.filter (fun r => String.eqb (row_subject r) sub) rows.

(** The mean of an integer column: the integer sum, converted, divided
    by the row count.  pandas adds the column as doubles; the two agree
    as long as the absolute values add up to less than 2^53 (the
    condition [sums_exact] below), where every partial sum is an integer
    that binary64 represents, whatever the order of addition. *)
Definition mean (xs : list Z) : float :=
  (PyFloat.of_int (sum_Z xs) / PyFloat.of_int (Z.of_nat (length xs)))%float.

Definition mean_estimated (rows : list (string * Z * Z)) (sub : string) : float :=
  mean (map row_estimated (group_of rows sub)).

Definition mean_actual (rows : list (string * Z * Z)) (sub : string) : float :=
  mean (map row_actual (group_of rows sub)).

(** The loop body over the grouped frame:
    [est = r['estimated'] if r['estimated']>0 else 1],
    [actual = r['actual'] if r['actual']>0 else est],
    [multipliers[subject] = actual / est]. *)
Definition raw_multiplier (m_est m_act : float) : float :=
  let est := if PrimFloat.ltb 0 m_est then m_est else 1%float in
  let actual := if PrimFloat.ltb 0 m_act then m_act else est in
  (actual / est)%float.

(** [max(0.6, min(1.6, m))] *)
Definition clamp (m : float) : float :=
  PyFloat.max 0.6%float (PyFloat.min 1.6%float m).

Definition compute_subject_speed (db : store) : gmap string float :=
  let rows := joined_rows db in
  match rows with
  | [] => ∅
  | _ =>
      let multipliers : gmap string float :=
        fold_right
          (fun r acc =>
             <[ row_subject r :=
                  raw_multiplier (mean_estimated rows (row_subject r))
                                 (mean_actual rows (row_subject r)) ]> acc)
          ∅ rows in
      clamp <$> multipliers
  end.

(** ** Scheduling algorithm: [smart_schedule] *)

(** [speed.get(subject, 1.0)] *)
Definition speed_get (speed : gmap string float) (sub : string) : float :=
  default 1%float (speed !! sub).

(** [minutes_needed = max(5, int(original_minutes * speed.get(subject, 1.0)))] *)
Definition minutes_needed (speed : gmap string float) (row : task) : Z :=
  Z.max 5 (PyFloat.trunc (PyFloat.of_int (minutes row) * speed_get speed (subject row))%float).

(** [[today + timedelta(days=i) for i in range(lookahead_days)]] *)
Definition schedule_days (today lookahead_days : Z) : list Z :=
  map (fun i => today + i) (py_range 0 lookahead_days).

(** [{d.isoformat(): daily_minutes for d in schedule_days}] *)
Definition fresh_capacity (days : list Z) (daily_minutes : Z) : gmap Z Z :=
  fold_right (fun d m => <[ d := daily_minutes ]> m) ∅ days.

(** [row['time_window'] or 'any'] *)
Definition preferred_window (row : task) : string :=
  if String.eqb (time_window row) "" then "any"%string else time_window row.

(** [[d for d in schedule_days if d <= deadline] or schedule_days] *)
Definition candidates (days : list Z) (dl : Z) : list Z :=
  match List.filter (fun d => d <=? dl) days with
  | [] => days
  | c => c
  end.

(** The scan [for d in ...: if day_capacity[key] >= minutes_needed: ... break].
    Every scanned day is a key of the ledger (lemma [scan_days_are_keys]
    below), so the [KeyError] branch is dead; it is written as a skip. *)
Fixpoint first_with_capacity (cap : gmap Z Z) (need : Z) (days : list Z)
    : option Z :=
  match days with
  | [] => None
  | d :: ds =>
      match cap !! d with
      | Some c => if need <=? c then Some d else first_with_capacity cap need ds
      | None => first_with_capacity cap need ds
      end
  end.

(** The state of the placement loop.  [placed] is the trace of the
    [update_task_schedule] calls the loop has made, oldest first: the
    row and the day it was given. *)
Record sched_state : Type := mk_sched {
  day_capacity : gmap Z Z;
  scheduled_count : Z;
  first_scheduled_for_topic : list (string * Z);
  sched_db : store;
  placed : list (task * Z)
}.

(** [if subject not in first_scheduled_for_topic: ...[subject] = d] *)
Definition record_first (sub : string) (d : Z) (first : list (string * Z))
    : list (string * Z) :=
  if existsb (fun e => String.eqb (fst e) sub) first
  then first
  else first ++ [(sub, d)].

(** The body of either [if day_capacity[key] >= minutes_needed:] branch. *)
Definition commit_placement (need : Z) (row : task) (d : Z) (st : sched_state)
    : sched_state :=
  {| day_capacity :=
       <[ d := default 0 (day_capacity st !! d) - need ]> (day_capacity st);
     scheduled_count := scheduled_count st + 1;
     first_scheduled_for_topic :=
       record_first (subject row) d (first_scheduled_for_topic st);
     sched_db := update_task_schedule (t_id row) d (preferred_window row) (sched_db st);
     placed := placed st ++ [(row, d)] |}.

(** One iteration of [for _, row in pending.iterrows()]. *)
Definition place_task (speed : gmap string float) (days : list Z)
    (st : sched_state) (row : task) : sched_state :=
  let need := minutes_needed speed row in
  match first_with_capacity (day_capacity st) need (candidates days (deadline row)) with
  | Some d => commit_placement need row d st
  | None =>
      match first_with_capacity (day_capacity st) need days with
      | Some d => commit_placement need row d st
      | None => st
      end
  end.

(** SELECT id,topic,minutes FROM tasks WHERE subject = ?
    ORDER BY created_at LIMIT 1: the earliest-created task of the
    subject, the first in the table among equally old ones. *)
Definition first_task_of_subject (db : store) (sub : string)
    : option (Z * string * Z) :=
  match stable_sort (fun a b => created_at a <=? created_at b)
          (List.filter (fun t => String.eqb (subject t) sub) (tasks db)) with
  | [] => None
  | t :: _ => Some (t_id t, topic t, minutes t)
  end.

(** [review_minutes = max(10, math.ceil(minutes * 0.25))] *)
Definition review_minutes (mins : Z) : Z :=
  Z.max 10 (PyFloat.ceil (PyFloat.of_int mins * 0.25)%float).

(** One iteration of [for offset in review_intervals].  The rowid of the
    new task is asked for in a [run_query] of its own.  The addition
    [first_date + timedelta(days=offset)] is outside the [try]: it
    raises [OverflowError] and aborts the run when the offset or the
    date leaves the ranges of [timedelta] and [date]; the function below
    is the iteration for dates within range ([dates_in_range]). *)
Definition create_review (now today lookahead_days : Z) (sub : string)
    (first_date original_id : Z) (top : string) (mins : Z)
    (db : store) (offset : Z) : store :=
  let review_date := first_date + offset in
  if review_date <=? today + lookahead_days then
    let db1 := add_task now (sub +:+ " (review)") (top +:+ " - review")
                 (review_minutes mins) 1 3 review_date review "any" db in
    let '(last, db2) := run_query sql_last_insert_rowid db1 in
    let review_id := last in
    let db3 := snd (run_query (sql_insert_review original_id review_id offset) db2) in
    update_task_schedule review_id review_date "any" db3
  else db.

(** One iteration of [for subject, first_date in first_scheduled_for_topic.items()]. *)
Definition create_reviews_for (now today lookahead_days : Z)
    (review_intervals : list Z) (db : store) (e : string * Z) : store :=
  match first_task_of_subject db (fst e) with
  | None => db
  | Some (original_id, top, mins) =>
      fold_left
        (create_review now today lookahead_days (fst e) (snd e) original_id top mins)
        review_intervals db
  end.

(** What a run leaves behind: the return value, the database, and the
    final values of the loop variables. *)
Record schedule_result : Type := mk_result {
  res_count : Z;
  res_db : store;
  res_placed : list (task * Z);
  res_capacity : gmap Z Z;
  res_first : list (string * Z)
}.

(** The rows the placement loop iterates over. *)
Definition sorted_pending (db : store) : list task :=
  sort_values (fetch_tasks is_unscheduled_pending db).

Definition placement_loop (speed : gmap string float) (today daily_minutes lookahead_days : Z)
    (rows : list task) (db : store) : sched_state :=
  let days := schedule_days today lookahead_days in
  fold_left (place_task speed days) rows
    {| day_capacity := fresh_capacity days daily_minutes;
       scheduled_count := 0;
       first_scheduled_for_topic := [];
       sched_db := db;
       placed := [] |}.

(** [smart_schedule(daily_minutes, review_intervals, lookahead_days)];
    [now] and [today] stand for the clock.  [time_preferences] is never
    read by the source and is left out. *)
Definition smart_schedule_run (now today daily_minutes : Z)
    (review_intervals : list Z) (lookahead_days : Z) (db : store)
    : schedule_result :=
  match fetch_tasks is_unscheduled_pending db with
  | [] => mk_result 0 db [] ∅ []
  | _ =>
      let speed := compute_subject_speed db in
      let st := placement_loop speed today daily_minutes lookahead_days
                  (sorted_pending db) db in
      let db' := fold_left (create_reviews_for now today lookahead_days review_intervals)
                   (first_scheduled_for_topic st) (sched_db st) in
      mk_result (scheduled_count st) db' (placed st) (day_capacity st)
        (first_scheduled_for_topic st)
  end.

Definition smart_schedule (now today daily_minutes : Z)
    (review_intervals : list Z) (lookahead_days : Z) (db : store) : Z * store :=
  let r := smart_schedule_run now today daily_minutes review_intervals lookahead_days db in
  (res_count r, res_db r).

(** ** Missed rescheduler: [reschedule_missed] *)

(** [used = {(today + timedelta(days=i)).isoformat(): 0
             for i in range(lookahead_days)}] *)
Definition fresh_used (today lookahead_days : Z) : gmap Z Z :=
  fold_right (fun i m => <[ today + i := 0 ]> m) ∅ (py_range 0 lookahead_days).

(** One iteration of [for _, r in scheduled.iterrows()]: a NULL date is
    skipped, and only a day that is already a key is added to. *)
Definition count_scheduled (used : gmap Z Z) (r : task) : gmap Z Z :=
  match scheduled_date r with
  | None => used
  | Some d =>
      match used !! d with
      | Some u => <[ d := u + minutes r ]> used
      | None => used
      end
  end.

Definition used_ledger (today lookahead_days : Z) (db : store) : gmap Z Z :=
  fold_left count_scheduled (fetch_tasks is_scheduled db)
    (fresh_used today lookahead_days).

(** [used.get(cand, 0)] *)
Definition used_get (used : gmap Z Z) (cand : Z) : Z := default 0 (used !! cand).

(** [for offset in range(1, lookahead_days+1)] *)
Definition candidate_days (today lookahead_days : Z) : list Z :=
  map (fun offset => today + offset) (py_range 1 (lookahead_days + 1)).

(** The inner scan: the first candidate with
    [used.get(cand, 0) + mins <= daily_minutes]. *)
Fixpoint first_fit (used : gmap Z Z) (mins daily_minutes : Z) (cands : list Z)
    : option Z :=
  match cands with
  | [] => None
  | cand :: cs =>
      if used_get used cand + mins <=? daily_minutes
      then Some cand
      else first_fit used mins daily_minutes cs
  end.

(** The state of the loop over the missed rows; [replaced] is the trace
    of the re-placements made so far, oldest first. *)
Record resched_state : Type := mk_resched {
  used : gmap Z Z;
  resched_db : store;
  rescheduled : Z;
  replaced : list (task * Z)
}.

(** The body of [if used.get(cand, 0) + mins <= daily_minutes:]. *)
Definition commit_replacement (r : task) (cand : Z) (st : resched_state)
    : resched_state :=
  {| used := <[ cand := used_get (used st) cand + minutes r ]> (used st);
     resched_db :=
       update_status_query pending (t_id r)
         (update_task_schedule (t_id r) cand "any" (resched_db st));
     rescheduled := rescheduled st + 1;
     replaced := replaced st ++ [(r, cand)] |}.

(** One iteration of [for _, r in missed.iterrows()]. *)
Definition reschedule_one (today daily_minutes lookahead_days : Z)
    (st : resched_state) (r : task) : resched_state :=
  match first_fit (used st) (minutes r) daily_minutes
          (candidate_days today lookahead_days) with
  | Some cand => commit_replacement r cand st
  | None => st
  end.

Definition reschedule_loop (today daily_minutes lookahead_days : Z)
    (rows : list task) (st : resched_state) : resched_state :=
  fold_left (reschedule_one today daily_minutes lookahead_days) rows st.

Definition reschedule_missed_run (today daily_minutes lookahead_days : Z)
    (db : store) : resched_state :=
  reschedule_loop today daily_minutes lookahead_days
    (fetch_tasks is_missed db)
    {| used := used_ledger today lookahead_days db;
       resched_db := db;
       rescheduled := 0;
       replaced := [] |}.

(** [reschedule_missed(daily_minutes, lookahead_days)] *)
Definition reschedule_missed (today daily_minutes lookahead_days : Z)
    (db : store) : Z * store :=
  let st := reschedule_missed_run today daily_minutes lookahead_days db in
  (rescheduled st, resched_db st).

(** * Vocabulary of the statements

    Quantities read off a run (minutes placed on a day, the writes of a
    trace replayed on a database), the loop invariants, the readings of
    the specification that are compared with the code, and the example
    databases. *)

(** Calibrated minutes the trace [log] has put on day [d]. *)
Definition placed_minutes (speed : gmap string float) (log : list (task * Z))
    (d : Z) : Z :=
  sum_Z (map (fun e => minutes_needed speed (fst e))
           (List.filter (fun e => snd e =? d) log)).

(** The writes of a trace, replayed on a database. *)
Definition replay (log : list (task * Z)) (db : store) : store :=
  fold_left
    (fun db0 e => update_task_schedule (t_id (fst e)) (snd e) (preferred_window (fst e)) db0)
    log db.

Record loop_inv (speed : gmap string float) (days : list Z) (daily : Z)
    (seen : list task) (db0 : store) (st : sched_state) : Prop := {
  inv_ledger_in : forall d, In d days ->
    day_capacity st !! d = Some (daily - placed_minutes speed (placed st) d);
  inv_ledger_out : forall d, ~ In d days -> day_capacity st !! d = None;
  inv_room : forall d, placed_minutes speed (placed st) d = 0 \/
                       placed_minutes speed (placed st) d <= daily;
  inv_count : scheduled_count st = Z.of_nat (length (placed st));
  inv_days : forall row d, In (row, d) (placed st) -> In d days;
  inv_rows : forall row d, In (row, d) (placed st) -> In row seen;
  inv_full : forall row, In row seen -> (forall d, ~ In (row, d) (placed st)) ->
             forall d c, day_capacity st !! d = Some c -> c < minutes_needed speed row;
  inv_db : sched_db st = replay (placed st) db0;
  inv_first : forall sub d, In (sub, d) (first_scheduled_for_topic st) ->
              exists row, In (row, d) (placed st) /\ subject row = sub
}.

(** ** Seed data

    [seed_demo_data], the five demonstration tasks ([add_quiz] writes to
    a table the scheduler does not read). *)
Definition empty_store : store := mk_store [] [] [].

Definition seed_demo_data (now today : Z) : store :=
  add_task now "History" "World War II - Overview" 40 2 2 (today + 30) pending "any"
    (add_task now "Algorithms" "Greedy Algorithms - Problems" 120 5 5 (today + 20) pending "any"
       (add_task now "Python" "Generators and Iterators" 45 3 4 (today + 7) pending "evening"
          (add_task now "Mathematics" "Linear Algebra - Matrix Multiplication" 60 3 4 (today + 14) pending "any"
             (add_task now "Mathematics" "Calculus - Limits & Continuity" 90 4 5 (today + 10) pending "morning"
                empty_store)))).

(** Modelled from the specification's wording of the calibration
    formula, [max(5, round(estimated_minutes * multiplier(subject)))],
    for comparison with [minutes_needed]. *)
Definition spec_calibrated_minutes (speed : gmap string float) (row : task) : Z :=
  Z.max 5 (PyFloat.round (PyFloat.of_int (minutes row) * speed_get speed (subject row))%float).

(** A subject "X" whose one session ran 75 minutes against an estimate
    of 60, and a pending 43-minute task of the same subject. *)
Definition calibration_db : store :=
  mk_store
    [mk_task 1 "X" "done topic" 60 3 3 5 (Some (-3)) "any" done 0;
     mk_task 2 "X" "next topic" 43 3 3 9 None "any" pending 1]
    [mk_session 1 75]
    [].

(** A subject has a session when some session row joins a task of that
    subject. *)
Definition has_session (db : store) (sub : string) : Prop :=
  exists se t, In se (sessions db) /\ In t (tasks db) /\
               task_id se = t_id t /\ subject t = sub.

(** Modelled from the specification's wording of the estimator:
    [mean(actual) / mean(estimated)], a non-positive mean estimate
    treated as 1 and a zero mean actual treated as equal to the
    estimate, the quotient clamped. *)
Definition spec_multiplier (m_est m_act : float) : float :=
  let est := if PrimFloat.ltb 0 m_est then m_est else 1%float in
  let actual := if PrimFloat.eqb m_act 0 then est else m_act in
  clamp (actual / est)%float.

(** One session of -30 minutes on a 60-minute task. *)
Definition negative_session_db : store :=
  mk_store [mk_task 1 "X" "t" 60 3 3 5 (Some 0) "any" done 0] [mk_session 1 (-30)] [].

(** Minutes of the rows of [rows] whose scheduled date is [d]. *)
Definition scheduled_minutes (rows : list task) (d : Z) : Z :=
  sum_Z (map minutes (List.filter (fun t => bool_decide (scheduled_date t = Some d)) rows)).

(** Minutes the trace [log] has re-placed on day [d]. *)
Definition replaced_minutes (log : list (task * Z)) (d : Z) : Z :=
  sum_Z (map (fun e => minutes (fst e)) (List.filter (fun e => snd e =? d) log)).

Definition fits (u : gmap Z Z) (mins daily d : Z) : Prop :=
  used_get u d + mins <= daily.

(** The day the scan stops at is the earliest day after today, within
    [lookahead_days] days, on which the task fits. *)
Definition first_fitting_day (today L : Z) (u : gmap Z Z) (mins daily d : Z) : Prop :=
  today + 1 <= d <= today + L /\ fits u mins daily d /\
  forall j, today + 1 <= j < d -> ~ fits u mins daily j.

Definition no_fitting_day (today L : Z) (u : gmap Z Z) (mins daily : Z) : Prop :=
  forall j, today + 1 <= j <= today + L -> ~ fits u mins daily j.

(** The writes of a re-placement trace, replayed on a database. *)
Definition replay_replaced (log : list (task * Z)) (db : store) : store :=
  fold_left
    (fun db0 e =>
       update_status_query pending (t_id (fst e))
         (update_task_schedule (t_id (fst e)) (snd e) "any" db0))
    log db.

Record resched_inv (today L : Z) (u0 : gmap Z Z) (db0 : store)
    (seen : list task) (st : resched_state) : Prop := {
  rinv_used : forall d,
    used_get (used st) d = used_get u0 d + replaced_minutes (replaced st) d;
  rinv_count : rescheduled st = Z.of_nat (length (replaced st));
  rinv_rows : forall r d, In (r, d) (replaced st) -> In r seen;
  rinv_days : forall r d, In (r, d) (replaced st) -> today + 1 <= d <= today + L;
  rinv_db : resched_db st = replay_replaced (replaced st) db0
}.

(** The loop, step by step, in the words of the specification: a
    missed row either goes to its first fitting day, which takes its
    minutes, gives the row that date and the status [pending] and counts
    it, or has no fitting day and leaves everything as it is. *)
Inductive replaces (today daily L : Z)
    : list task -> resched_state -> resched_state -> Prop :=
  | replaces_done st : replaces today daily L [] st st
  | replaces_placed r rows st st1 st' d :
      first_fitting_day today L (used st) (minutes r) daily d ->
      used st1 = <[ d := used_get (used st) d + minutes r ]> (used st) ->
      tasks (resched_db st1) =
        map (set_schedule d pending "any" (t_id r)) (tasks (resched_db st)) ->
      sessions (resched_db st1) = sessions (resched_db st) ->
      reviews (resched_db st1) = reviews (resched_db st) ->
      rescheduled st1 = rescheduled st + 1 ->
      replaced st1 = replaced st ++ [(r, d)] ->
      replaces today daily L rows st1 st' ->
      replaces today daily L (r :: rows) st st'
  | replaces_skipped r rows st st' :
      no_fitting_day today L (used st) (minutes r) daily ->
      replaces today daily L rows st st' ->
      replaces today daily L (r :: rows) st st'.

(** A 60-minute task already on day [today + 2], a full day 1, and a
    missed task of 30 minutes, with [lookahead_days = 2]. *)
Definition overbooked_db : store :=
  mk_store
    [mk_task 1 "A" "a" 60 3 3 9 (Some 2) "any" pending 0;
     mk_task 2 "B" "b" 60 3 3 9 (Some 1) "any" pending 0;
     mk_task 3 "M" "m" 30 3 3 9 (Some (-1)) "any" missed 0]
    [] [].

(** A missed task whose [minutes] column holds -10. *)
Definition negative_minutes_db : store :=
  mk_store [mk_task 1 "X" "t" (-10) 3 3 9 None "any" missed 0] [] [].

(** [a] is not after [b]: earlier deadline; or the same deadline and a
    higher priority; or the same deadline and priority and at least the
    difficulty. *)
Definition sched_before (a b : task) : Prop :=
  deadline a < deadline b \/
  (deadline a = deadline b /\
   (priority b < priority a \/
    (priority a = priority b /\ difficulty b <= difficulty a))).

Definition same_sort_key (x a : task) : bool :=
  (deadline a =? deadline x) && (priority a =? priority x) &&
  (difficulty a =? difficulty x).

(** Capacity is ample when one day holds the calibrated minutes of the
    whole backlog. *)
Definition ample (speed : gmap string float) (daily : Z) (rows : list task) : Prop :=
  sum_Z (map (minutes_needed speed) rows) <= daily.

(** The columns of a task that no UPDATE of the scheduler writes. *)
Definition task_content (t : task) : string * string * Z * Z * Z * Z :=
  (subject t, topic t, minutes t, difficulty t, priority t, deadline t).

Definition has_subject (db : store) (sub : string) : Prop :=
  exists t, In t (tasks db) /\ subject t = sub.

(** One pending task, as the Add Task form creates it. *)
Definition single_task_db : store :=
  mk_store [mk_task 1 "Math" "Limits" 90 4 5 10 None "morning" pending 0] [] [].

(** Rows with positive rowids: the review loop only appends rows, and
    the rows it appends have no scheduled date. *)
Definition only_undated_rows_added (db0 db : store) : Prop :=
  (forall t, In t (tasks db) -> 1 <= t_id t) /\
  (forall t, In t (tasks db) -> In t (tasks db0) \/ scheduled_date t = None).

(** The two tasks of the ordering example: A (deadline day 5, priority
    5) and B (deadline day 3, priority 1), A first in the table. *)
Definition deadline_priority_db : store :=
  mk_store
    [mk_task 1 "A" "a" 30 3 5 5 None "any" pending 0;
     mk_task 2 "B" "b" 30 3 1 3 None "any" pending 0]
    [] [].

(** A missed task of 30 minutes, more than a day of 20 can take. *)
Definition unplaceable_db : store :=
  mk_store [mk_task 1 "M" "m" 30 3 3 9 (Some (-1)) "evening" missed 0] [] [].

(** * The rest of the module

    The remaining writers and readers of the database: status updates,
    session records, the progress table, the dashboard statistics and
    the body of the Done button. *)

(** [update_task_status(task_id, status)] *)
Definition update_task_status (tid : Z) (st : task_status) (db : store) : store :=
  snd (run_query (sql_update_status st tid) db).

(** INSERT INTO sessions (task_id, duration_minutes, timestamp).  The
    timestamp column is read by no function and is not part of
    [session]; the rowid of the new session is never read either. *)
Definition sql_insert_session (tid dur : Z) (c : connection) : unit * connection :=
  let db := conn_db c in
  (tt, {| conn_db := {| tasks := tasks db;
                        sessions := sessions db ++ [mk_session tid dur];
                        reviews := reviews db |};
          conn_last_rowid := 1 + Z.of_nat (length (sessions db)) |}).

(** [record_session(task_id, duration_minutes)] *)
Definition record_session (tid dur : Z) (db : store) : store :=
  snd (run_query (sql_insert_session tid dur) db).

(** A row of the [progress] table, whose primary key is the topic. *)
Record progress_row : Set := mk_progress {
  p_topic : string;
  completed : Z;
  last_score : Z
}.

(** [mark_topic_completed(topic, score)]: an UPDATE when the SELECT
    finds the topic, an INSERT otherwise. *)
Definition mark_topic_completed (top : string) (score : Z)
    (progress : list progress_row) : list progress_row :=
  match List.filter (fun r => String.eqb (p_topic r) top) progress with
  | [] => progress ++ [mk_progress top 1 score]
  | _ =>
      map (fun r => if String.eqb (p_topic r) top
                    then mk_progress (p_topic r) 1 score
                    else r)
        progress
  end.

(** [get_progress()]: the dictionary comprehension over the rows, a
    later row overwriting an earlier one with the same topic. *)
Definition get_progress (progress : list progress_row) : gmap string (Z * Z) :=
  fold_left (fun m r => <[ p_topic r := (completed r, last_score r) ]> m)
    progress ∅.

(** SELECT subject FROM tasks WHERE id = ?, and [t[0][0]] of the answer. *)
Definition subject_of_id (db : store) (tid : Z) : option string :=
  match List.filter (fun t => t_id t =? tid) (tasks db) with
  | [] => None
  | t :: _ => Some (subject t)
  end.

(** One iteration of [for task_id, dur in rows] of [compute_stats]. *)
Definition add_time_spent (db : store) (acc : gmap string Z) (se : session)
    : gmap string Z :=
  match subject_of_id db (task_id se) with
  | Some sub => <[ sub := default 0 (acc !! sub) + duration_minutes se ]> acc
  | None => acc
  end.

Definition time_spent_by_subject (db : store) : gmap string Z :=
  fold_left (add_time_spent db) (sessions db) ∅.

(** [len(tasks[tasks['status'] == st])] *)
Definition count_status (st : task_status) (rows : list task) : Z :=
  Z.of_nat (length (List.filter (fun t => status_eqb (status t) st) rows)).

Record stats : Type := mk_stats {
  total : Z;
  stat_done : Z;
  stat_missed : Z;
  stat_pending : Z;
  time_spent : gmap string Z;
  progress_map : gmap string (Z * Z)
}.

(** [compute_stats()] *)
Definition compute_stats (db : store) (progress : list progress_row) : stats :=
  let rows := fetch_tasks (fun _ => true) db in
  {| total := Z.of_nat (length rows);
     stat_done := count_status done rows;
     stat_missed := count_status missed rows;
     stat_pending := count_status pending rows;
     time_spent := time_spent_by_subject db;
     progress_map := get_progress progress |}.

(** The body of the Done button of a schedule row [r], [dur] being the
    value of the minutes input:
    [record_session(id, dur); update_task_status(id, 'done');
     mark_topic_completed(r['topic'], 0)]. *)
Definition mark_done (r : task) (dur : Z) (s : store * list progress_row)
    : store * list progress_row :=
  (update_task_status (t_id r) done (record_session (t_id r) dur (fst s)),
   mark_topic_completed (topic r) 0 (snd s)).

(** ** Vocabulary of the further statements *)

(** The primary key of [tasks]: rowids are distinct and positive. *)
Definition wf_ids (db : store) : Prop :=
  List.NoDup (map t_id (tasks db)) /\ forall t, In t (tasks db) -> 1 <= t_id t.

(** What the writes of a placement trace make of one row. *)
Definition replay_row (log : list (task * Z)) (t : task) : task :=
  fold_left
    (fun t0 e => set_schedule (snd e) pending (preferred_window (fst e)) (t_id (fst e)) t0)
    log t.

(** The order of [fetch_tasks]: dated rows first, by date and then by
    deadline; undated rows after them, by deadline. *)
Definition fetch_before (a b : task) : Prop :=
  match scheduled_date a, scheduled_date b with
  | Some x, Some y => x < y \/ (x = y /\ deadline a <= deadline b)
  | Some _, None => True
  | None, Some _ => False
  | None, None => deadline a <= deadline b
  end.

(** The seed data after an hour-long session on its first task. *)
Definition practised_db : store := record_session 1 60 (seed_demo_data 0 0).

(** The invariant of [first_scheduled_for_topic] along the placement
    loop: one entry per subject placed so far, holding the day of the
    subject's first placement. *)
Record first_inv (st : sched_state) : Prop := {
  first_nodup : List.NoDup (map fst (first_scheduled_for_topic st));
  first_covers : forall row d, In (row, d) (placed st) ->
                 In (subject row) (map fst (first_scheduled_for_topic st));
  first_is_first : forall sub D, In (sub, D) (first_scheduled_for_topic st) ->
    exists pre row post,
      placed st = pre ++ (row, D) :: post /\ subject row = sub /\
      forall e, In e pre -> subject (fst e) <> sub
}.

(** No row of the table is both [pending] and undated. *)
Definition no_backlog (db : store) : Prop :=
  forall t, In t (tasks db) -> is_unscheduled_pending t = false.

(** The content of a review row made for subject [sub], first scheduled
    on day [D], at offset [o]. *)
Definition is_review_content (first : list (string * Z)) (offs : list Z)
    (c : string * string * Z * Z * Z * Z) : Prop :=
  exists sub D top mins o,
    In (sub, D) first /\ In o offs /\
    c = (sub +:+ " (review)", top +:+ " - review", review_minutes mins, 1, 3, D + o).

(** A backlog row as the placement loop leaves it on day [d]: the
    UPDATE writes the date, the status ['pending'] and the row's time
    window; the other columns are the row's. *)
Definition placed_row (row : task) (d : Z) : task :=
  mk_task (t_id row) (subject row) (topic row) (minutes row) (difficulty row)
    (priority row) (deadline row) (Some d) (preferred_window row) pending
    (created_at row).

(** Every entry of a placement trace sits on the first day of the window
    that still has room for it once the entries before it are placed. *)
Definition first_fit_trace (speed : gmap string float) (today L daily : Z)
    (log : list (task * Z)) : Prop :=
  forall pre row d post, log = pre ++ (row, d) :: post ->
    today <= d < today + L /\
    placed_minutes speed pre d + minutes_needed speed row <= daily /\
    forall d', today <= d' < d ->
      daily < placed_minutes speed pre d' + minutes_needed speed row.

(** The ordering example on 2024-01-01 (ordinal 738886) under
    pressure: A (due in 5 days, priority 5) and B (due in 3 days,
    priority 1), 30 minutes each, with 45 minutes a day. *)
Definition deadline_priority_2024 : store :=
  mk_store
    [mk_task 1 "A" "a" 30 3 5 738891 None "any" pending 0;
     mk_task 2 "B" "b" 30 3 1 738889 None "any" pending 0]
    [] [].

Definition pressure_run : schedule_result :=
  smart_schedule_run 0 738886 45 [1; 3; 7] 7 deadline_priority_2024.

(** A missed row as [reschedule_missed] leaves it on day [d]: the date,
    the time window ['any'] and the status ['pending'] are written. *)
Definition replaced_row (r : task) (d : Z) : task :=
  mk_task (t_id r) (subject r) (topic r) (minutes r) (difficulty r)
    (priority r) (deadline r) (Some d) "any" pending (created_at r).

(** The used minutes of day [j] once the re-placements of [log] are
    made: the minutes the database holds on that day, if it is a day of
    the ledger, and the minutes re-placed there. *)
Definition occupied (today L : Z) (db : store) (log : list (task * Z)) (j : Z) : Z :=
  (if (today <=? j) && (j <? today + L) then scheduled_minutes (tasks db) j else 0) +
  replaced_minutes log j.

(** Every entry of a re-placement trace sits on the first day after
    today on which it fits, given the entries before it. *)
Definition first_fit_replacements (today L daily : Z) (db : store)
    (log : list (task * Z)) : Prop :=
  forall pre r d post, log = pre ++ (r, d) :: post ->
    today + 1 <= d <= today + L /\
    occupied today L db pre d + minutes r <= daily /\
    forall j, today + 1 <= j < d -> daily < occupied today L db pre j + minutes r.

(** The example of the specification on 2024-01-01 (ordinal 738886):
    40 minutes already on the next day, a missed task M of 30 minutes,
    and a missed task N of 70 minutes, more than a day of 60 holds. *)
Definition day_one_busy_db : store :=
  mk_store
    [mk_task 1 "A" "a" 40 3 3 738895 (Some 738887) "any" pending 0;
     mk_task 2 "M" "m" 30 3 3 738895 (Some 738884) "any" missed 0;
     mk_task 3 "N" "n" 70 3 3 738895 (Some 738885) "evening" missed 0]
    [] [].

(** ** The range of [date]

    [date] holds the ordinals 1 (0001-01-01) to 3652059 (9999-12-31),
    and [timedelta(days=k)] takes the [k] of magnitude at most
    999999999; arithmetic that leaves either range raises
    [OverflowError].  The embedding computes on [Z]: it is what the
    source does as long as every date it forms is a [date]. *)
Definition is_date (d : Z) : Prop := 1 <= d <= 3652059.

Definition is_timedelta (k : Z) : Prop := -999999999 <= k <= 999999999.

(** The days a run can form from [today] and [lookahead_days] are
    dates: [today + timedelta(days=i)] for [i] up to [lookahead_days]. *)
Definition window_in_range (today L : Z) : Prop :=
  is_date today /\ is_timedelta L /\ is_date (today + L).

(** So are the dates of the review loop: the bound
    [today + timedelta(days=lookahead_days)] of its guard and, for every
    day [D] of the window and every offset,
    [D + timedelta(days=offset)]. *)
Definition dates_in_range (today L : Z) (offs : list Z) : Prop :=
  window_in_range today L /\
  forall o, In o offs ->
    is_timedelta o /\ is_date (today + o) /\ is_date (today + L - 1 + o).

(** The seed data on 2024-01-01, ordinal 738886. *)
Definition seed_2024 : store := seed_demo_data 0 738886.

(** The column sums behind the means are exact: the absolute values of
    each column of the join add up to less than 2^53, and so does the
    row count.  pandas converts the columns to binary64 and adds
    doubles; under this bound every partial sum, in any order of
    addition and with or without compensation, is an integer that
    binary64 represents, so the sum it divides is the integer sum that
    [mean] converts. *)
Definition sums_exact (db : store) : Prop :=
  sum_Z (map (fun r => Z.abs (row_estimated r)) (joined_rows db)) < 2 ^ 53 /\
  sum_Z (map (fun r => Z.abs (row_actual r)) (joined_rows db)) < 2 ^ 53 /\
  Z.of_nat (length (joined_rows db)) < 2 ^ 53.


(** SQLite's largest rowid.  An INSERT takes the largest rowid plus one
    as long as that largest rowid is below this limit; [rowids_fit db k]
    says that the next [k] INSERTs into [tasks] stay within it. *)
Definition max_rowid : Z := 2 ^ 63 - 1.

Definition rowids_fit (db : store) (k : Z) : Prop :=
  next_rowid (tasks db) + k <= max_rowid + 1.

(** * Properties *)

(** ** Ranges and ledgers *)

Lemma in_py_range (a b k : Z) : In k (py_range a b) <-> a <= k < b.
Proof.
  unfold py_range. rewrite <- list_elem_of_In, elem_of_seqZ. lia.
Qed.

Lemma in_schedule_days (today L d : Z) :
  In d (schedule_days today L) <-> today <= d < today + L.
Proof.
  unfold schedule_days. rewrite in_map_iff. split.
  - intros (i & <- & Hi). apply in_py_range in Hi. lia.
  - intros Hd. exists (d - today). split; [lia|]. apply in_py_range. lia.
Qed.

Lemma in_candidate_days (today L d : Z) :
  In d (candidate_days today L) <-> today + 1 <= d <= today + L.
Proof.
  unfold candidate_days. rewrite in_map_iff. split.
  - intros (i & <- & Hi). apply in_py_range in Hi. lia.
  - intros Hd. exists (d - today). split; [lia|]. apply in_py_range. lia.
Qed.

Lemma fresh_capacity_in (days : list Z) (daily d : Z) :
  In d days -> fresh_capacity days daily !! d = Some daily.
Proof.
  induction days as [|x days IH]; simpl; [tauto|].
  intros [->|Hin].
  - apply lookup_insert_eq.
  - destruct (decide (x = d)) as [->|Hne].
    + apply lookup_insert_eq.
    + rewrite lookup_insert_ne by done. auto.
Qed.

Lemma fresh_capacity_out (days : list Z) (daily d : Z) :
  ~ In d days -> fresh_capacity days daily !! d = None.
Proof.
  induction days as [|x days IH]; simpl; intros Hd.
  - apply lookup_empty.
  - rewrite lookup_insert_ne by tauto. apply IH. tauto.
Qed.

Lemma candidates_subset (days : list Z) (dl d : Z) :
  In d (candidates days dl) -> In d days.
Proof.
  unfold candidates.
  destruct (List.filter (fun d0 => d0 <=? dl) days) eqn:E; [tauto|].
  rewrite <- E. rewrite filter_In. tauto.
Qed.

(** ** The capacity scan *)

Lemma first_with_capacity_Some (cap : gmap Z Z) (need : Z) (days : list Z) (d : Z) :
  first_with_capacity cap need days = Some d ->
  exists pre post c,
    days = pre ++ d :: post /\
    cap !! d = Some c /\ need <= c /\
    forall d' c', In d' pre -> cap !! d' = Some c' -> c' < need.
Proof.
  induction days as [|x days IH]; simpl; [discriminate|].
  destruct (cap !! x) as [c|] eqn:Hx.
  - destruct (need <=? c) eqn:Hle.
    + intros [= <-]. exists [], days, c. repeat split; auto; [lia|].
      intros ? ? [].
    + intros H. destruct (IH H) as (pre & post & c0 & -> & Hc & Hn & Hpre).
      exists (x :: pre), post, c0. repeat split; auto.
      intros d' c' [<-|Hin] Hl; [|eauto].
      rewrite Hx in Hl. injection Hl as <-. lia.
  - intros H. destruct (IH H) as (pre & post & c0 & -> & Hc & Hn & Hpre).
    exists (x :: pre), post, c0. repeat split; auto.
    intros d' c' [<-|Hin] Hl; [congruence|eauto].
Qed.

Lemma first_with_capacity_None (cap : gmap Z Z) (need : Z) (days : list Z) :
  first_with_capacity cap need days = None ->
  forall d c, In d days -> cap !! d = Some c -> c < need.
Proof.
  induction days as [|x days IH]; simpl; [tauto|].
  destruct (cap !! x) as [c|] eqn:Hx.
  - destruct (need <=? c) eqn:Hle; [discriminate|].
    intros H d c' [<-|Hin] Hl; [|eauto].
    rewrite Hx in Hl. injection Hl as <-. lia.
  - intros H d c' [<-|Hin] Hl; [congruence|eauto].
Qed.

Lemma first_with_capacity_in (cap : gmap Z Z) (need : Z) (days : list Z) (d : Z) :
  first_with_capacity cap need days = Some d -> In d days.
Proof.
  intros H. destruct (first_with_capacity_Some _ _ _ _ H) as (pre & post & c & -> & _).
  apply in_or_app. right. now left.
Qed.

(** ** The placement loop *)

Lemma sum_Z_app (l1 l2 : list Z) : sum_Z (l1 ++ l2) = sum_Z l1 + sum_Z l2.
Proof. induction l1; simpl; lia. Qed.

Lemma placed_minutes_snoc (speed : gmap string float) (log : list (task * Z))
    (row : task) (d d' : Z) :
  placed_minutes speed (log ++ [(row, d)]) d' =
  placed_minutes speed log d' + (if d =? d' then minutes_needed speed row else 0).
Proof.
  unfold placed_minutes. rewrite List.filter_app, map_app, sum_Z_app. simpl.
  destruct (d =? d'); simpl; lia.
Qed.

Lemma minutes_needed_ge_5 (speed : gmap string float) (row : task) :
  5 <= minutes_needed speed row.
Proof. unfold minutes_needed. lia. Qed.

Lemma placed_minutes_nonneg (speed : gmap string float) (log : list (task * Z)) (d : Z) :
  0 <= placed_minutes speed log d.
Proof.
  unfold placed_minutes.
  induction log as [|[row d0] log IH]; simpl; [lia|].
  destruct (d0 =? d); simpl; auto.
  pose proof (minutes_needed_ge_5 speed row). lia.
Qed.

Lemma loop_inv_init (speed : gmap string float) (days : list Z) (daily : Z)
    (db0 : store) :
  loop_inv speed days daily [] db0
    {| day_capacity := fresh_capacity days daily; scheduled_count := 0;
       first_scheduled_for_topic := []; sched_db := db0; placed := [] |}.
Proof.
  constructor; simpl; try tauto; auto.
  - intros d Hd. rewrite fresh_capacity_in by done. f_equal. unfold placed_minutes. simpl. lia.
  - apply fresh_capacity_out.
Qed.

Lemma loop_inv_commit (speed : gmap string float) (days : list Z) (daily : Z)
    (seen : list task) (db0 : store) (st : sched_state) (row : task) (d c : Z) :
  loop_inv speed days daily seen db0 st ->
  In d days ->
  day_capacity st !! d = Some c -> minutes_needed speed row <= c ->
  loop_inv speed days daily (seen ++ [row]) db0
    (commit_placement (minutes_needed speed row) row d st).
Proof.
  intros Hinv Hd Hc Hle.
  pose proof (inv_ledger_in _ _ _ _ _ _ Hinv d Hd) as Hcd.
  rewrite Hc in Hcd. injection Hcd as Hcd.
  pose proof (minutes_needed_ge_5 speed row) as H5.
  constructor; simpl.
  - intros d' Hd'. rewrite placed_minutes_snoc.
    destruct (Z.eqb_spec d d') as [<-|Hne].
    + rewrite lookup_insert_eq, Hc. simpl. f_equal. lia.
    + rewrite lookup_insert_ne by done.
      rewrite (inv_ledger_in _ _ _ _ _ _ Hinv d' Hd'). f_equal. lia.
  - intros d' Hd'. rewrite lookup_insert_ne by (intros ->; tauto).
    apply (inv_ledger_out _ _ _ _ _ _ Hinv d' Hd').
  - intros d'. rewrite placed_minutes_snoc.
    destruct (Z.eqb_spec d d') as [<-|Hne].
    + right. lia.
    + rewrite Z.add_0_r. apply (inv_room _ _ _ _ _ _ Hinv).
  - rewrite length_app. simpl. rewrite (inv_count _ _ _ _ _ _ Hinv). lia.
  - intros row' d' [Hin|[[= <- <-]|[]]]%in_app_or; auto.
    apply (inv_days _ _ _ _ _ _ Hinv _ _ Hin).
  - intros row' d' [Hin|[[= <- <-]|[]]]%in_app_or; apply in_or_app.
    + left. apply (inv_rows _ _ _ _ _ _ Hinv _ _ Hin).
    + right. now left.
  - intros row' [Hseen|[<-|[]]]%in_app_or Hnot d' c' Hl.
    + assert (Hold : forall d0 c0, day_capacity st !! d0 = Some c0 ->
                                   c0 < minutes_needed speed row').
      { apply (inv_full _ _ _ _ _ _ Hinv row' Hseen).
        intros d0 Hin. apply (Hnot d0). apply in_or_app. now left. }
      destruct (decide (d = d')) as [<-|Hne].
      * rewrite lookup_insert_eq in Hl. injection Hl as <-.
        rewrite Hc. simpl. specialize (Hold d c Hc). lia.
      * rewrite lookup_insert_ne in Hl by done. eauto.
    + exfalso. apply (Hnot d). apply in_or_app. right. now left.
  - unfold replay. rewrite fold_left_app. simpl.
    f_equal. apply (inv_db _ _ _ _ _ _ Hinv).
  - intros sub d'. unfold record_first.
    destruct (existsb _ _).
    + intros Hin. destruct (inv_first _ _ _ _ _ _ Hinv _ _ Hin) as (r & Hr & Hs).
      exists r. split; [apply in_or_app; now left|done].
    + intros [Hin|[[= <- <-]|[]]]%in_app_or.
      * destruct (inv_first _ _ _ _ _ _ Hinv _ _ Hin) as (r & Hr & Hs).
        exists r. split; [apply in_or_app; now left|done].
      * exists row. split; [apply in_or_app; right; now left|done].
Qed.

Lemma loop_inv_skip (speed : gmap string float) (days : list Z) (daily : Z)
    (seen : list task) (db0 : store) (st : sched_state) (row : task) :
  loop_inv speed days daily seen db0 st ->
  first_with_capacity (day_capacity st) (minutes_needed speed row) days = None ->
  loop_inv speed days daily (seen ++ [row]) db0 st.
Proof.
  intros Hinv Hnone. destruct Hinv. constructor; auto.
  - intros row' d Hin. apply in_or_app. left. eauto.
  - intros row' [Hseen|[<-|[]]]%in_app_or Hnot d c Hl; [eauto|].
    destruct (in_dec Z.eq_dec d days) as [Hd|Hd].
    + apply (first_with_capacity_None _ _ _ Hnone d c Hd Hl).
    + rewrite inv_ledger_out0 in Hl by done. discriminate.
Qed.

Lemma loop_inv_step (speed : gmap string float) (days : list Z) (daily : Z)
    (seen : list task) (db0 : store) (st : sched_state) (row : task) :
  loop_inv speed days daily seen db0 st ->
  loop_inv speed days daily (seen ++ [row]) db0 (place_task speed days st row).
Proof.
  intros Hinv. unfold place_task.
  destruct (first_with_capacity _ _ (candidates _ _)) as [d|] eqn:E1.
  - destruct (first_with_capacity_Some _ _ _ _ E1) as (pre & post & c & Hl & Hc & Hle & _).
    apply loop_inv_commit with (c := c); auto.
    apply (candidates_subset days (deadline row)). rewrite Hl.
    apply in_or_app. right. now left.
  - destruct (first_with_capacity _ _ days) as [d|] eqn:E2.
    + destruct (first_with_capacity_Some _ _ _ _ E2) as (pre & post & c & Hl & Hc & Hle & _).
      apply loop_inv_commit with (c := c); auto.
      rewrite Hl. apply in_or_app. right. now left.
    + now apply loop_inv_skip.
Qed.

Lemma loop_inv_fold (speed : gmap string float) (days : list Z) (daily : Z)
    (db0 : store) (todo seen : list task) (st : sched_state) :
  loop_inv speed days daily seen db0 st ->
  loop_inv speed days daily (seen ++ todo) db0 (fold_left (place_task speed days) todo st).
Proof.
  revert seen st. induction todo as [|row todo IH]; simpl; intros seen st Hinv.
  - now rewrite app_nil_r.
  - replace (seen ++ row :: todo) with ((seen ++ [row]) ++ todo)
      by (now rewrite <- app_assoc).
    apply IH. now apply loop_inv_step.
Qed.

Lemma placement_loop_inv (speed : gmap string float) (today daily L : Z)
    (rows : list task) (db0 : store) :
  loop_inv speed (schedule_days today L) daily rows db0
    (placement_loop speed today daily L rows db0).
Proof.
  unfold placement_loop.
  apply (loop_inv_fold speed _ daily db0 rows []). apply loop_inv_init.
Qed.

(** ** What the writes do to the [tasks] table *)

Lemma tasks_update_task_schedule (tid d : Z) (tw : string) (db : store) :
  tasks (update_task_schedule tid d tw db) =
  map (set_schedule d pending tw tid) (tasks db).
Proof. reflexivity. Qed.

Lemma tasks_update_status_query (st : task_status) (tid : Z) (db : store) :
  tasks (update_status_query st tid db) = map (set_status st tid) (tasks db).
Proof. reflexivity. Qed.

Lemma set_schedule_other (d : Z) (st : task_status) (tw : string) (tid : Z) (t : task) :
  t_id t <> tid -> set_schedule d st tw tid t = t.
Proof. intros H. unfold set_schedule. destruct (Z.eqb_spec (t_id t) tid); congruence. Qed.

Lemma set_status_other (st : task_status) (tid : Z) (t : task) :
  t_id t <> tid -> set_status st tid t = t.
Proof. intros H. unfold set_status. destruct (Z.eqb_spec (t_id t) tid); congruence. Qed.

Lemma update_task_schedule_keeps (tid d : Z) (tw : string) (db : store) (t : task) :
  In t (tasks db) -> t_id t <> tid -> In t (tasks (update_task_schedule tid d tw db)).
Proof.
  intros Hin Hne. rewrite tasks_update_task_schedule. apply in_map_iff.
  exists t. split; [now apply set_schedule_other|done].
Qed.

Lemma replay_keeps (log : list (task * Z)) (db : store) (t : task) :
  In t (tasks db) ->
  (forall row d, In (row, d) log -> t_id row <> t_id t) ->
  In t (tasks (replay log db)).
Proof.
  revert db. induction log as [|[row d] log IH]; simpl; intros db Hin Hne; [done|].
  apply IH.
  - apply update_task_schedule_keeps; [done|].
    intros Heq. apply (Hne row d); [now left|done].
  - intros row' d' Hin'. apply (Hne row' d'). now right.
Qed.

Lemma tasks_create_review (now today L : Z) (sub : string) (D oid : Z)
    (top : string) (mins : Z) (db : store) (offset : Z) :
  tasks (create_review now today L sub D oid top mins db offset) =
  if D + offset <=? today + L
  then map (set_schedule (D + offset) pending "any" 0)
         (tasks db ++
          [mk_task (next_rowid (tasks db)) (sub +:+ " (review)") (top +:+ " - review")
             (review_minutes mins) 1 3 (D + offset) None "any" review now])
  else tasks db.
Proof. unfold create_review. destruct (D + offset <=? today + L); reflexivity. Qed.

Lemma reviews_create_review (now today L : Z) (sub : string) (D oid : Z)
    (top : string) (mins : Z) (db : store) (offset : Z) :
  reviews (create_review now today L sub D oid top mins db offset) =
  if D + offset <=? today + L
  then reviews db ++ [mk_review oid 0 offset]
  else reviews db.
Proof. unfold create_review. destruct (D + offset <=? today + L); reflexivity. Qed.

Lemma create_review_keeps (now today L : Z) (sub : string) (D oid : Z)
    (top : string) (mins : Z) (db : store) (offset : Z) (t : task) :
  In t (tasks db) -> t_id t <> 0 ->
  In t (tasks (create_review now today L sub D oid top mins db offset)).
Proof.
  intros Hin Hne. rewrite tasks_create_review.
  destruct (D + offset <=? today + L); [|done].
  apply in_map_iff. exists t. split; [now apply set_schedule_other|].
  apply in_or_app. now left.
Qed.

Lemma create_reviews_for_keeps (now today L : Z) (offs : list Z) (db : store)
    (e : string * Z) (t : task) :
  In t (tasks db) -> t_id t <> 0 ->
  In t (tasks (create_reviews_for now today L offs db e)).
Proof.
  intros Hin Hne. unfold create_reviews_for.
  destruct (first_task_of_subject db (fst e)) as [[[oid top] mins]|]; [|done].
  revert db Hin. induction offs as [|o offs IH]; simpl; intros db Hin; [done|].
  apply IH. now apply create_review_keeps.
Qed.

Lemma review_loop_keeps (now today L : Z) (offs : list Z)
    (first : list (string * Z)) (db : store) (t : task) :
  In t (tasks db) -> t_id t <> 0 ->
  In t (tasks (fold_left (create_reviews_for now today L offs) first db)).
Proof.
  intros Hin Hne. revert db Hin.
  induction first as [|e first IH]; simpl; intros db Hin; [done|].
  apply IH. now apply create_reviews_for_keeps.
Qed.

(** ** The run as a whole *)

(** The placement state a run reaches, whether or not the backlog is
    empty: an empty backlog is the loop over no rows. *)
Lemma smart_schedule_run_placement (now today daily : Z) (offs : list Z) (L : Z)
    (db : store) :
  let r := smart_schedule_run now today daily offs L db in
  let st := placement_loop (compute_subject_speed db) today daily L (sorted_pending db) db in
  res_count r = scheduled_count st /\ res_placed r = placed st /\
  res_first r = first_scheduled_for_topic st /\
  res_db r = fold_left (create_reviews_for now today L offs)
               (first_scheduled_for_topic st) (sched_db st) /\
  (forall d, In d (schedule_days today L) ->
             fetch_tasks is_unscheduled_pending db <> [] ->
             res_capacity r !! d = day_capacity st !! d).
Proof.
  unfold smart_schedule_run, sorted_pending.
  destruct (fetch_tasks is_unscheduled_pending db) eqn:E; simpl.
  - repeat split; auto. intros; congruence.
  - repeat split; auto.
Qed.

(** ** The stable sort: permutation, order, stability *)

Section StableSortFacts.
Context {A : Type} (leb : A -> A -> bool).

Lemma insert_sorted_perm (x : A) (l : list A) :
  Permutation (insert_sorted leb x l) (x :: l).
Proof.
  induction l as [|y l IH]; simpl; [done|].
  destruct (leb x y); [done|].
  rewrite IH. apply perm_swap.
Qed.

Lemma stable_sort_perm (l : list A) : Permutation (stable_sort leb l) l.
Proof.
  induction l as [|x l IH]; simpl; [done|].
  rewrite insert_sorted_perm. now constructor.
Qed.

Lemma in_stable_sort (x : A) (l : list A) : In x (stable_sort leb l) <-> In x l.
Proof.
  split; apply Permutation_in; [|symmetry]; apply stable_sort_perm.
Qed.

Lemma stable_sort_nil_iff (l : list A) : stable_sort leb l = [] <-> l = [].
Proof.
  split; [|now intros ->].
  intros H. pose proof (stable_sort_perm l) as Hp. rewrite H in Hp.
  now apply Permutation_nil in Hp.
Qed.

(** Stability, in the form used below: a class [P] of rows any two of
    which are in order both ways comes out of the sort in the order it
    went in. *)
Lemma filter_insert_sorted (P : A -> bool) (x : A) (l : list A) :
  (forall y, In y l -> P x = true -> P y = true -> leb x y = true) ->
  List.filter P (insert_sorted leb x l) = List.filter P (x :: l).
Proof.
  induction l as [|y l IH]; intros Hcls; [done|].
  simpl. destruct (leb x y) eqn:Hxy; [done|].
  simpl. rewrite IH by (intros; apply Hcls; auto; now right).
  simpl. destruct (P x) eqn:Px, (P y) eqn:Py; try done.
  rewrite Hcls in Hxy; [discriminate|now left|done|done].
Qed.

Lemma filter_stable_sort (P : A -> bool) (l : list A) :
  (forall a b, In a l -> In b l -> P a = true -> P b = true -> leb a b = true) ->
  List.filter P (stable_sort leb l) = List.filter P l.
Proof.
  induction l as [|x l IH]; intros Hcls; [done|].
  simpl stable_sort. rewrite filter_insert_sorted.
  - simpl. rewrite IH; [done|]. intros a b Ha Hb. apply Hcls; now right.
  - intros y Hy. apply Hcls; [now left|]. right. now apply in_stable_sort.
Qed.

Hypothesis leb_total : forall a b, leb a b = true \/ leb b a = true.
Hypothesis leb_trans : forall a b c, leb a b = true -> leb b c = true -> leb a c = true.

Lemma insert_sorted_sorted (x : A) (l : list A) :
  StronglySorted (fun a b => leb a b = true) l ->
  StronglySorted (fun a b => leb a b = true) (insert_sorted leb x l).
Proof.
  induction 1 as [|y l Hs IH Hall]; simpl.
  - repeat constructor.
  - destruct (leb x y) eqn:Hxy.
    + constructor; [now constructor|].
      constructor; [done|].
      eapply Forall_impl; [exact Hall|]. intros z Hz. simpl in Hz. eauto.
    + constructor; [done|].
      apply List.Forall_forall. intros z Hz.
      apply (Permutation_in _ (insert_sorted_perm x l)) in Hz.
      destruct Hz as [<-|Hz].
      * destruct (leb_total x y); congruence.
      * rewrite List.Forall_forall in Hall. auto.
Qed.

Lemma stable_sort_sorted (l : list A) :
  StronglySorted (fun a b => leb a b = true) (stable_sort leb l).
Proof.
  induction l as [|x l IH]; simpl; [constructor|].
  now apply insert_sorted_sorted.
Qed.

End StableSortFacts.

Lemma in_fetch_tasks (w : task -> bool) (db : store) (t : task) :
  In t (fetch_tasks w db) <-> In t (tasks db) /\ w t = true.
Proof. unfold fetch_tasks. rewrite in_stable_sort, filter_In. tauto. Qed.

Lemma in_sorted_pending (db : store) (t : task) :
  In t (sorted_pending db) <->
  In t (tasks db) /\ status t = pending /\ scheduled_date t = None.
Proof.
  unfold sorted_pending, sort_values. rewrite in_stable_sort, in_fetch_tasks.
  unfold is_unscheduled_pending, status_eqb.
  rewrite andb_true_iff, !bool_decide_eq_true. tauto.
Qed.

(** ** Calibration *)

Example calibration_db_multiplier :
  compute_subject_speed calibration_db !! "X"%string = Some 1.25%float.
Proof. vm_compute. reflexivity. Qed.

(** The worked example of the specification: 90 actual minutes against
    60 estimated give 1.5, and a 40-minute task is calibrated to 60. *)
Example calibration_end_to_end :
  let db := mk_store [mk_task 1 "X" "t" 60 3 3 5 (Some 0) "any" done 0;
                      mk_task 2 "X" "u" 40 3 3 9 None "any" pending 1]
                     [mk_session 1 90] [] in
  compute_subject_speed db !! "X"%string = Some 1.5%float /\
  minutes_needed (compute_subject_speed db) (mk_task 2 "X" "u" 40 3 3 9 None "any" pending 1) = 60.
Proof. vm_compute. split; reflexivity. Qed.

(** C4, as stated, fails: on 43 estimated minutes and multiplier 1.25
    the product is 53.75; the run places the task with 53 minutes and
    deducts 53 from the day (60 - 53 = 7 remain), where rounding would
    give 54. *)
Lemma calibration_is_not_rounded :
  let speed := compute_subject_speed calibration_db in
  let row := mk_task 2 "X" "next topic" 43 3 3 9 None "any" pending 1 in
  let r := smart_schedule_run 0 0 60 [] 7 calibration_db in
  In row (sorted_pending calibration_db) /\
  res_placed r = [(row, 0)] /\
  res_capacity r !! 0 = Some (60 - 53) /\
  minutes_needed speed row = 53 /\
  spec_calibrated_minutes speed row = 54 /\
  minutes_needed speed row <> spec_calibrated_minutes speed row.
Proof.
  vm_compute. repeat split; try reflexivity.
  - left. reflexivity.
  - discriminate.
Qed.

Lemma place_task_cases (speed : gmap string float) (days : list Z)
    (st : sched_state) (row : task) :
  (place_task speed days st row = st /\
   forall d c, In d days -> day_capacity st !! d = Some c ->
               c < minutes_needed speed row) \/
  (exists d c,
     In d days /\ day_capacity st !! d = Some c /\ minutes_needed speed row <= c /\
     place_task speed days st row =
       commit_placement (minutes_needed speed row) row d st).
Proof.
  unfold place_task.
  destruct (first_with_capacity _ _ (candidates _ _)) as [d|] eqn:E1.
  - right. destruct (first_with_capacity_Some _ _ _ _ E1) as (pre & post & c & Hl & Hc & Hle & _).
    exists d, c. repeat split; auto.
    apply (candidates_subset days (deadline row)). rewrite Hl.
    apply in_or_app. right. now left.
  - destruct (first_with_capacity _ _ days) as [d|] eqn:E2.
    + right. destruct (first_with_capacity_Some _ _ _ _ E2) as (pre & post & c & Hl & Hc & Hle & _).
      exists d, c. repeat split; auto.
      rewrite Hl. apply in_or_app. right. now left.
    + left. split; [done|]. apply (first_with_capacity_None _ _ _ E2).
Qed.

(** C4, amended: the calibrated minutes are
    [max(5, int(estimated_minutes * multiplier))], the product truncated
    toward zero, with multiplier 1.0 for a subject the estimator does
    not list.  This one number is what the loop compares with a day's
    remaining capacity and what it deducts: each step either finds every
    day short of it and changes nothing, or finds a day with at least
    that much left and takes exactly that much from it; and after a run
    with a non-empty backlog every day of the window holds
    [daily_minutes] less the calibrated minutes placed on it. *)
Theorem calibrated_minutes_are_truncated (now today daily_minutes : Z)
    (review_intervals : list Z) (lookahead_days : Z) (db : store) :
  let speed := compute_subject_speed db in
  let r := smart_schedule_run now today daily_minutes review_intervals lookahead_days db in
  (forall row,
     minutes_needed speed row =
     Z.max 5 (PyFloat.trunc
                (PyFloat.of_int (minutes row) *
                 match speed !! subject row with Some m => m | None => 1 end)%float)) /\
  (forall days st row,
     (place_task speed days st row = st /\
      forall d c, In d days -> day_capacity st !! d = Some c ->
                  c < minutes_needed speed row) \/
     (exists d c,
        In d days /\ day_capacity st !! d = Some c /\ minutes_needed speed row <= c /\
        day_capacity (place_task speed days st row) =
          <[ d := c - minutes_needed speed row ]> (day_capacity st) /\
        placed (place_task speed days st row) = placed st ++ [(row, d)])) /\
  (fetch_tasks is_unscheduled_pending db <> [] ->
   forall d, today <= d < today + lookahead_days ->
     res_capacity r !! d =
     Some (daily_minutes - placed_minutes speed (res_placed r) d)).
Proof.
  intros speed r. split; [|split].
  - intros row. unfold minutes_needed, speed_get.
    destruct (speed !! subject row); reflexivity.
  - intros days st row.
    destruct (place_task_cases speed days st row) as [H|(d & c & Hd & Hc & Hle & Heq)].
    + now left.
    + right. exists d, c. repeat split; auto.
      * rewrite Heq. simpl. now rewrite Hc.
      * now rewrite Heq.
  - intros Hne d Hd.
    destruct (smart_schedule_run_placement now today daily_minutes review_intervals
                lookahead_days db) as (_ & Hplaced & _ & _ & Hcap).
    fold r in Hplaced, Hcap. fold speed in Hplaced, Hcap.
    apply in_schedule_days in Hd.
    rewrite (Hcap d Hd Hne), Hplaced.
    apply (inv_ledger_in _ _ _ _ _ _
             (placement_loop_inv speed today daily_minutes lookahead_days
                (sorted_pending db) db) d Hd).
Qed.

Lemma calibrated_minutes_are_truncated_witness :
  res_capacity (smart_schedule_run 0 0 60 [] 7 calibration_db) !! 0 =
  Some (60 - placed_minutes (compute_subject_speed calibration_db)
               (res_placed (smart_schedule_run 0 0 60 [] 7 calibration_db)) 0).
Proof.
  apply (proj2 (proj2 (calibrated_minutes_are_truncated 0 0 60 [] 7 calibration_db))).
  - vm_compute. discriminate.
  - lia.
Defined.

(** ** The speed estimator *)

Lemma float_ltb_leb (x y : float) :
  PrimFloat.ltb x y = true -> PrimFloat.leb x y = true.
Proof.
  rewrite FloatAxioms.ltb_spec, FloatAxioms.leb_spec. unfold SFltb, SFleb.
  destruct (SFcompare _ _) as [[]|]; congruence.
Qed.

Lemma clamp_bounds (m : float) :
  PrimFloat.leb 0.6 (clamp m) = true /\ PrimFloat.leb (clamp m) 1.6 = true.
Proof.
  unfold clamp, PyFloat.max, PyFloat.min.
  destruct (PrimFloat.ltb m 1.6) eqn:Hhi.
  - destruct (PrimFloat.ltb 0.6 m) eqn:Hlo.
    + split; now apply float_ltb_leb.
    + split; reflexivity.
  - split; reflexivity.
Qed.



Lemma multipliers_lookup (f : string -> float) (rows : list (string * Z * Z))
    (sub : string) :
  fold_right (fun r acc => <[ row_subject r := f (row_subject r) ]> acc)
    (∅ : gmap string float) rows !! sub =
  if existsb (fun r => String.eqb (row_subject r) sub) rows then Some (f sub) else None.
Proof.
  induction rows as [|r rows IH]; simpl; [apply lookup_empty|].
  destruct (String.eqb_spec (row_subject r) sub) as [<-|Hne]; simpl.
  - apply lookup_insert_eq.
  - rewrite lookup_insert_ne by done. exact IH.
Qed.

Lemma compute_subject_speed_lookup (db : store) (sub : string) :
  compute_subject_speed db !! sub =
  if existsb (fun r => String.eqb (row_subject r) sub) (joined_rows db)
  then Some (clamp (raw_multiplier (mean_estimated (joined_rows db) sub)
                                   (mean_actual (joined_rows db) sub)))
  else None.
Proof.
  unfold compute_subject_speed.
  destruct (joined_rows db) as [|r0 rows] eqn:E; [apply lookup_empty|].
  rewrite lookup_fmap.
  rewrite (multipliers_lookup
             (fun s => raw_multiplier (mean_estimated (r0 :: rows) s)
                                      (mean_actual (r0 :: rows) s))).
  destruct (existsb _ _); reflexivity.
Qed.

Lemma existsb_row_subject (rows : list (string * Z * Z)) (sub : string) :
  existsb (fun r => String.eqb (row_subject r) sub) rows = true <->
  exists r, In r rows /\ row_subject r = sub.
Proof.
  split.
  - intros H. apply List.existsb_exists in H as (r & Hr & He).
    exists r. split; [done|]. now apply String.eqb_eq.
  - intros (r & Hr & He). apply List.existsb_exists.
    exists r. split; [done|]. now apply String.eqb_eq.
Qed.




(** *** The sign of a mean of non-negative integers *)


















(** Why the durations must not be negative: the source replaces every
    non-positive mean actual by the estimate, so one session of -30
    minutes gives 1.0, while the quotient of the stated formula, -0.5,
    clamps to 0.6.  The Done form, the only caller of [record_session],
    takes at least 1 minute. *)
Example negative_mean_actual_gives_one :
  let rows := joined_rows negative_session_db in
  has_session negative_session_db "X" /\
  mean_estimated rows "X" = 60%float /\
  mean_actual rows "X" = (-30)%float /\
  compute_subject_speed negative_session_db !! "X"%string = Some 1%float /\
  spec_multiplier (mean_estimated rows "X") (mean_actual rows "X") = 0.6%float /\
  PrimFloat.eqb 1 0.6 = false.
Proof.
  split.
  - exists (mk_session 1 (-30)), (mk_task 1 "X" "t" 60 3 3 5 (Some 0) "any" done 0).
    simpl. auto.
  - vm_compute. repeat split; reflexivity.
Qed.



(** ** Runs that change nothing *)

Lemma filter_none {A : Type} (f : A -> bool) (l : list A) :
  (forall x, In x l -> f x = false) -> List.filter f l = [].
Proof.
  induction l as [|x l IH]; simpl; intros H; [done|].
  rewrite (H x) by now left. apply IH. intros y Hy. apply H. now right.
Qed.

Lemma first_with_capacity_short (cap : gmap Z Z) (need : Z) (days : list Z) :
  (forall d c, In d days -> cap !! d = Some c -> c < need) ->
  first_with_capacity cap need days = None.
Proof.
  induction days as [|d days IH]; simpl; intros H; [done|].
  destruct (cap !! d) as [c|] eqn:Hc.
  - pose proof (H d c (or_introl eq_refl) Hc) as Hlt.
    destruct (Z.leb_spec need c); [lia|]. apply IH. intros d' c' Hd'. apply H. now right.
  - apply IH. intros d' c' Hd'. apply H. now right.
Qed.

Lemma place_task_idle (speed : gmap string float) (days : list Z)
    (st : sched_state) (row : task) :
  (forall d c, In d days -> day_capacity st !! d = Some c -> c < 5) ->
  place_task speed days st row = st.
Proof.
  intros Hshort. unfold place_task.
  pose proof (minutes_needed_ge_5 speed row) as H5.
  rewrite !first_with_capacity_short; [done| |].
  - intros d c Hd Hc. specialize (Hshort d c Hd Hc). lia.
  - intros d c Hd Hc. apply candidates_subset in Hd. specialize (Hshort d c Hd Hc). lia.
Qed.

Lemma placement_loop_idle (speed : gmap string float) (today daily L : Z)
    (rows : list task) (db : store) :
  daily < 5 \/ L < 1 ->
  placement_loop speed today daily L rows db =
  {| day_capacity := fresh_capacity (schedule_days today L) daily;
     scheduled_count := 0; first_scheduled_for_topic := [];
     sched_db := db; placed := [] |}.
Proof.
  intros Hbad. unfold placement_loop.
  induction rows as [|row rows IH]; simpl; [done|].
  rewrite place_task_idle; [exact IH|].
  simpl. intros d c Hd Hc. rewrite fresh_capacity_in in Hc by done.
  injection Hc as <-. apply in_schedule_days in Hd. lia.
Qed.

Lemma smart_schedule_idle (now today daily : Z) (offs : list Z) (L : Z) (db : store) :
  daily < 5 \/ L < 1 -> smart_schedule now today daily offs L db = (0, db).
Proof.
  intros Hbad. unfold smart_schedule.
  destruct (smart_schedule_run_placement now today daily offs L db)
    as (Hcount & _ & _ & Hdb & _).
  rewrite Hcount, Hdb, placement_loop_idle by done. reflexivity.
Qed.

(** C9. With no task both [pending] and without a scheduled date,
    [smart_schedule] returns 0 and leaves the database as it was: no row
    of [tasks] changes and none is added to [tasks] or [reviews]. *)
Theorem empty_backlog_changes_nothing (now today daily_minutes : Z)
    (review_intervals : list Z) (lookahead_days : Z) (db : store) :
  (forall t, In t (tasks db) -> ~ (status t = pending /\ scheduled_date t = None)) ->
  smart_schedule now today daily_minutes review_intervals lookahead_days db = (0, db).
Proof.
  intros Hnone.
  assert (Hempty : fetch_tasks is_unscheduled_pending db = []).
  { unfold fetch_tasks. rewrite filter_none; [reflexivity|].
    intros t Ht. unfold is_unscheduled_pending, status_eqb.
    destruct (bool_decide (status t = pending)) eqn:E1; [|done].
    destruct (bool_decide (scheduled_date t = None)) eqn:E2; [|done].
    apply bool_decide_eq_true in E1, E2. exfalso. apply (Hnone t Ht). auto. }
  unfold smart_schedule, smart_schedule_run. now rewrite Hempty.
Qed.

Lemma empty_backlog_changes_nothing_witness :
  smart_schedule 0 0 120 [1; 3; 7] 60 negative_session_db = (0, negative_session_db).
Proof.
  apply empty_backlog_changes_nothing.
  intros t [<-|[]]. simpl. intros [H _]. discriminate H.
Defined.

(** ** The used-minutes ledger of [reschedule_missed] *)

Lemma sum_Z_perm (l1 l2 : list Z) : Permutation l1 l2 -> sum_Z l1 = sum_Z l2.
Proof. induction 1; simpl; lia. Qed.

Lemma filter_perm {A : Type} (f : A -> bool) (l1 l2 : list A) :
  Permutation l1 l2 -> Permutation (List.filter f l1) (List.filter f l2).
Proof.
  induction 1 as [|x l1 l2 Hp IH|x y l|l1 l2 l3 H1 IH1 H2 IH2]; simpl.
  - constructor.
  - destruct (f x); [now constructor|done].
  - destruct (f x), (f y); try reflexivity. apply perm_swap.
  - now transitivity (List.filter f l2).
Qed.

Lemma scheduled_minutes_perm (l1 l2 : list task) (d : Z) :
  Permutation l1 l2 -> scheduled_minutes l1 d = scheduled_minutes l2 d.
Proof.
  intros Hp. unfold scheduled_minutes. apply sum_Z_perm.
  apply Permutation_map. now apply filter_perm.
Qed.

Lemma scheduled_minutes_cons (t : task) (rows : list task) (d : Z) :
  scheduled_minutes (t :: rows) d =
  (if bool_decide (scheduled_date t = Some d) then minutes t else 0) +
  scheduled_minutes rows d.
Proof.
  unfold scheduled_minutes. simpl.
  destruct (bool_decide (scheduled_date t = Some d)); simpl; lia.
Qed.

Lemma scheduled_minutes_only_scheduled (rows : list task) (d : Z) :
  scheduled_minutes (List.filter is_scheduled rows) d = scheduled_minutes rows d.
Proof.
  induction rows as [|t rows IH]; [done|].
  simpl. unfold is_scheduled at 1.
  destruct (bool_decide (scheduled_date t = None)) eqn:E; simpl.
  - rewrite IH, scheduled_minutes_cons.
    apply bool_decide_eq_true in E.
    rewrite bool_decide_eq_false_2 by congruence. lia.
  - now rewrite !scheduled_minutes_cons, IH.
Qed.

Lemma fresh_used_lookup (today L d : Z) :
  fresh_used today L !! d =
  if (today <=? d) && (d <? today + L) then Some 0 else None.
Proof.
  unfold fresh_used.
  assert (Hgen : forall l : list Z,
    fold_right (fun i m => <[ today + i := 0 ]> m) (∅ : gmap Z Z) l !! d =
    if bool_decide (d - today ∈ l) then Some 0 else None).
  { induction l as [|i l IH]; simpl; [apply lookup_empty|].
    destruct (decide (today + i = d)) as [<-|Hne].
    - rewrite lookup_insert_eq, bool_decide_eq_true_2; [done|].
      apply elem_of_cons. left. lia.
    - rewrite lookup_insert_ne, IH by done.
      destruct (bool_decide (d - today ∈ l)) eqn:E.
      + apply bool_decide_eq_true in E. rewrite bool_decide_eq_true_2; [done|].
        apply elem_of_cons. now right.
      + apply bool_decide_eq_false in E. rewrite bool_decide_eq_false_2; [done|].
        rewrite elem_of_cons. intros [?|?]; [lia|done]. }
  rewrite Hgen.
  destruct ((today <=? d) && (d <? today + L)) eqn:E.
  - rewrite bool_decide_eq_true_2; [done|]. apply list_elem_of_In, in_py_range. lia.
  - rewrite bool_decide_eq_false_2; [done|]. rewrite list_elem_of_In, in_py_range. lia.
Qed.

Lemma count_scheduled_fold (rows : list task) (u : gmap Z Z) (d : Z) :
  fold_left count_scheduled rows u !! d =
  match u !! d with
  | Some c => Some (c + scheduled_minutes rows d)
  | None => None
  end.
Proof.
  revert u. induction rows as [|t rows IH]; intros u; simpl.
  - unfold scheduled_minutes. simpl. destruct (u !! d); [f_equal; lia|done].
  - rewrite IH, scheduled_minutes_cons. unfold count_scheduled.
    destruct (scheduled_date t) as [d0|] eqn:Hs.
    + destruct (decide (d0 = d)) as [->|Hne].
      * rewrite bool_decide_eq_true_2 by done.
        destruct (u !! d) as [c|] eqn:Hu.
        -- rewrite lookup_insert_eq. f_equal. lia.
        -- now rewrite Hu.
      * rewrite bool_decide_eq_false_2 by congruence.
        destruct (u !! d0) as [c0|] eqn:Hu0.
        -- rewrite lookup_insert_ne by done. destruct (u !! d); [f_equal; lia|done].
        -- destruct (u !! d); [f_equal; lia|done].
    + rewrite bool_decide_eq_false_2 by congruence.
      destruct (u !! d); [f_equal; lia|done].
Qed.

(** The ledger has exactly the days [today .. today + lookahead_days - 1]
    as keys, each with the minutes of the tasks scheduled on it. *)
Lemma used_ledger_lookup (today L : Z) (db : store) (d : Z) :
  used_ledger today L db !! d =
  if (today <=? d) && (d <? today + L)
  then Some (scheduled_minutes (tasks db) d)
  else None.
Proof.
  unfold used_ledger. rewrite count_scheduled_fold, fresh_used_lookup.
  destruct ((today <=? d) && (d <? today + L)); [|done].
  f_equal. unfold fetch_tasks.
  rewrite (scheduled_minutes_perm _ _ d (stable_sort_perm fetch_leb _)).
  rewrite scheduled_minutes_only_scheduled. lia.
Qed.

Lemma scheduled_minutes_nonneg (rows : list task) (d : Z) :
  (forall t, In t rows -> 0 <= minutes t) -> 0 <= scheduled_minutes rows d.
Proof.
  induction rows as [|t rows IH]; intros H.
  - unfold scheduled_minutes. simpl. lia.
  - rewrite scheduled_minutes_cons.
    pose proof (H t (or_introl eq_refl)).
    assert (0 <= scheduled_minutes rows d) by (apply IH; intros; apply H; now right).
    destruct (bool_decide _); lia.
Qed.

Lemma used_ledger_nonneg (today L : Z) (db : store) (d : Z) :
  (forall t, In t (tasks db) -> 0 <= minutes t) ->
  0 <= used_get (used_ledger today L db) d.
Proof.
  intros H. unfold used_get. rewrite used_ledger_lookup.
  destruct ((today <=? d) && (d <? today + L)); simpl; [|lia].
  now apply scheduled_minutes_nonneg.
Qed.

(** ** The first-fit scan *)

Lemma first_fit_Some (u : gmap Z Z) (mins daily : Z) (cands : list Z) (c : Z) :
  first_fit u mins daily cands = Some c ->
  exists pre post, cands = pre ++ c :: post /\ fits u mins daily c /\
                   forall c', In c' pre -> ~ fits u mins daily c'.
Proof.
  unfold fits. induction cands as [|x cands IH]; simpl; [discriminate|].
  destruct (Z.leb_spec (used_get u x + mins) daily) as [Hle|Hgt].
  - intros [= <-]. exists [], cands. repeat split; auto; intros ? [].
  - intros H. destruct (IH H) as (pre & post & -> & Hc & Hpre).
    exists (x :: pre), post. repeat split; auto.
    intros c' [<-|Hin]; [lia|auto].
Qed.

Lemma first_fit_None (u : gmap Z Z) (mins daily : Z) (cands : list Z) :
  first_fit u mins daily cands = None <->
  forall c, In c cands -> ~ fits u mins daily c.
Proof.
  unfold fits. induction cands as [|x cands IH]; simpl; [tauto|].
  destruct (Z.leb_spec (used_get u x + mins) daily) as [Hle|Hgt].
  - split; [discriminate|]. intros H. exfalso. apply (H x); [now left|done].
  - rewrite IH. split.
    + intros H c [<-|Hin]; [lia|auto].
    + intros H c Hin. apply H. now right.
Qed.

Lemma candidate_days_seqZ (today L : Z) :
  candidate_days today L = seqZ (today + 1) L.
Proof.
  unfold candidate_days, py_range. replace (L + 1 - 1) with L by lia.
  apply (fmap_add_seqZ today 1 L).
Qed.

Lemma seqZ_split (m n : Z) (pre post : list Z) (c : Z) :
  seqZ m n = pre ++ c :: post ->
  c = m + Z.of_nat (length pre) /\ forall j, m <= j < c -> In j pre.
Proof.
  intros H.
  assert (Hc : seqZ m n !! length pre = Some c).
  { rewrite H. now apply list_lookup_middle. }
  apply lookup_seqZ in Hc as [Hc Hlt]. split; [done|].
  intros j Hj.
  assert (Hj' : seqZ m n !! Z.to_nat (j - m) = Some j).
  { rewrite lookup_seqZ_lt by lia. f_equal. lia. }
  rewrite H, lookup_app_l in Hj' by lia.
  apply list_elem_of_In. eapply list_elem_of_lookup_2. exact Hj'.
Qed.

Lemma first_fit_first (today L : Z) (u : gmap Z Z) (mins daily d : Z) :
  first_fit u mins daily (candidate_days today L) = Some d ->
  first_fitting_day today L u mins daily d.
Proof.
  intros H. destruct (first_fit_Some _ _ _ _ _ H) as (pre & post & Hl & Hfit & Hpre).
  assert (Hin : In d (candidate_days today L)).
  { rewrite Hl. apply in_or_app. right. now left. }
  apply in_candidate_days in Hin.
  rewrite candidate_days_seqZ in Hl. apply seqZ_split in Hl as [_ Hbefore].
  split; [lia|]. split; [done|]. intros j Hj. apply Hpre, Hbefore. lia.
Qed.

Lemma first_fit_none (today L : Z) (u : gmap Z Z) (mins daily : Z) :
  first_fit u mins daily (candidate_days today L) = None <->
  no_fitting_day today L u mins daily.
Proof.
  rewrite first_fit_None. unfold no_fitting_day. split.
  - intros H j Hj. apply H. apply in_candidate_days. lia.
  - intros H c Hc. apply H. apply in_candidate_days in Hc. lia.
Qed.

Lemma first_fitting_day_unique (today L : Z) (u : gmap Z Z) (mins daily d1 d2 : Z) :
  first_fitting_day today L u mins daily d1 ->
  first_fitting_day today L u mins daily d2 -> d1 = d2.
Proof.
  intros (H1 & Hf1 & Hb1) (H2 & Hf2 & Hb2).
  destruct (Z.lt_trichotomy d1 d2) as [Hlt|[Heq|Hgt]]; [|done|].
  - exfalso. apply (Hb2 d1); [lia|done].
  - exfalso. apply (Hb1 d2); [lia|done].
Qed.

(** ** The loop over the missed rows *)

Lemma set_status_set_schedule (d : Z) (tw : string) (tid : Z) (t : task) :
  set_status pending tid (set_schedule d pending tw tid t) =
  set_schedule d pending tw tid t.
Proof.
  unfold set_status, set_schedule.
  destruct (t_id t =? tid) eqn:E; simpl; now rewrite E.
Qed.

Lemma tasks_commit_replacement (r : task) (cand : Z) (st : resched_state) :
  tasks (resched_db (commit_replacement r cand st)) =
  map (set_schedule cand pending "any" (t_id r)) (tasks (resched_db st)).
Proof.
  unfold commit_replacement. cbn [resched_db].
  rewrite tasks_update_status_query, tasks_update_task_schedule, map_map.
  apply map_ext. intros t. apply set_status_set_schedule.
Qed.

Lemma replaced_minutes_snoc (log : list (task * Z)) (r : task) (d d' : Z) :
  replaced_minutes (log ++ [(r, d)]) d' =
  replaced_minutes log d' + (if d =? d' then minutes r else 0).
Proof.
  unfold replaced_minutes. rewrite List.filter_app, map_app, sum_Z_app. simpl.
  destruct (d =? d'); simpl; lia.
Qed.

Lemma used_get_insert (u : gmap Z Z) (d d' v : Z) :
  used_get (<[ d := v ]> u) d' = if d =? d' then v else used_get u d'.
Proof.
  unfold used_get. destruct (Z.eqb_spec d d') as [<-|Hne].
  - now rewrite lookup_insert_eq.
  - now rewrite lookup_insert_ne.
Qed.

Lemma resched_inv_init (today L : Z) (u0 : gmap Z Z) (db0 : store) :
  resched_inv today L u0 db0 []
    {| used := u0; resched_db := db0; rescheduled := 0; replaced := [] |}.
Proof.
  constructor; simpl; try tauto; auto.
  intros d. unfold replaced_minutes. simpl. lia.
Qed.

Lemma resched_inv_step (today daily L : Z) (u0 : gmap Z Z) (db0 : store)
    (seen : list task) (st : resched_state) (r : task) :
  resched_inv today L u0 db0 seen st ->
  resched_inv today L u0 db0 (seen ++ [r]) (reschedule_one today daily L st r).
Proof.
  intros Hinv. unfold reschedule_one.
  destruct (first_fit _ _ _ _) as [cand|] eqn:E.
  - apply first_fit_first in E as (Hrange & _).
    constructor; simpl.
    + intros d. rewrite used_get_insert, replaced_minutes_snoc.
      rewrite !(rinv_used _ _ _ _ _ _ Hinv).
      destruct (Z.eqb_spec cand d) as [<-|Hne]; lia.
    + rewrite length_app. simpl. rewrite (rinv_count _ _ _ _ _ _ Hinv). lia.
    + intros r' d [Hin|[[= <- <-]|[]]]%in_app_or; apply in_or_app.
      * left. apply (rinv_rows _ _ _ _ _ _ Hinv _ _ Hin).
      * right. now left.
    + intros r' d [Hin|[[= <- <-]|[]]]%in_app_or; [|done].
      apply (rinv_days _ _ _ _ _ _ Hinv _ _ Hin).
    + unfold replay_replaced. rewrite fold_left_app. simpl.
      do 2 f_equal. apply (rinv_db _ _ _ _ _ _ Hinv).
  - destruct Hinv. constructor; auto.
    intros r' d Hin. apply in_or_app. left. eauto.
Qed.

Lemma resched_inv_loop (today daily L : Z) (u0 : gmap Z Z) (db0 : store)
    (rows seen : list task) (st : resched_state) :
  resched_inv today L u0 db0 seen st ->
  resched_inv today L u0 db0 (seen ++ rows) (reschedule_loop today daily L rows st).
Proof.
  revert seen st. induction rows as [|r rows IH]; simpl; intros seen st Hinv.
  - now rewrite app_nil_r.
  - replace (seen ++ r :: rows) with ((seen ++ [r]) ++ rows)
      by (now rewrite <- app_assoc).
    apply IH. now apply resched_inv_step.
Qed.

Lemma reschedule_loop_app (today daily L : Z) (rows1 rows2 : list task)
    (st : resched_state) :
  reschedule_loop today daily L (rows1 ++ rows2) st =
  reschedule_loop today daily L rows2 (reschedule_loop today daily L rows1 st).
Proof. unfold reschedule_loop. apply fold_left_app. Qed.

Lemma replay_replaced_keeps (log : list (task * Z)) (db : store) (t : task) :
  In t (tasks db) ->
  (forall r d, In (r, d) log -> t_id r <> t_id t) ->
  In t (tasks (replay_replaced log db)).
Proof.
  revert db. induction log as [|[r d] log IH]; simpl; intros db Hin Hne; [done|].
  apply IH.
  - rewrite tasks_update_status_query, tasks_update_task_schedule, map_map.
    apply in_map_iff. exists t. split; [|done].
    assert (t_id t <> t_id r).
    { intros Heq. apply (Hne r d); [now left|done]. }
    rewrite set_schedule_other by done. now apply set_status_other.
  - intros r' d' Hin'. apply (Hne r' d'). now right.
Qed.

Lemma reschedule_loop_replaces (today daily L : Z) (rows : list task)
    (st : resched_state) :
  replaces today daily L rows st (reschedule_loop today daily L rows st).
Proof.
  revert st. induction rows as [|r rows IH]; intros st.
  - constructor.
  - change (reschedule_loop today daily L (r :: rows) st)
      with (reschedule_loop today daily L rows (reschedule_one today daily L st r)).
    pose proof (IH (reschedule_one today daily L st r)) as Hrest.
    unfold reschedule_one in *.
    destruct (first_fit _ _ _ _) as [cand|] eqn:E.
    + eapply replaces_placed;
        [apply first_fit_first; exact E| | | | | | |exact Hrest];
        try reflexivity.
      apply tasks_commit_replacement.
    + apply replaces_skipped; [now apply first_fit_none|exact Hrest].
Qed.

Lemma reschedule_missed_run_inv (today daily L : Z) (db : store) :
  resched_inv today L (used_ledger today L db) db (fetch_tasks is_missed db)
    (reschedule_missed_run today daily L db).
Proof.
  unfold reschedule_missed_run.
  apply (resched_inv_loop today daily L _ db (fetch_tasks is_missed db) []).
  apply resched_inv_init.
Qed.

Lemma NoDup_map_eq {A B : Type} (f : A -> B) (l : list A) (a b : A) :
  List.NoDup (map f l) -> In a l -> In b l -> f a = f b -> a = b.
Proof.
  induction l as [|x l IH]; simpl; [tauto|].
  intros Hnd Ha Hb Heq. apply List.NoDup_cons_iff in Hnd as [Hx Hnd].
  destruct Ha as [->|Ha], Hb as [->|Hb]; auto.
  - exfalso. apply Hx. rewrite Heq. now apply in_map.
  - exfalso. apply Hx. rewrite <- Heq. now apply in_map.
Qed.

Lemma sublist_In {A : Type} (l1 l2 : list A) (x : A) :
  sublist l1 l2 -> In x l1 -> In x l2.
Proof.
  intros Hs Hx. apply list_elem_of_In.
  eapply elem_of_sublist; [|exact Hs]. now apply list_elem_of_In.
Qed.

Lemma sublist_map {A B : Type} (f : A -> B) (l1 l2 : list A) :
  sublist l1 l2 -> sublist (map f l1) (map f l2).
Proof.
  induction 1; simpl; [constructor|now apply sublist_skip|now apply sublist_cons].
Qed.

Lemma StronglySorted_sublist {A : Type} (R : A -> A -> Prop) (l1 l2 : list A) :
  sublist l1 l2 -> StronglySorted R l2 -> StronglySorted R l1.
Proof.
  induction 1 as [|x l1 l2 Hs IH|x l1 l2 Hs IH]; intros Hss.
  - constructor.
  - apply StronglySorted_inv in Hss as [Hss Hall]. constructor; [auto|].
    rewrite List.Forall_forall in *. intros y Hy. apply Hall.
    now apply (sublist_In l1 l2).
  - apply StronglySorted_inv in Hss as [Hss _]. auto.
Qed.

Lemma StronglySorted_later {A : Type} (R : A -> A -> Prop) (l1 l2 : list A) (x y : A) :
  StronglySorted R (l1 ++ x :: l2) -> In y l2 -> R x y.
Proof.
  induction l1 as [|z l1 IH]; simpl; intros Hss Hy.
  - apply StronglySorted_inv in Hss as [_ Hall].
    rewrite List.Forall_forall in Hall. now apply Hall.
  - apply StronglySorted_inv in Hss as [Hss _]. auto.
Qed.

Lemma NoDup_map_filter {A B : Type} (f : A -> B) (p : A -> bool) (l : list A) :
  List.NoDup (map f l) -> List.NoDup (map f (List.filter p l)).
Proof.
  induction l as [|x l IH]; simpl; intros H; [done|].
  apply List.NoDup_cons_iff in H as [Hx H].
  destruct (p x); simpl; [|auto].
  apply List.NoDup_cons; [|auto].
  intros Hin. apply Hx. apply in_map_iff in Hin as (y & Hy & Hin).
  apply filter_In in Hin as [Hin _]. rewrite <- Hy. now apply in_map.
Qed.

Lemma used_ledger_get (today L : Z) (db : store) (d : Z) :
  used_get (used_ledger today L db) d =
  if (today <=? d) && (d <? today + L) then scheduled_minutes (tasks db) d else 0.
Proof.
  unfold used_get. rewrite used_ledger_lookup.
  now destruct ((today <=? d) && (d <? today + L)).
Qed.

Lemma occupied_used (today L : Z) (db : store) (log : list (task * Z)) (j : Z) :
  occupied today L db log j =
  used_get (used_ledger today L db) j + replaced_minutes log j.
Proof. unfold occupied. now rewrite used_ledger_get. Qed.

Lemma replaced_row_set (r : task) (d : Z) :
  set_status pending (t_id r) (set_schedule d pending "any" (t_id r) r) = replaced_row r d.
Proof.
  rewrite set_status_set_schedule. unfold set_schedule, replaced_row.
  now rewrite Z.eqb_refl.
Qed.

(** The rows the loop re-places are missed rows, in the order of the
    loop. *)
Lemma replaced_rows_sublist (today daily L : Z) (rows : list task) (st : resched_state) :
  exists ext,
    replaced (reschedule_loop today daily L rows st) = replaced st ++ ext /\
    sublist (map fst ext) rows.
Proof.
  revert st. unfold reschedule_loop.
  induction rows as [|r rows IH]; intros st; simpl.
  - exists []. split; [now rewrite app_nil_r|constructor].
  - unfold reschedule_one at 2.
    destruct (first_fit _ _ _ _) as [cand|].
    + destruct (IH (commit_replacement r cand st)) as (ext & Hext & Hs).
      exists ((r, cand) :: ext). split.
      * rewrite Hext. simpl. now rewrite <- app_assoc.
      * simpl. now apply sublist_skip.
    + destruct (IH st) as (ext & Hext & Hs). exists ext.
      split; [exact Hext|]. now apply sublist_cons.
Qed.

Lemma missed_rows_perm (db : store) :
  Permutation (fetch_tasks is_missed db) (List.filter is_missed (tasks db)).
Proof. apply stable_sort_perm. Qed.

Lemma replaced_ids_distinct (today daily L : Z) (db : store) :
  List.NoDup (map t_id (tasks db)) ->
  List.NoDup (map (fun e => t_id (fst e))
                (replaced (reschedule_missed_run today daily L db))).
Proof.
  intros Hnd. unfold reschedule_missed_run.
  destruct (replaced_rows_sublist today daily L (fetch_tasks is_missed db)
              {| used := used_ledger today L db; resched_db := db;
                 rescheduled := 0; replaced := [] |}) as (ext & Hext & Hs).
  rewrite Hext. simpl. rewrite <- (map_map fst t_id).
  apply NoDup_ListNoDup.
  eapply sublist_NoDup; [|apply sublist_map; exact Hs].
  apply NoDup_ListNoDup.
  apply (Permutation_NoDup (l := map t_id (List.filter is_missed (tasks db)))).
  - apply Permutation_map, Permutation_sym, missed_rows_perm.
  - now apply NoDup_map_filter.
Qed.

(** The UPDATEs of a re-placement trace with distinct rowids reach the
    table. *)
Lemma replay_replaced_written (log : list (task * Z)) (db : store) :
  List.NoDup (map (fun e => t_id (fst e)) log) ->
  (forall r d, In (r, d) log -> In r (tasks db)) ->
  forall r d, In (r, d) log -> In (replaced_row r d) (tasks (replay_replaced log db)).
Proof.
  revert db. induction log as [|[r0 d0] log IH]; intros db Hnd Hin r d Hr;
    [destruct Hr|].
  change (replay_replaced ((r0, d0) :: log) db)
    with (replay_replaced log
            (update_status_query pending (t_id r0)
               (update_task_schedule (t_id r0) d0 "any" db))).
  cbn [map fst] in Hnd. apply List.NoDup_cons_iff in Hnd as [Hfresh Hnd].
  assert (Hother : forall r' d', In (r', d') log -> t_id r' <> t_id r0).
  { intros r' d' Hin' Hid. apply Hfresh. apply in_map_iff.
    exists (r', d'). split; [exact Hid|exact Hin']. }
  assert (Hstep : forall t, In t (tasks db) ->
            In (set_status pending (t_id r0) (set_schedule d0 pending "any" (t_id r0) t))
               (tasks (update_status_query pending (t_id r0)
                         (update_task_schedule (t_id r0) d0 "any" db)))).
  { intros t Ht. rewrite tasks_update_status_query, tasks_update_task_schedule, map_map.
    apply in_map_iff. exists t. split; [reflexivity|exact Ht]. }
  destruct Hr as [Heq|Hr].
  - injection Heq as <- <-. apply replay_replaced_keeps.
    + rewrite <- replaced_row_set. apply Hstep. apply (Hin r0 d0). now left.
    + exact Hother.
  - apply IH; [exact Hnd| |exact Hr].
    intros r' d' Hin'.
    assert (Hne : t_id r' <> t_id r0) by (now apply (Hother r' d')).
    rewrite <- (set_status_other pending (t_id r0) r') by exact Hne.
    rewrite <- (set_schedule_other d0 pending "any" (t_id r0) r') at 1 by exact Hne.
    apply Hstep. apply (Hin r' d'). now right.
Qed.

Lemma reschedule_writes_replacements (today daily L : Z) (db : store) :
  List.NoDup (map t_id (tasks db)) ->
  forall r d,
    In (r, d) (replaced (reschedule_missed_run today daily L db)) ->
    In (replaced_row r d) (tasks (resched_db (reschedule_missed_run today daily L db))).
Proof.
  intros Hnd r d Hr.
  pose proof (reschedule_missed_run_inv today daily L db) as Hinv.
  rewrite (rinv_db _ _ _ _ _ _ Hinv).
  apply replay_replaced_written; [now apply replaced_ids_distinct| |exact Hr].
  intros r' d' Hin'. apply (rinv_rows _ _ _ _ _ _ Hinv) in Hin'.
  now apply in_fetch_tasks in Hin'.
Qed.

Lemma first_fit_replacements_step (today daily L : Z) (db : store)
    (seen : list task) (st : resched_state) (r : task) :
  resched_inv today L (used_ledger today L db) db seen st ->
  first_fit_replacements today L daily db (replaced st) ->
  first_fit_replacements today L daily db
    (replaced (reschedule_one today daily L st r)).
Proof.
  intros Hinv Htrace. unfold reschedule_one.
  destruct (first_fit _ _ _ _) as [cand|] eqn:E; [|exact Htrace].
  apply first_fit_first in E as (Hrange & Hfit & Hbefore).
  cbn [replaced commit_replacement].
  intros pre r' d' post Hsplit.
  induction post as [|x post _] using rev_ind.
  - apply app_inj_tail in Hsplit as [<- Hlast]. injection Hlast as <- <-.
    split; [exact Hrange|].
    split.
    + rewrite occupied_used, <- (rinv_used _ _ _ _ _ _ Hinv). exact Hfit.
    + intros j Hj. rewrite occupied_used, <- (rinv_used _ _ _ _ _ _ Hinv).
      specialize (Hbefore j Hj). unfold fits in Hbefore. lia.
  - rewrite app_comm_cons, app_assoc in Hsplit.
    apply app_inj_tail in Hsplit as [Hsplit _].
    exact (Htrace _ _ _ _ Hsplit).
Qed.

Lemma reschedule_missed_first_fit (today daily L : Z) (db : store) :
  first_fit_replacements today L daily db
    (replaced (reschedule_missed_run today daily L db)).
Proof.
  unfold reschedule_missed_run.
  assert (Hgen : forall todo seen st,
    resched_inv today L (used_ledger today L db) db seen st ->
    first_fit_replacements today L daily db (replaced st) ->
    first_fit_replacements today L daily db
      (replaced (reschedule_loop today daily L todo st))).
  { unfold reschedule_loop.
    induction todo as [|r todo IH]; intros seen st Hinv Htrace; simpl; [done|].
    apply (IH (seen ++ [r])).
    - now apply resched_inv_step.
    - now apply (first_fit_replacements_step today daily L db seen). }
  apply (Hgen _ [] _ (resched_inv_init today L _ db)).
  intros pre r d post Heq. simpl in Heq. destruct pre; discriminate Heq.
Qed.

(** C8. [reschedule_missed] runs through the rows with status
    ['missed'], in the order [fetch_tasks] returns them, against a
    ledger that starts with the minutes the table holds on each day
    [today .. today + lookahead_days - 1] (these days being within the
    range of [date]).  For each row it scans the
    days [today + 1 .. today + lookahead_days] in order: the row goes to
    the first day where the used minutes plus its own are at most
    [daily_minutes]; that day's used minutes grow by the row's minutes,
    the row gets that date and the status [pending], and the count grows
    by one.  The value returned is the number of rows so re-placed.  A
    row with no such day changes nothing.  With distinct rowids the
    table the run leaves holds every re-placed row with its new date and
    status, and every missed row that found no day as it was. *)
Theorem missed_tasks_go_to_first_fitting_day (today daily_minutes lookahead_days : Z)
    (db : store) :
  window_in_range today lookahead_days ->
  let st0 := {| used := used_ledger today lookahead_days db; resched_db := db;
                rescheduled := 0; replaced := [] |} in
  let st := reschedule_missed_run today daily_minutes lookahead_days db in
  let rows := fetch_tasks is_missed db in
  Permutation rows (List.filter is_missed (tasks db)) /\
  (forall d, used_get (used st0) d =
             if (today <=? d) && (d <? today + lookahead_days)
             then scheduled_minutes (tasks db) d else 0) /\
  replaces today daily_minutes lookahead_days rows st0 st /\
  reschedule_missed today daily_minutes lookahead_days db =
    (Z.of_nat (length (replaced st)), resched_db st) /\
  sublist (map fst (replaced st)) rows /\
  first_fit_replacements today lookahead_days daily_minutes db (replaced st) /\
  (forall r d, In (r, d) (replaced st) ->
     In r (tasks db) /\ status r = missed /\
     today + 1 <= d <= today + lookahead_days) /\
  (forall r, In r (tasks db) ->
     (forall r' d, In (r', d) (replaced st) -> t_id r' <> t_id r) ->
     In r (tasks (resched_db st))) /\
  (List.NoDup (map t_id (tasks db)) ->
   (forall r d, In (r, d) (replaced st) ->
      In (replaced_row r d) (tasks (resched_db st))) /\
   (forall r, In r (tasks db) -> status r = missed ->
      (forall d, ~ In (r, d) (replaced st)) ->
      In r (tasks (resched_db st)))).
Proof.
  intros _ st0 st rows.
  pose proof (reschedule_missed_run_inv today daily_minutes lookahead_days db) as Hinv.
  fold st in Hinv.
  assert (Hkeep : forall r, In r (tasks db) ->
            (forall r' d, In (r', d) (replaced st) -> t_id r' <> t_id r) ->
            In r (tasks (resched_db st))).
  { intros r Hr Hids. rewrite (rinv_db _ _ _ _ _ _ Hinv).
    now apply replay_replaced_keeps. }
  assert (Hrows : forall r d, In (r, d) (replaced st) ->
            In r (tasks db) /\ status r = missed).
  { intros r d Hin. apply (rinv_rows _ _ _ _ _ _ Hinv) in Hin.
    apply in_fetch_tasks in Hin as [Hr Hm]. split; [done|].
    unfold is_missed, status_eqb in Hm. now apply bool_decide_eq_true in Hm. }
  split; [apply missed_rows_perm|].
  split; [intros d; apply used_ledger_get|].
  split; [apply reschedule_loop_replaces|].
  split; [unfold reschedule_missed; fold st; now rewrite (rinv_count _ _ _ _ _ _ Hinv)|].
  split.
  { unfold st, reschedule_missed_run.
    destruct (replaced_rows_sublist today daily_minutes lookahead_days rows st0)
      as (ext & Hext & Hs).
    fold rows. fold st0. rewrite Hext. exact Hs. }
  split; [apply reschedule_missed_first_fit|].
  split.
  { intros r d Hin. destruct (Hrows r d Hin) as [Hr Hm].
    repeat split; auto; apply (rinv_days _ _ _ _ _ _ Hinv r d Hin). }
  split; [exact Hkeep|].
  intros Hnd. split.
  - now apply reschedule_writes_replacements.
  - intros r Hr Hm Hnot. apply Hkeep; [done|].
    intros r' d Hin Heq. destruct (Hrows r' d Hin) as [Hr' _].
    assert (r' = r) by (now apply (NoDup_map_eq t_id (tasks db))).
    subst r'. now apply (Hnot d).
Qed.

Lemma missed_tasks_go_to_first_fitting_day_witness :
  In (mk_task 2 "M" "m" 30 3 3 738895 (Some 738888) "any" pending 0)
     (tasks (resched_db (reschedule_missed_run 738886 60 3 day_one_busy_db))) /\
  In (mk_task 3 "N" "n" 70 3 3 738895 (Some 738885) "evening" missed 0)
     (tasks (resched_db (reschedule_missed_run 738886 60 3 day_one_busy_db))).
Proof.
  assert (Hwin : window_in_range 738886 3).
  { unfold window_in_range, is_date, is_timedelta. lia. }
  assert (Hnd : List.NoDup (map t_id (tasks day_one_busy_db))).
  { simpl. repeat (apply List.NoDup_cons; [simpl; intuition lia|]). apply List.NoDup_nil. }
  destruct (proj2 (proj2 (proj2 (proj2 (proj2 (proj2 (proj2 (proj2
              (missed_tasks_go_to_first_fitting_day 738886 60 3 day_one_busy_db Hwin))))))))
              Hnd) as [Hwritten Hkept].
  split.
  - apply (Hwritten (mk_task 2 "M" "m" 30 3 3 738895 (Some 738884) "any" missed 0) 738888).
    vm_compute. left. reflexivity.
  - apply Hkept.
    + simpl. auto.
    + reflexivity.
    + intros d. vm_compute. intros [Heq|[]]. discriminate Heq.
Defined.

(** A missed task that fits on no candidate day stays as it was, the
    time window included. *)
Example missed_task_without_a_day_is_kept :
  reschedule_missed 0 20 3 unplaceable_db = (0, unplaceable_db).
Proof. vm_compute. reflexivity. Qed.

(** The example of the specification: 40 minutes already on day 1, a
    capacity of 60, and a missed task of 30 minutes, which skips day 1
    and lands on day 2. *)
Example missed_task_skips_full_day :
  let db := mk_store
              [mk_task 1 "A" "a" 40 3 3 9 (Some 1) "any" pending 0;
               mk_task 2 "M" "m" 30 3 3 9 (Some (-1)) "any" missed 0] [] [] in
  reschedule_missed 0 60 3 db =
  (1, mk_store
        [mk_task 1 "A" "a" 40 3 3 9 (Some 1) "any" pending 0;
         mk_task 2 "M" "m" 30 3 3 9 (Some 2) "any" pending 0] [] []).
Proof. vm_compute. reflexivity. Qed.

(** ** The day after the ledger *)

(** C10. The ledger of [reschedule_missed] has the days
    [today .. today + lookahead_days - 1] as keys, each holding the
    minutes of the tasks scheduled on it, and no key for
    [today + lookahead_days], the last day the scan tries.  Throughout
    the run the used minutes of that last day are just the minutes of
    the missed tasks this run has put there; so a missed task that fits
    on no earlier candidate day is placed on it as soon as those minutes
    plus its own are at most [daily_minutes], whatever was scheduled on
    that day before. *)
Theorem last_candidate_day_counts_only_this_run (today daily_minutes lookahead_days : Z)
    (db : store) (pre : list task) (r : task) (post : list task) :
  fetch_tasks is_missed db = pre ++ r :: post ->
  1 <= lookahead_days ->
  let st := reschedule_loop today daily_minutes lookahead_days pre
              {| used := used_ledger today lookahead_days db; resched_db := db;
                 rescheduled := 0; replaced := [] |} in
  let last := today + lookahead_days in
  (forall d, today <= d < last ->
     used_ledger today lookahead_days db !! d = Some (scheduled_minutes (tasks db) d)) /\
  used_ledger today lookahead_days db !! last = None /\
  used_get (used st) last = replaced_minutes (replaced st) last /\
  ((forall j, today + 1 <= j < last -> ~ fits (used st) (minutes r) daily_minutes j) ->
   replaced_minutes (replaced st) last + minutes r <= daily_minutes ->
   reschedule_one today daily_minutes lookahead_days st r =
   commit_replacement r last st).
Proof.
  intros Hsplit HL st last.
  assert (Hinv : resched_inv today lookahead_days
                   (used_ledger today lookahead_days db) db pre st).
  { apply (resched_inv_loop today daily_minutes lookahead_days _ db pre []).
    apply resched_inv_init. }
  assert (Hnone : used_ledger today lookahead_days db !! last = None).
  { rewrite used_ledger_lookup. unfold last.
    destruct (Z.ltb_spec (today + lookahead_days) (today + lookahead_days)); [lia|].
    now rewrite andb_false_r. }
  assert (Hlast : used_get (used st) last = replaced_minutes (replaced st) last).
  { rewrite (rinv_used _ _ _ _ _ _ Hinv). unfold used_get at 1. rewrite Hnone. simpl. lia. }
  split; [|split; [|split]]; auto.
  - intros d Hd. rewrite used_ledger_lookup.
    destruct (Z.leb_spec today d); [|lia].
    destruct (Z.ltb_spec d (today + lookahead_days)); [done|]. unfold last in Hd. lia.
  - intros Hbefore Hroom. unfold reschedule_one.
    destruct (first_fit _ _ _ _) as [cand|] eqn:E.
    + apply first_fit_first in E as (Hrange & Hfit & _).
      destruct (decide (cand = last)) as [->|Hne]; [done|].
      exfalso. apply (Hbefore cand); [unfold last in *; lia|done].
    + exfalso. apply first_fit_none in E. apply (E last); [unfold last; lia|].
      unfold fits. rewrite Hlast. exact Hroom.
Qed.

Lemma last_candidate_day_counts_only_this_run_witness :
  scheduled_minutes (tasks overbooked_db) 2 = 60 /\
  reschedule_missed 0 60 2 overbooked_db =
  (1, mk_store
        [mk_task 1 "A" "a" 60 3 3 9 (Some 2) "any" pending 0;
         mk_task 2 "B" "b" 60 3 3 9 (Some 1) "any" pending 0;
         mk_task 3 "M" "m" 30 3 3 9 (Some 2) "any" pending 0] [] []) /\
  reschedule_one 0 60 2
    {| used := used_ledger 0 2 overbooked_db; resched_db := overbooked_db;
       rescheduled := 0; replaced := [] |}
    (mk_task 3 "M" "m" 30 3 3 9 (Some (-1)) "any" missed 0) =
  commit_replacement (mk_task 3 "M" "m" 30 3 3 9 (Some (-1)) "any" missed 0) 2
    {| used := used_ledger 0 2 overbooked_db; resched_db := overbooked_db;
       rescheduled := 0; replaced := [] |}.
Proof.
  split; [reflexivity|]. split; [vm_compute; reflexivity|].
  assert (Hsplit : fetch_tasks is_missed overbooked_db =
                   [] ++ mk_task 3 "M" "m" 30 3 3 9 (Some (-1)) "any" missed 0 :: [])
    by reflexivity.
  assert (HL : 1 <= 2) by lia.
  apply (last_candidate_day_counts_only_this_run 0 60 2 overbooked_db [] _ [] Hsplit HL).
  - intros j Hj. assert (j = 1) as -> by lia. vm_compute. intros H. apply H. reflexivity.
  - vm_compute. discriminate.
Defined.

(** ** Arguments outside the preconditions *)

Lemma reschedule_loop_idle (today daily L : Z) (rows : list task) (st : resched_state) :
  (forall r, In r rows -> no_fitting_day today L (used st) (minutes r) daily) ->
  reschedule_loop today daily L rows st = st.
Proof.
  unfold reschedule_loop.
  induction rows as [|r rows IH]; simpl; intros H; [done|].
  unfold reschedule_one at 2.
  rewrite (proj2 (first_fit_none today L (used st) (minutes r) daily)) by (apply H; now left).
  apply IH. intros r' Hr'. apply H. now right.
Qed.

Lemma reschedule_missed_idle (today daily L : Z) (db : store) :
  L < 1 \/ (daily < 0 /\ forall t, In t (tasks db) -> 0 <= minutes t) ->
  reschedule_missed today daily L db = (0, db).
Proof.
  intros Hbad. unfold reschedule_missed, reschedule_missed_run.
  rewrite reschedule_loop_idle; [reflexivity|].
  simpl. intros r Hr j Hj. unfold fits.
  destruct Hbad as [HL|[Hd Hmin]]; [lia|].
  apply in_fetch_tasks in Hr as [Hr _].
  pose proof (Hmin r Hr).
  pose proof (used_ledger_nonneg today L db j Hmin). lia.
Qed.

(** C6. With [daily_minutes < 0] or [lookahead_days < 1] neither
    function changes anything: [smart_schedule] returns 0 and leaves
    the database as it was, so no task's date or status changes and no
    row is inserted; [reschedule_missed] does the same when
    [lookahead_days < 1], and with a negative [daily_minutes] on every
    database whose tasks have non-negative minutes, as the data model
    has them (the form takes at least 5, review tasks get at least
    10).  Where there is a window, its days are taken to be within the
    range of [date]. *)
Theorem invalid_arguments_change_nothing (now today daily_minutes : Z)
    (review_intervals : list Z) (lookahead_days : Z) (db : store) :
  daily_minutes < 0 \/ lookahead_days < 1 ->
  lookahead_days < 1 \/ window_in_range today lookahead_days ->
  smart_schedule now today daily_minutes review_intervals lookahead_days db = (0, db) /\
  (lookahead_days < 1 \/ (forall t, In t (tasks db) -> 0 <= minutes t) ->
   reschedule_missed today daily_minutes lookahead_days db = (0, db)).
Proof.
  intros Hbad _. split.
  - apply smart_schedule_idle. lia.
  - intros Hok. apply reschedule_missed_idle.
    destruct Hok as [HL|Hmin]; [now left|].
    destruct Hbad as [Hd|HL]; [right; now split|now left].
Qed.

Lemma invalid_arguments_change_nothing_witness :
  smart_schedule 0 738886 (-30) [1; 3; 7] 60 seed_2024 = (0, seed_2024) /\
  reschedule_missed 738886 (-30) 60 day_one_busy_db = (0, day_one_busy_db).
Proof.
  assert (Hbad : -30 < 0 \/ 60 < 1) by (left; lia).
  assert (Hwin : 60 < 1 \/ window_in_range 738886 60).
  { right. unfold window_in_range, is_date, is_timedelta. lia. }
  split.
  - exact (proj1 (invalid_arguments_change_nothing 0 738886 (-30) [1; 3; 7] 60
                    seed_2024 Hbad Hwin)).
  - apply (proj2 (invalid_arguments_change_nothing 0 738886 (-30) [1; 3; 7] 60
                    day_one_busy_db Hbad Hwin)).
    right. intros t Ht. simpl in Ht.
    destruct Ht as [<-|[<-|[<-|[]]]]; simpl; lia.
Defined.

(** The condition on the minutes is needed only outside the data
    model: a missed row whose [minutes] column holds -10 fits a capacity
    of -5, since 0 + (-10) <= -5, and is re-placed. *)
Example negative_minutes_fit_a_negative_capacity :
  reschedule_missed 0 (-5) 3 negative_minutes_db =
  (1, mk_store [mk_task 1 "X" "t" (-10) 3 3 9 (Some 1) "any" pending 0] [] []).
Proof. vm_compute. reflexivity. Qed.

(** ** The order of the backlog *)

Lemma sort_values_leb_iff (a b : task) :
  sort_values_leb a b = true <-> sched_before a b.
Proof.
  unfold sort_values_leb, sort_values_cmp, lex, cmp_leb, sched_before.
  destruct (Z.compare_spec (deadline a) (deadline b)),
           (Z.compare_spec (priority b) (priority a)),
           (Z.compare_spec (difficulty b) (difficulty a));
    split; intros ?; try done; try lia.
Qed.

Lemma sort_values_leb_total (a b : task) :
  sort_values_leb a b = true \/ sort_values_leb b a = true.
Proof. rewrite !sort_values_leb_iff. unfold sched_before. lia. Qed.

Lemma sort_values_leb_trans (a b c : task) :
  sort_values_leb a b = true -> sort_values_leb b c = true ->
  sort_values_leb a c = true.
Proof. rewrite !sort_values_leb_iff. unfold sched_before. lia. Qed.

Lemma same_sort_key_leb (x a b : task) :
  same_sort_key x a = true -> same_sort_key x b = true ->
  sort_values_leb a b = true.
Proof.
  unfold same_sort_key. rewrite !andb_true_iff, !Z.eqb_eq.
  intros ((Ha1 & Ha2) & Ha3) ((Hb1 & Hb2) & Hb3).
  apply sort_values_leb_iff. unfold sched_before. lia.
Qed.

Lemma same_sort_key_fetch_leb (x a b : task) :
  is_unscheduled_pending a = true -> is_unscheduled_pending b = true ->
  same_sort_key x a = true -> same_sort_key x b = true ->
  fetch_leb a b = true.
Proof.
  unfold is_unscheduled_pending, same_sort_key.
  rewrite !andb_true_iff, !Z.eqb_eq, !bool_decide_eq_true.
  intros (_ & Ha) (_ & Hb) ((Ha1 & _) & _) ((Hb1 & _) & _).
  unfold fetch_leb, fetch_cmp. rewrite Ha, Hb. simpl.
  rewrite Ha1, Hb1, Z.compare_refl. reflexivity.
Qed.

Lemma StronglySorted_impl {A : Type} (R S : A -> A -> Prop) (l : list A) :
  (forall a b, R a b -> S a b) -> StronglySorted R l -> StronglySorted S l.
Proof.
  intros HRS. induction 1 as [|x l Hs IH Hall]; constructor; [done|].
  eapply List.Forall_impl; [|exact Hall]. intros b. apply HRS.
Qed.

Lemma sorted_pending_perm (db : store) :
  Permutation (sorted_pending db) (List.filter is_unscheduled_pending (tasks db)).
Proof.
  unfold sorted_pending, sort_values, fetch_tasks.
  now rewrite !stable_sort_perm.
Qed.

Lemma sorted_pending_sorted (db : store) :
  StronglySorted sched_before (sorted_pending db).
Proof.
  apply (StronglySorted_impl (fun a b => sort_values_leb a b = true)).
  - intros a b. apply sort_values_leb_iff.
  - apply stable_sort_sorted.
    + apply sort_values_leb_total.
    + apply sort_values_leb_trans.
Qed.

Lemma sorted_pending_stable (db : store) (x : task) :
  List.filter (same_sort_key x) (sorted_pending db) =
  List.filter (same_sort_key x) (List.filter is_unscheduled_pending (tasks db)).
Proof.
  unfold sorted_pending, sort_values, fetch_tasks.
  rewrite filter_stable_sort by (intros a b _ _; apply same_sort_key_leb).
  apply filter_stable_sort.
  intros a b Ha Hb. apply filter_In in Ha as [_ Ha], Hb as [_ Hb].
  now apply same_sort_key_fetch_leb.
Qed.

(** With at least one day in the window, every row's first candidate is
    today. *)
Lemma candidates_head (today L dl : Z) :
  1 <= L -> exists rest, candidates (schedule_days today L) dl = today :: rest.
Proof.
  intros HL. unfold candidates.
  assert (Hdays : exists tl, schedule_days today L = today :: tl).
  { unfold schedule_days, py_range. rewrite seqZ_cons by lia. simpl.
    rewrite Z.add_0_r. eauto. }
  destruct Hdays as [tl Htl].
  destruct (Z.leb_spec today dl) as [Hle|Hgt].
  - rewrite Htl. simpl. destruct (Z.leb_spec today dl); [|lia]. eauto.
  - rewrite filter_none; [eauto|].
    intros d Hd. apply in_schedule_days in Hd. apply Z.leb_gt. lia.
Qed.

Lemma ample_places_today (speed : gmap string float) (today L : Z)
    (rows : list task) (st : sched_state) (c : Z) :
  1 <= L ->
  day_capacity st !! today = Some c ->
  sum_Z (map (minutes_needed speed) rows) <= c ->
  placed (fold_left (place_task speed (schedule_days today L)) rows st) =
  placed st ++ map (fun row => (row, today)) rows.
Proof.
  intros HL. revert st c. induction rows as [|row rows IH]; intros st c Hc Hsum; simpl.
  - now rewrite app_nil_r.
  - simpl in Hsum.
    pose proof (minutes_needed_ge_5 speed row) as H5.
    assert (Hrest : 0 <= sum_Z (map (minutes_needed speed) rows)).
    { clear. induction rows as [|r rows IH]; simpl; [lia|].
      pose proof (minutes_needed_ge_5 speed r). lia. }
    assert (Hstep : place_task speed (schedule_days today L) st row =
                    commit_placement (minutes_needed speed row) row today st).
    { unfold place_task.
      destruct (candidates_head today L (deadline row) HL) as [rest ->].
      simpl. rewrite Hc.
      destruct (Z.leb_spec (minutes_needed speed row) c); [done|lia]. }
    rewrite Hstep.
    rewrite (IH _ (c - minutes_needed speed row)).
    + simpl. now rewrite <- app_assoc.
    + simpl. rewrite lookup_insert_eq, Hc. reflexivity.
    + lia.
Qed.

(** The example of the specification: B, due on day 3 with priority 1,
    is processed before A, due on day 5 with priority 5, and with ample
    capacity both land on day 0. *)
Example deadline_dominates_priority :
  let A := mk_task 1 "A" "a" 30 3 5 5 None "any" pending 0 in
  let B := mk_task 2 "B" "b" 30 3 1 3 None "any" pending 0 in
  sorted_pending deadline_priority_db = [B; A] /\
  res_placed (smart_schedule_run 0 0 120 [] 7 deadline_priority_db) = [(B, 0); (A, 0)].
Proof. vm_compute. split; reflexivity. Qed.

(** Under pressure the rows are still taken in deadline order: B takes
    day 0, and A no longer fits there. *)
Example deadline_order_under_pressure :
  let A := mk_task 1 "A" "a" 30 3 5 5 None "any" pending 0 in
  let B := mk_task 2 "B" "b" 30 3 1 3 None "any" pending 0 in
  res_placed (smart_schedule_run 0 0 45 [] 7 deadline_priority_db) = [(B, 0); (A, 1)].
Proof. vm_compute. reflexivity. Qed.

(** Why the capacity has to be ample: with 60 minutes a day, T (due day
    1, 50 minutes) fills day 0, B (due day 3, 50 minutes) moves to day
    1, and A (due day 5, 10 minutes) still fits on day 0, before B. *)
Example later_deadline_can_land_earlier :
  let T := mk_task 1 "T" "t" 50 3 3 1 None "any" pending 0 in
  let B := mk_task 2 "B" "b" 50 3 3 3 None "any" pending 0 in
  let A := mk_task 3 "A" "a" 10 3 3 5 None "any" pending 0 in
  res_placed (smart_schedule_run 0 0 60 [] 7 (mk_store [T; B; A] [] [])) =
  [(T, 0); (B, 1); (A, 0)].
Proof. vm_compute. reflexivity. Qed.

(** ** Review creation *)

Lemma task_content_set_schedule (d : Z) (st : task_status) (tw : string) (tid : Z)
    (t : task) :
  task_content (set_schedule d st tw tid t) = task_content t.
Proof. unfold set_schedule. destruct (t_id t =? tid); reflexivity. Qed.

Lemma first_task_of_subject_some (db : store) (sub : string) :
  has_subject db sub ->
  exists oid top mins, first_task_of_subject db sub = Some (oid, top, mins).
Proof.
  intros (t & Ht & Hs). unfold first_task_of_subject.
  destruct (stable_sort _ _) as [|t0 l] eqn:E; [|eauto].
  apply stable_sort_nil_iff in E.
  assert (Hin : In t (List.filter (fun t => String.eqb (subject t) sub) (tasks db))).
  { apply filter_In. split; [done|]. now apply String.eqb_eq. }
  rewrite E in Hin. destruct Hin.
Qed.

Lemma has_subject_content (db db' : store) (sub : string) :
  (forall c, In c (map task_content (tasks db)) -> In c (map task_content (tasks db'))) ->
  has_subject db sub -> has_subject db' sub.
Proof.
  intros Hsub (t & Ht & Hs).
  assert (Hc : In (task_content t) (map task_content (tasks db'))).
  { apply Hsub. now apply in_map. }
  apply in_map_iff in Hc as (t' & Heq & Ht'). exists t'. split; [done|].
  unfold task_content in Heq. congruence.
Qed.

Lemma content_update_task_schedule (tid d : Z) (tw : string) (db : store) :
  map task_content (tasks (update_task_schedule tid d tw db)) =
  map task_content (tasks db).
Proof.
  rewrite tasks_update_task_schedule, map_map. apply map_ext.
  intros t. apply task_content_set_schedule.
Qed.

Lemma content_replay (log : list (task * Z)) (db : store) :
  map task_content (tasks (replay log db)) = map task_content (tasks db).
Proof.
  revert db. induction log as [|e log IH]; intros db; simpl; [done|].
  rewrite IH. apply content_update_task_schedule.
Qed.

Lemma reviews_replay (log : list (task * Z)) (db : store) :
  reviews (replay log db) = reviews db.
Proof.
  revert db. induction log as [|e log IH]; intros db; simpl; [done|].
  now rewrite IH.
Qed.

(** The review loop for one subject, offset by offset. *)
Lemma review_offsets_loop (now today L : Z) (sub : string) (D oid : Z)
    (top : string) (mins : Z) (offs : list Z) (db : store) :
  let db' := fold_left (create_review now today L sub D oid top mins) offs db in
  let made := List.filter (fun o => D + o <=? today + L) offs in
  reviews db' = reviews db ++ map (fun o => mk_review oid 0 o) made /\
  map task_content (tasks db') =
  map task_content (tasks db) ++
  map (fun o => (sub +:+ " (review)", top +:+ " - review", review_minutes mins, 1, 3, D + o))
    made.
Proof.
  revert db. induction offs as [|o offs IH]; intros db; simpl.
  - now rewrite !app_nil_r.
  - destruct (IH (create_review now today L sub D oid top mins db o)) as [Hr Ht].
    rewrite Hr, Ht, reviews_create_review, tasks_create_review.
    destruct (D + o <=? today + L); simpl; [|done].
    rewrite map_map, map_app, <- !app_assoc. simpl. split; [done|].
    f_equal; [apply map_ext; intros t; apply task_content_set_schedule|].
    now rewrite task_content_set_schedule.
Qed.

Lemma content_create_reviews_for (now today L : Z) (offs : list Z) (db : store)
    (e : string * Z) (c : string * string * Z * Z * Z * Z) :
  In c (map task_content (tasks db)) ->
  In c (map task_content (tasks (create_reviews_for now today L offs db e))).
Proof.
  unfold create_reviews_for.
  destruct (first_task_of_subject db (fst e)) as [[[oid top] mins]|]; [|done].
  intros Hc.
  destruct (review_offsets_loop now today L (fst e) (snd e) oid top mins offs db) as [_ Ht].
  rewrite Ht. apply in_or_app. now left.
Qed.

Lemma content_review_loop (now today L : Z) (offs : list Z)
    (first : list (string * Z)) (db : store) (c : string * string * Z * Z * Z * Z) :
  In c (map task_content (tasks db)) ->
  In c (map task_content
          (tasks (fold_left (create_reviews_for now today L offs) first db))).
Proof.
  revert db. induction first as [|e first IH]; intros db Hc; simpl; [done|].
  apply IH. now apply content_create_reviews_for.
Qed.

(** C3, as stated, fails at the upper end of the window: with
    [lookahead_days = 7], a subject first scheduled today (2024-01-01,
    ordinal 738886) and the offset 7, the review date is [today + 7],
    outside [[today, today + 7)], and the review task and its link are
    created all the same.  All the dates involved are within the range
    of [date]. *)
Lemma review_on_the_day_after_the_window :
  let db := mk_store [mk_task 1 "X" "t" 60 3 3 738900 None "any" pending 0] [] [] in
  let r := smart_schedule_run 100 738886 120 [7] 7 db in
  (1 <= 738886 /\ 738886 + 6 + 7 <= 3652059) /\
  res_first r = [("X"%string, 738886)] /\
  (738886 + 7 <? 738886 + 7) = false /\
  reviews (res_db r) = [mk_review 1 0 7] /\
  map task_content (tasks (res_db r)) =
  [("X"%string, "t"%string, 60, 3, 3, 738900);
   ("X (review)"%string, "t - review"%string, 15, 1, 3, 738893)].
Proof. split; [lia|]. vm_compute. repeat split; reflexivity. Qed.

(** C3, amended: the bound is inclusive and there is no lower bound.
    In a run whose review dates are all within the range of [date] (so
    that no date addition overflows), for each subject [s] first
    scheduled on day [D] (a day of the window), taken in the order the
    subjects were first scheduled, the review loop finds the subject's
    earliest-created task and, for every offset [o] of
    [review_intervals] with [D + o <= today + lookahead_days], and for
    no other, appends one review task (subject and topic suffixed,
    deadline [D + o]) and one link with interval [o]. *)
Theorem reviews_created_up_to_lookahead_inclusive (now today daily_minutes : Z)
    (review_intervals : list Z) (lookahead_days : Z) (db : store)
    (pre : list (string * Z)) (s : string) (D : Z) (post : list (string * Z)) :
  dates_in_range today lookahead_days review_intervals ->
  let r := smart_schedule_run now today daily_minutes review_intervals lookahead_days db in
  res_first r = pre ++ (s, D) :: post ->
  let before := fold_left (create_reviews_for now today lookahead_days review_intervals)
                  pre (replay (res_placed r) db) in
  let after := create_reviews_for now today lookahead_days review_intervals before (s, D) in
  let made := List.filter (fun o => D + o <=? today + lookahead_days) review_intervals in
  res_db r = fold_left (create_reviews_for now today lookahead_days review_intervals)
               post after /\
  today <= D < today + lookahead_days /\
  is_date (today + lookahead_days) /\
  (forall o, In o review_intervals -> is_timedelta o /\ is_date (D + o)) /\
  (forall o, In o made <-> In o review_intervals /\ D + o <= today + lookahead_days) /\
  exists oid top mins,
    first_task_of_subject before s = Some (oid, top, mins) /\
    reviews after = reviews before ++ map (fun o => mk_review oid 0 o) made /\
    map task_content (tasks after) =
    map task_content (tasks before) ++
    map (fun o => (s +:+ " (review)", top +:+ " - review", review_minutes mins, 1, 3, D + o))
      made.
Proof.
  intros ((Htoday & HL & Hbound) & Hoffs) r Hfirst before after made.
  destruct (smart_schedule_run_placement now today daily_minutes review_intervals
              lookahead_days db) as (_ & Hplaced & Hf & Hdb & _).
  fold r in Hplaced, Hf, Hdb.
  pose proof (placement_loop_inv (compute_subject_speed db) today daily_minutes
                lookahead_days (sorted_pending db) db) as Hinv.
  set (st := placement_loop (compute_subject_speed db) today daily_minutes
               lookahead_days (sorted_pending db) db) in *.
  assert (Hin : In (s, D) (first_scheduled_for_topic st)).
  { rewrite <- Hf, Hfirst. apply in_or_app. right. now left. }
  destruct (inv_first _ _ _ _ _ _ Hinv s D Hin) as (row & Hrow & Hsub).
  assert (HD : today <= D < today + lookahead_days).
  { apply in_schedule_days. apply (inv_days _ _ _ _ _ _ Hinv row D Hrow). }
  split; [|split; [exact HD|split; [exact Hbound|split; [|split]]]].
  - rewrite Hdb, <- Hf, Hfirst, fold_left_app, (inv_db _ _ _ _ _ _ Hinv), <- Hplaced.
    reflexivity.
  - intros o Ho. destruct (Hoffs o Ho) as (Hdelta & Hlo & Hhi).
    split; [exact Hdelta|]. unfold is_date in *. lia.
  - intros o. unfold made. rewrite filter_In, Z.leb_le. tauto.
  - assert (Hhas : has_subject before s).
    { apply (has_subject_content db).
      - intros c Hc. unfold before. apply content_review_loop.
        now rewrite content_replay.
      - exists row. split; [|done].
        apply (inv_rows _ _ _ _ _ _ Hinv) in Hrow.
        apply in_sorted_pending in Hrow. tauto. }
    destruct (first_task_of_subject_some before s Hhas) as (oid & top & mins & Ho).
    exists oid, top, mins. split; [exact Ho|].
    unfold after, create_reviews_for. simpl fst. simpl snd. rewrite Ho.
    apply review_offsets_loop.
Qed.

Lemma reviews_created_up_to_lookahead_inclusive_witness :
  let r := smart_schedule_run 100 738886 120 [1; 3; 7] 5 seed_2024 in
  res_first r = [("Python"%string, 738886); ("Mathematics"%string, 738887);
                 ("Algorithms"%string, 738888); ("History"%string, 738889)] /\
  forall o,
    In o (List.filter (fun o => 738886 + o <=? 738886 + 5) [1; 3; 7]) <->
    In o [1; 3; 7] /\ 738886 + o <= 738886 + 5.
Proof.
  assert (Hdates : dates_in_range 738886 5 [1; 3; 7]).
  { unfold dates_in_range, window_in_range, is_date, is_timedelta.
    split; [lia|]. intros o [<-|[<-|[<-|[]]]]; lia. }
  assert (Hfirst :
    res_first (smart_schedule_run 100 738886 120 [1; 3; 7] 5 seed_2024) =
    [] ++ ("Python"%string, 738886) ::
      [("Mathematics"%string, 738887); ("Algorithms"%string, 738888);
       ("History"%string, 738889)])
    by (vm_compute; reflexivity).
  split; [exact Hfirst|].
  exact (proj1 (proj2 (proj2 (proj2 (proj2
    (reviews_created_up_to_lookahead_inclusive 100 738886 120 [1; 3; 7] 5
       seed_2024 [] "Python" 738886 _ Hdates Hfirst)))))).
Defined.

(** The example of the specification: offsets 1, 3 and 7 with
    [lookahead_days = 5] and a subject first scheduled on day 0 give two
    review tasks and two links; offset 7 gives none. *)
Example two_of_three_reviews :
  let db := mk_store [mk_task 1 "X" "t" 60 3 3 9 None "any" pending 0] [] [] in
  let r := smart_schedule_run 100 0 120 [1; 3; 7] 5 db in
  map interval_days (reviews (res_db r)) = [1; 3] /\
  map status (tasks (res_db r)) = [pending; review; review].
Proof. vm_compute. split; reflexivity. Qed.

(** ** The review row and its link *)

Lemma reviews_create_reviews_for (now today L : Z) (offs : list Z) (db : store)
    (e : string * Z) (lk : review_link) :
  In lk (reviews (create_reviews_for now today L offs db e)) ->
  In lk (reviews db) \/ review_task_id lk = 0.
Proof.
  unfold create_reviews_for.
  destruct (first_task_of_subject db (fst e)) as [[[oid top] mins]|]; [|now left].
  destruct (review_offsets_loop now today L (fst e) (snd e) oid top mins offs db) as [Hr _].
  rewrite Hr. intros [Hin|Hin]%in_app_or; [now left|right].
  apply in_map_iff in Hin as (o & <- & _). reflexivity.
Qed.

Lemma reviews_review_loop (now today L : Z) (offs : list Z)
    (first : list (string * Z)) (db : store) (lk : review_link) :
  In lk (reviews (fold_left (create_reviews_for now today L offs) first db)) ->
  In lk (reviews db) \/ review_task_id lk = 0.
Proof.
  revert db. induction first as [|e first IH]; intros db; simpl; [now left|].
  intros Hin. destruct (IH _ Hin) as [Hold|Hz]; [|now right].
  now apply reviews_create_reviews_for in Hold.
Qed.

(** C2 is not met by the code.  [last_insert_rowid()] is asked on a new
    connection and answers 0, so every link a run inserts names review
    task 0, and the UPDATE that should date the review task finds no row
    with id 0.  On one pending task, offset 1 and 120 minutes a day, the
    review task (id 2) has the suffixed subject and topic, 23 minutes,
    difficulty 1, priority 3 and status [review], but no scheduled date
    (day 1 is only its deadline), and the link reads (1, 0, 1). *)
Theorem review_task_has_no_date_and_link_names_task_zero :
  (forall now today daily_minutes review_intervals lookahead_days db lk,
     In lk (reviews (res_db (smart_schedule_run now today daily_minutes
                               review_intervals lookahead_days db))) ->
     In lk (reviews db) \/ review_task_id lk = 0) /\
  smart_schedule 100 0 120 [1] 5 single_task_db =
  (1, mk_store
        [mk_task 1 "Math" "Limits" 90 4 5 10 (Some 0) "morning" pending 0;
         mk_task 2 "Math (review)" "Limits - review" 23 1 3 1 None "any" review 100]
        []
        [mk_review 1 0 1]).
Proof.
  split.
  - intros now today daily offs L db lk Hin.
    destruct (smart_schedule_run_placement now today daily offs L db)
      as (_ & _ & _ & Hdb & _).
    rewrite Hdb in Hin. apply reviews_review_loop in Hin.
    rewrite (inv_db _ _ _ _ _ _
               (placement_loop_inv (compute_subject_speed db) today daily L
                  (sorted_pending db) db)) in Hin.
    now rewrite reviews_replay in Hin.
  - vm_compute. reflexivity.
Qed.

(** ** Which rows a run dates *)

Lemma replay_snoc (log : list (task * Z)) (e : task * Z) (db : store) :
  replay (log ++ [e]) db =
  update_task_schedule (t_id (fst e)) (snd e) (preferred_window (fst e)) (replay log db).
Proof. unfold replay. now rewrite fold_left_app. Qed.

Lemma replay_dated (log : list (task * Z)) (db : store) (t : task) (d : Z) :
  In t (tasks (replay log db)) -> scheduled_date t = Some d ->
  In t (tasks db) \/ exists row, In (row, d) log /\ t_id row = t_id t.
Proof.
  revert t d. induction log as [|[row0 d0] log IH] using rev_ind; intros t d Hin Hd.
  - now left.
  - rewrite replay_snoc, tasks_update_task_schedule in Hin. simpl in Hin.
    apply in_map_iff in Hin as (t' & <- & Hin').
    unfold set_schedule in *. destruct (Z.eqb_spec (t_id t') (t_id row0)) as [Heq|Hne].
    + simpl in Hd. injection Hd as <-. right. exists row0. split; [|done].
      apply in_or_app. right. now left.
    + destruct (IH t' d Hin' Hd) as [Hold|(row & Hrow & Hid)]; [now left|].
      right. exists row. split; [|done]. apply in_or_app. now left.
Qed.

Lemma replay_ids (log : list (task * Z)) (db : store) :
  map t_id (tasks (replay log db)) = map t_id (tasks db).
Proof.
  revert db. induction log as [|e log IH]; intros db; simpl; [done|].
  rewrite IH, tasks_update_task_schedule, map_map. apply map_ext.
  intros t. unfold set_schedule. now destruct (t_id t =? t_id (fst e)).
Qed.

Lemma fold_max_ge (x : Z) (l : list Z) : x <= fold_right Z.max x l.
Proof. induction l as [|y l IH]; simpl; lia. Qed.

Lemma next_rowid_positive (ts : list task) :
  (forall t, In t ts -> 1 <= t_id t) -> 1 <= next_rowid ts.
Proof.
  destruct ts as [|t ts]; simpl; intros H; [lia|].
  pose proof (H t (or_introl eq_refl)).
  pose proof (fold_max_ge (t_id t) (map t_id ts)). lia.
Qed.

Lemma map_set_schedule_zero (d : Z) (st : task_status) (tw : string) (l : list task) :
  (forall t, In t l -> 1 <= t_id t) -> map (set_schedule d st tw 0) l = l.
Proof.
  induction l as [|t l IH]; simpl; intros H; [done|].
  rewrite set_schedule_other by (pose proof (H t (or_introl eq_refl)); lia).
  rewrite IH; [done|]. intros t' Ht'. apply H. now right.
Qed.

Lemma create_review_undated (now today L : Z) (sub : string) (D oid : Z)
    (top : string) (mins : Z) (db0 db : store) (offset : Z) :
  only_undated_rows_added db0 db ->
  only_undated_rows_added db0 (create_review now today L sub D oid top mins db offset).
Proof.
  intros [Hpos Hold]. unfold only_undated_rows_added.
  rewrite tasks_create_review.
  destruct (D + offset <=? today + L); [|done].
  assert (Hnew : forall t, In t (tasks db ++
            [mk_task (next_rowid (tasks db)) (sub +:+ " (review)") (top +:+ " - review")
               (review_minutes mins) 1 3 (D + offset) None "any" review now]) ->
            1 <= t_id t).
  { intros t [Ht|[<-|[]]]%in_app_or; [auto|]. simpl. now apply next_rowid_positive. }
  rewrite map_set_schedule_zero by exact Hnew.
  split; [exact Hnew|].
  intros t [Ht|[<-|[]]]%in_app_or; [auto|now right].
Qed.

Lemma review_loop_undated (now today L : Z) (offs : list Z)
    (first : list (string * Z)) (db0 db : store) :
  only_undated_rows_added db0 db ->
  only_undated_rows_added db0
    (fold_left (create_reviews_for now today L offs) first db).
Proof.
  revert db. induction first as [|e first IH]; intros db H; simpl; [done|].
  apply IH. unfold create_reviews_for.
  destruct (first_task_of_subject db (fst e)) as [[[oid top] mins]|]; [|done].
  clear IH. revert db H. induction offs as [|o offs IHo]; intros db H; simpl; [done|].
  apply IHo. now apply create_review_undated.
Qed.

(** Every day the placement loop scans is a key of its ledger: the
    [KeyError] of [day_capacity[key]] cannot occur. *)
Lemma scan_days_are_keys (speed : gmap string float) (today daily L : Z)
    (rows : list task) (db : store) (d : Z) :
  In d (schedule_days today L) ->
  is_Some (day_capacity (placement_loop speed today daily L rows db) !! d).
Proof.
  intros Hd.
  rewrite (inv_ledger_in _ _ _ _ _ _ (placement_loop_inv speed today daily L rows db) d Hd).
  eauto.
Qed.

(** ** Capacity *)

(** C1. For every day, the calibrated minutes that one run of
    [smart_schedule] places on that day never exceed [daily_minutes]
    (for the non-negative capacities the operation is meant for).  The
    run places only rows of the backlog, only on days of the lookahead
    window, and counts them; a backlog row it does not place is one that
    would over-fill every day of the window, and its row in the
    database is left as it was.  With positive rowids, the rows that
    hold a scheduled date after the run are the rows that held it before
    and the rows the loop placed: the review rows get none. *)
Theorem schedule_never_exceeds_daily_minutes (now today daily_minutes : Z)
    (review_intervals : list Z) (lookahead_days : Z) (db : store) :
  0 <= daily_minutes ->
  let r := smart_schedule_run now today daily_minutes review_intervals lookahead_days db in
  let speed := compute_subject_speed db in
  (forall d, placed_minutes speed (res_placed r) d <= daily_minutes) /\
  (forall row d, In (row, d) (res_placed r) ->
     In row (sorted_pending db) /\ today <= d < today + lookahead_days) /\
  res_count r = Z.of_nat (length (res_placed r)) /\
  (forall row, In row (sorted_pending db) ->
     (forall d, ~ In (row, d) (res_placed r)) ->
     (forall d, today <= d < today + lookahead_days ->
        daily_minutes < placed_minutes speed (res_placed r) d + minutes_needed speed row) /\
     (t_id row <> 0 ->
      (forall row' d, In (row', d) (res_placed r) -> t_id row' <> t_id row) ->
      In row (tasks (res_db r)))) /\
  ((forall t, In t (tasks db) -> 1 <= t_id t) ->
   forall t d, In t (tasks (res_db r)) -> scheduled_date t = Some d ->
     In t (tasks db) \/ exists row, In (row, d) (res_placed r) /\ t_id row = t_id t).
Proof.
  intros Hdaily r speed.
  destruct (smart_schedule_run_placement now today daily_minutes review_intervals
              lookahead_days db) as (Hcount & Hplaced & Hfirst & Hdb & _).
  fold r in Hcount, Hplaced, Hfirst, Hdb. fold speed in Hcount, Hplaced, Hfirst, Hdb.
  pose proof (placement_loop_inv speed today daily_minutes lookahead_days
                (sorted_pending db) db) as Hinv.
  set (st := placement_loop speed today daily_minutes lookahead_days (sorted_pending db) db) in *.
  rewrite Hplaced, Hcount, Hdb.
  split; [|split; [|split; [|split]]].
  - intros d. destruct (inv_room _ _ _ _ _ _ Hinv d) as [H0|Hle]; lia.
  - intros row d Hin. split.
    + apply (inv_rows _ _ _ _ _ _ Hinv row d Hin).
    + apply in_schedule_days. apply (inv_days _ _ _ _ _ _ Hinv row d Hin).
  - apply (inv_count _ _ _ _ _ _ Hinv).
  - intros row Hrow Hnot. split.
    + intros d Hd. apply in_schedule_days in Hd.
      pose proof (inv_ledger_in _ _ _ _ _ _ Hinv d Hd) as Hc.
      pose proof (inv_full _ _ _ _ _ _ Hinv row Hrow Hnot d _ Hc). lia.
    + intros Hid Hids. apply review_loop_keeps; [|done].
      rewrite (inv_db _ _ _ _ _ _ Hinv). apply replay_keeps; [|done].
      apply in_sorted_pending in Hrow. tauto.
  - intros Hpos t d Ht Hd.
    assert (Hstart : only_undated_rows_added (sched_db st) (sched_db st)).
    { split; [|now left]. intros t0 Ht0.
      assert (Hid : In (t_id t0) (map t_id (tasks (sched_db st)))) by now apply in_map.
      rewrite (inv_db _ _ _ _ _ _ Hinv), replay_ids in Hid.
      apply in_map_iff in Hid as (t1 & <- & Ht1). now apply Hpos. }
    destruct (review_loop_undated now today lookahead_days review_intervals
                (first_scheduled_for_topic st) _ _ Hstart) as [_ Hrows].
    destruct (Hrows t Ht) as [Hold|Hnone]; [|congruence].
    rewrite (inv_db _ _ _ _ _ _ Hinv) in Hold.
    now apply replay_dated.
Qed.

Lemma schedule_never_exceeds_daily_minutes_witness :
  0 <= 120 /\
  forall d,
    placed_minutes (compute_subject_speed (seed_demo_data 0 0))
      (res_placed (smart_schedule_run 0 0 120 [1; 3; 7] 60 (seed_demo_data 0 0))) d <= 120.
Proof.
  assert (H : 0 <= 120) by lia.
  split; [exact H|].
  exact (proj1 (schedule_never_exceeds_daily_minutes 0 0 120 [1; 3; 7] 60
                  (seed_demo_data 0 0) H)).
Defined.

(** ** The order of the backlog, in the database the run leaves *)

Lemma first_with_capacity_app (cap : gmap Z Z) (need : Z) (l1 l2 : list Z) :
  first_with_capacity cap need (l1 ++ l2) =
  match first_with_capacity cap need l1 with
  | Some d => Some d
  | None => first_with_capacity cap need l2
  end.
Proof.
  induction l1 as [|x l1 IH]; simpl; [done|].
  destruct (cap !! x) as [c|]; [|exact IH].
  destruct (need <=? c); [done|exact IH].
Qed.

Lemma filter_all {A : Type} (f : A -> bool) (l : list A) :
  (forall x, In x l -> f x = true) -> List.filter f l = l.
Proof.
  induction l as [|x l IH]; simpl; intros H; [done|].
  rewrite (H x) by now left. f_equal. apply IH. intros y Hy. apply H. now right.
Qed.

Lemma schedule_days_seqZ (today L : Z) : schedule_days today L = seqZ today L.
Proof.
  unfold schedule_days, py_range. rewrite Z.sub_0_r.
  replace (seqZ today L) with (seqZ (today + 0) L) by (f_equal; lia).
  apply (fmap_add_seqZ today 0 L).
Qed.

(** The days on or before a deadline are an initial stretch of the
    window. *)
Lemma schedule_days_split (today L dl : Z) :
  exists pre post,
    schedule_days today L = pre ++ post /\
    List.filter (fun d => d <=? dl) (schedule_days today L) = pre.
Proof.
  rewrite schedule_days_seqZ.
  destruct (Z.le_gt_cases L 0) as [HL|HL].
  { exists [], []. rewrite seqZ_nil by done. auto. }
  set (k := Z.max 0 (Z.min L (dl - today + 1))).
  exists (seqZ today k), (seqZ (today + k) (L - k)).
  assert (Hsplit : seqZ today L = seqZ today k ++ seqZ (today + k) (L - k)).
  { rewrite <- seqZ_app by lia. f_equal. lia. }
  split; [exact Hsplit|].
  rewrite Hsplit, List.filter_app, filter_all, filter_none.
  - apply app_nil_r.
  - intros d Hd. apply list_elem_of_In, elem_of_seqZ in Hd. apply Z.leb_gt. lia.
  - intros d Hd. apply list_elem_of_In, elem_of_seqZ in Hd. apply Z.leb_le. lia.
Qed.

Lemma placed_row_set_schedule (row : task) (d : Z) :
  set_schedule d pending (preferred_window row) (t_id row) row = placed_row row d.
Proof. unfold set_schedule, placed_row. now rewrite Z.eqb_refl. Qed.

Lemma sorted_pending_ids (db : store) :
  List.NoDup (map t_id (tasks db)) -> List.NoDup (map t_id (sorted_pending db)).
Proof.
  intros H.
  apply (Permutation_NoDup
           (l := map t_id (List.filter is_unscheduled_pending (tasks db)))).
  - apply Permutation_map, Permutation_sym, sorted_pending_perm.
  - now apply NoDup_map_filter.
Qed.

Lemma placed_minutes_app (speed : gmap string float) (l1 l2 : list (task * Z)) (d : Z) :
  placed_minutes speed (l1 ++ l2) d =
  placed_minutes speed l1 d + placed_minutes speed l2 d.
Proof. unfold placed_minutes. now rewrite List.filter_app, map_app, sum_Z_app. Qed.

(** The rows the loop places are rows of the loop, in the order of the
    loop. *)
Lemma placed_rows_sublist (speed : gmap string float) (days : list Z)
    (rows : list task) (st : sched_state) :
  exists ext,
    placed (fold_left (place_task speed days) rows st) = placed st ++ ext /\
    sublist (map fst ext) rows.
Proof.
  revert st. induction rows as [|row rows IH]; intros st; simpl.
  - exists []. split; [now rewrite app_nil_r|constructor].
  - destruct (place_task_cases speed days st row)
      as [[Heq _]|(d & c & _ & _ & _ & Heq)]; rewrite Heq.
    + destruct (IH st) as (ext & Hext & Hs). exists ext.
      split; [exact Hext|]. now apply sublist_cons.
    + destruct (IH (commit_placement (minutes_needed speed row) row d st))
        as (ext & Hext & Hs).
      exists ((row, d) :: ext). split.
      * rewrite Hext. simpl. now rewrite <- app_assoc.
      * simpl. now apply sublist_skip.
Qed.

Lemma trace_rows_sublist (now today daily : Z) (offs : list Z) (L : Z) (db : store) :
  sublist (map fst (res_placed (smart_schedule_run now today daily offs L db)))
    (sorted_pending db).
Proof.
  destruct (smart_schedule_run_placement now today daily offs L db)
    as (_ & Hplaced & _).
  rewrite Hplaced. unfold placement_loop.
  destruct (placed_rows_sublist (compute_subject_speed db) (schedule_days today L)
              (sorted_pending db)
              {| day_capacity := fresh_capacity (schedule_days today L) daily;
                 scheduled_count := 0; first_scheduled_for_topic := [];
                 sched_db := db; placed := [] |}) as (ext & Hext & Hs).
  rewrite Hext. exact Hs.
Qed.

(** One step of the loop: nothing changes, or the row goes to the
    earliest day of the window with room for it. *)
Lemma place_task_earliest (speed : gmap string float) (today L : Z)
    (st : sched_state) (row : task) :
  place_task speed (schedule_days today L) st row = st \/
  exists d c,
    today <= d < today + L /\
    day_capacity st !! d = Some c /\ minutes_needed speed row <= c /\
    (forall d' c', today <= d' < d -> day_capacity st !! d' = Some c' ->
                   c' < minutes_needed speed row) /\
    place_task speed (schedule_days today L) st row =
    commit_placement (minutes_needed speed row) row d st.
Proof.
  assert (Hscan :
    place_task speed (schedule_days today L) st row =
    match first_with_capacity (day_capacity st) (minutes_needed speed row)
            (schedule_days today L) with
    | Some d => commit_placement (minutes_needed speed row) row d st
    | None => st
    end).
  { unfold place_task, candidates.
    destruct (schedule_days_split today L (deadline row)) as (pre & post & Hdays & Hpre).
    rewrite Hpre. destruct pre as [|p pre].
    - now destruct (first_with_capacity _ _ _).
    - assert (H :
        first_with_capacity (day_capacity st) (minutes_needed speed row)
          (schedule_days today L) =
        match first_with_capacity (day_capacity st) (minutes_needed speed row) (p :: pre) with
        | Some d => Some d
        | None => first_with_capacity (day_capacity st) (minutes_needed speed row) post
        end).
      { rewrite Hdays. apply first_with_capacity_app. }
      rewrite H. now destruct (first_with_capacity _ _ (p :: pre)). }
  rewrite Hscan.
  destruct (first_with_capacity _ _ _) as [d|] eqn:E; [right|now left].
  destruct (first_with_capacity_Some _ _ _ _ E) as (pre & post & c & Hl & Hc & Hle & Hshort).
  exists d, c.
  assert (Hd : In d (schedule_days today L)).
  { rewrite Hl. apply in_or_app. right. now left. }
  apply in_schedule_days in Hd.
  rewrite schedule_days_seqZ in Hl. apply seqZ_split in Hl as [_ Hbefore].
  split; [exact Hd|]. split; [exact Hc|]. split; [exact Hle|]. split; [|reflexivity].
  intros d' c' Hd' Hc'. apply (Hshort d' c'); [|exact Hc']. apply Hbefore. lia.
Qed.

Lemma first_fit_trace_step (speed : gmap string float) (today L daily : Z)
    (seen : list task) (db0 : store) (st : sched_state) (row : task) :
  loop_inv speed (schedule_days today L) daily seen db0 st ->
  first_fit_trace speed today L daily (placed st) ->
  first_fit_trace speed today L daily
    (placed (place_task speed (schedule_days today L) st row)).
Proof.
  intros Hinv Htrace.
  destruct (place_task_earliest speed today L st row)
    as [Heq|(d & c & Hd & Hc & Hle & Hshort & Heq)]; rewrite Heq; [exact Htrace|].
  cbn [placed commit_placement].
  intros pre row' d' post Hsplit.
  induction post as [|x post _] using rev_ind.
  - apply app_inj_tail in Hsplit as [<- Hlast]. injection Hlast as <- <-.
    pose proof (inv_ledger_in _ _ _ _ _ _ Hinv d (proj2 (in_schedule_days today L d) Hd))
      as Hcap.
    rewrite Hc in Hcap. injection Hcap as Hcap.
    split; [exact Hd|]. split; [lia|].
    intros d'' Hd''.
    assert (Hin : In d'' (schedule_days today L)) by (apply in_schedule_days; lia).
    pose proof (inv_ledger_in _ _ _ _ _ _ Hinv d'' Hin) as Hcap''.
    pose proof (Hshort d'' _ Hd'' Hcap''). lia.
  - rewrite app_comm_cons, app_assoc in Hsplit.
    apply app_inj_tail in Hsplit as [Hsplit _].
    exact (Htrace _ _ _ _ Hsplit).
Qed.

Lemma placement_loop_first_fit (speed : gmap string float) (today daily L : Z)
    (rows : list task) (db0 : store) :
  first_fit_trace speed today L daily
    (placed (placement_loop speed today daily L rows db0)).
Proof.
  unfold placement_loop.
  assert (Hgen : forall todo seen st,
    loop_inv speed (schedule_days today L) daily seen db0 st ->
    first_fit_trace speed today L daily (placed st) ->
    first_fit_trace speed today L daily
      (placed (fold_left (place_task speed (schedule_days today L)) todo st))).
  { induction todo as [|row todo IH]; intros seen st Hinv Htrace; simpl; [done|].
    apply (IH (seen ++ [row])).
    - now apply loop_inv_step.
    - now apply (first_fit_trace_step speed today L daily seen db0). }
  apply (Hgen rows [] _ (loop_inv_init speed (schedule_days today L) daily db0)).
  intros pre row d post Heq. simpl in Heq. destruct pre; discriminate Heq.
Qed.

(** The UPDATEs of a trace with distinct rowids reach the table: every
    row of the trace is there with its date. *)
Lemma replay_written (log : list (task * Z)) (db : store) :
  List.NoDup (map (fun e => t_id (fst e)) log) ->
  (forall row d, In (row, d) log -> In row (tasks db)) ->
  forall row d, In (row, d) log -> In (placed_row row d) (tasks (replay log db)).
Proof.
  revert db. induction log as [|[r0 d0] log IH]; intros db Hnd Hin row d Hrow;
    [destruct Hrow|].
  change (replay ((r0, d0) :: log) db)
    with (replay log (update_task_schedule (t_id r0) d0 (preferred_window r0) db)).
  cbn [map fst] in Hnd. apply List.NoDup_cons_iff in Hnd as [Hfresh Hnd].
  assert (Hother : forall row' d', In (row', d') log -> t_id row' <> t_id r0).
  { intros row' d' Hin' Hid. apply Hfresh. apply in_map_iff.
    exists (row', d'). split; [exact Hid|exact Hin']. }
  destruct Hrow as [Heq|Hrow].
  - injection Heq as <- <-. apply replay_keeps.
    + rewrite tasks_update_task_schedule. apply in_map_iff. exists r0.
      split; [apply placed_row_set_schedule|]. apply (Hin r0 d0). now left.
    + exact Hother.
  - apply IH; [exact Hnd| |exact Hrow].
    intros row' d' Hin'. apply update_task_schedule_keeps.
    + apply (Hin row' d'). now right.
    + now apply (Hother row' d').
Qed.

(** Trace and table agree on the backlog: a row the loop placed is in
    the table with its date, and a backlog row dated in the table was
    placed by the loop on that day. *)
Lemma run_writes_placements (now today daily : Z) (offs : list Z) (L : Z) (db : store) :
  wf_ids db ->
  forall row d,
    In (row, d) (res_placed (smart_schedule_run now today daily offs L db)) ->
    In (placed_row row d) (tasks (res_db (smart_schedule_run now today daily offs L db))).
Proof.
  intros [Hnd Hpos] row d Hrow.
  pose proof (trace_rows_sublist now today daily offs L db) as Hsub.
  destruct (smart_schedule_run_placement now today daily offs L db)
    as (_ & Hplaced & _ & Hdb & _).
  pose proof (placement_loop_inv (compute_subject_speed db) today daily L
                (sorted_pending db) db) as Hinv.
  assert (Hrows : forall row' d',
            In (row', d') (res_placed (smart_schedule_run now today daily offs L db)) ->
            In row' (tasks db)).
  { intros row' d' Hin'. rewrite Hplaced in Hin'.
    apply (inv_rows _ _ _ _ _ _ Hinv) in Hin'.
    now apply in_sorted_pending in Hin'. }
  rewrite Hdb. apply review_loop_keeps.
  - rewrite (inv_db _ _ _ _ _ _ Hinv), <- Hplaced.
    apply replay_written; [|exact Hrows|exact Hrow].
    assert (Hids : List.NoDup
              (map t_id (map fst (res_placed (smart_schedule_run now today daily offs L db))))).
    { apply NoDup_ListNoDup.
      eapply sublist_NoDup; [apply NoDup_ListNoDup, sorted_pending_ids; exact Hnd|].
      apply sublist_map. exact Hsub. }
    now rewrite map_map in Hids.
  - simpl. pose proof (Hpos row (Hrows row d Hrow)). lia.
Qed.

Lemma dated_row_in_trace (now today daily : Z) (offs : list Z) (L : Z) (db : store) :
  wf_ids db ->
  forall a da,
    In a (sorted_pending db) ->
    In (placed_row a da) (tasks (res_db (smart_schedule_run now today daily offs L db))) ->
    In (a, da) (res_placed (smart_schedule_run now today daily offs L db)).
Proof.
  intros [Hnd Hpos] a da Ha Hin.
  destruct (smart_schedule_run_placement now today daily offs L db)
    as (_ & Hplaced & _ & Hdb & _).
  pose proof (placement_loop_inv (compute_subject_speed db) today daily L
                (sorted_pending db) db) as Hinv.
  set (st := placement_loop (compute_subject_speed db) today daily L
               (sorted_pending db) db) in *.
  apply in_sorted_pending in Ha as (Ha & _ & Hnone).
  assert (Hstart : only_undated_rows_added (sched_db st) (sched_db st)).
  { split; [|now left]. intros t0 Ht0.
    assert (Hid : In (t_id t0) (map t_id (tasks (sched_db st)))) by now apply in_map.
    rewrite (inv_db _ _ _ _ _ _ Hinv), replay_ids in Hid.
    apply in_map_iff in Hid as (t1 & <- & Ht1). now apply Hpos. }
  destruct (review_loop_undated now today L offs (first_scheduled_for_topic st) _ _ Hstart)
    as [_ Hrows].
  rewrite Hdb in Hin.
  destruct (Hrows _ Hin) as [Hold|Hundated]; [|discriminate Hundated].
  rewrite (inv_db _ _ _ _ _ _ Hinv) in Hold.
  destruct (replay_dated _ _ _ da Hold eq_refl) as [Hdb0|(row & Hrow & Hid)].
  - assert (Heq : placed_row a da = a)
      by (now apply (NoDup_map_eq t_id (tasks db))).
    rewrite <- Heq in Hnone. discriminate Hnone.
  - rewrite Hplaced.
    assert (Hrow' : In row (tasks db)).
    { apply (inv_rows _ _ _ _ _ _ Hinv) in Hrow. now apply in_sorted_pending in Hrow. }
    assert (row = a) by (now apply (NoDup_map_eq t_id (tasks db))).
    now subst row.
Qed.

(** C7. The placement loop runs over the pending, unscheduled rows in
    the order of [sort_values]: a permutation of the backlog, sorted by
    deadline ascending, then priority descending, then difficulty
    descending, rows equal on all three keys keeping the order of the
    table.  The rows are placed in that order, each on the first day of
    the window that still has room for it after the rows before it
    (in a run whose dates stay within the range of [date]), and with
    distinct positive rowids the table the run leaves holds each placed
    row with that date, and no other date for a backlog row.  So
    of two backlog rows dated by the run, the one with the earlier
    deadline is never on a later day unless it needs more minutes,
    whatever the priorities; and with ample capacity every backlog row
    is dated today, so that the day of an earlier deadline is never
    after the day of a later one. *)
Theorem backlog_is_processed_by_deadline_priority_difficulty
    (now today daily_minutes : Z) (review_intervals : list Z)
    (lookahead_days : Z) (db : store) :
  let rows := sorted_pending db in
  let backlog := List.filter is_unscheduled_pending (tasks db) in
  let speed := compute_subject_speed db in
  let r := smart_schedule_run now today daily_minutes review_intervals lookahead_days db in
  Permutation rows backlog /\
  StronglySorted sched_before rows /\
  (forall x, List.filter (same_sort_key x) rows = List.filter (same_sort_key x) backlog) /\
  (dates_in_range today lookahead_days review_intervals ->
   sublist (map fst (res_placed r)) rows /\
   first_fit_trace speed today lookahead_days daily_minutes (res_placed r) /\
   (wf_ids db ->
    (forall row d, In (row, d) (res_placed r) -> In (placed_row row d) (tasks (res_db r))) /\
    (forall row d, In row backlog -> In (placed_row row d) (tasks (res_db r)) ->
       In (row, d) (res_placed r)) /\
    (forall a b da db_,
       In a backlog -> In b backlog ->
       In (placed_row a da) (tasks (res_db r)) ->
       In (placed_row b db_) (tasks (res_db r)) ->
       deadline a < deadline b ->
       minutes_needed speed a <= minutes_needed speed b ->
       da <= db_) /\
    (1 <= lookahead_days -> ample speed daily_minutes rows ->
     res_placed r = map (fun row => (row, today)) rows /\
     (forall row, In row backlog -> In (placed_row row today) (tasks (res_db r))) /\
     (forall a b da db_,
        In a backlog -> In b backlog ->
        In (placed_row a da) (tasks (res_db r)) ->
        In (placed_row b db_) (tasks (res_db r)) ->
        deadline a < deadline b -> da <= db_)))).
Proof.
  intros rows backlog speed r.
  pose proof (sorted_pending_perm db) as Hperm. fold rows backlog in Hperm.
  pose proof (trace_rows_sublist now today daily_minutes review_intervals
                lookahead_days db) as Hsub. fold r rows in Hsub.
  destruct (smart_schedule_run_placement now today daily_minutes review_intervals
              lookahead_days db) as (_ & Hplaced & _).
  fold r speed rows in Hplaced.
  assert (Hfit : first_fit_trace speed today lookahead_days daily_minutes (res_placed r)).
  { rewrite Hplaced. apply placement_loop_first_fit. }
  split; [exact Hperm|].
  split; [apply sorted_pending_sorted|].
  split; [apply sorted_pending_stable|].
  intros _.
  split; [exact Hsub|].
  split; [exact Hfit|].
  intros Hwf.
  assert (Hin_rows : forall row, In row backlog -> In row rows).
  { intros row Hrow. apply (Permutation_in row (Permutation_sym Hperm) Hrow). }
  assert (Hwritten : forall row d, In (row, d) (res_placed r) ->
                                   In (placed_row row d) (tasks (res_db r))).
  { apply run_writes_placements. exact Hwf. }
  assert (Hread : forall row d, In row backlog ->
                    In (placed_row row d) (tasks (res_db r)) -> In (row, d) (res_placed r)).
  { intros row d Hrow Hin.
    apply (dated_row_in_trace now today daily_minutes review_intervals lookahead_days db Hwf);
      [now apply Hin_rows|exact Hin]. }
  split; [exact Hwritten|]. split; [exact Hread|]. split.
  - intros a b da db_ Ha Hb Hda Hdb Hdl Hneed.
    apply Hread in Hda; [|exact Ha]. apply Hread in Hdb; [|exact Hb].
    destruct (in_split _ _ Hdb) as (pre & post & Htrace).
    assert (Hsorted : StronglySorted sched_before (map fst (res_placed r))).
    { apply (StronglySorted_sublist _ _ rows Hsub). apply sorted_pending_sorted. }
    rewrite Htrace in Hda. apply in_app_or in Hda as [Hpre|[Heq|Hpost]].
    + destruct (in_split _ _ Hpre) as (p1 & p2 & Hpre').
      destruct (Hfit pre b db_ post Htrace) as (Hdb_range & Hroom & _).
      assert (Htrace' : res_placed r = p1 ++ (a, da) :: (p2 ++ (b, db_) :: post)).
      { rewrite Htrace, Hpre', <- app_assoc. reflexivity. }
      destruct (Hfit p1 a da _ Htrace') as (_ & _ & Hshort).
      destruct (Z.le_gt_cases da db_) as [Hle|Hgt]; [exact Hle|].
      assert (Hd : today <= db_ < da) by lia.
      specialize (Hshort db_ Hd).
      rewrite Hpre', placed_minutes_app in Hroom.
      pose proof (placed_minutes_nonneg speed ((a, da) :: p2) db_). lia.
    + injection Heq as Heq _. subst b. lia.
    + rewrite Htrace, map_app in Hsorted. simpl in Hsorted.
      assert (Hab : sched_before b a).
      { apply (StronglySorted_later _ _ _ _ _ Hsorted).
        apply in_map_iff. exists (a, da). split; [reflexivity|exact Hpost]. }
      unfold sched_before in Hab. lia.
  - intros HL Hample.
    assert (Hall : res_placed r = map (fun row => (row, today)) rows).
    { rewrite Hplaced. unfold placement_loop.
      rewrite (ample_places_today _ today lookahead_days rows _ daily_minutes HL).
      - reflexivity.
      - simpl. apply fresh_capacity_in. apply in_schedule_days. lia.
      - exact Hample. }
    split; [exact Hall|]. split.
    + intros row Hrow. apply Hwritten. rewrite Hall.
      apply in_map_iff. exists row. split; [reflexivity|now apply Hin_rows].
    + intros a b da db_ Ha Hb Hda Hdb _.
      apply Hread in Hda; [|exact Ha]. apply Hread in Hdb; [|exact Hb].
      rewrite Hall in Hda, Hdb.
      apply in_map_iff in Hda as (? & [= _ <-] & _).
      apply in_map_iff in Hdb as (? & [= _ <-] & _). lia.
Qed.

Lemma backlog_is_processed_by_deadline_priority_difficulty_witness :
  In (mk_task 2 "B" "b" 30 3 1 738889 (Some 738886) "any" pending 0)
     (tasks (res_db pressure_run)) /\
  In (mk_task 1 "A" "a" 30 3 5 738891 (Some 738887) "any" pending 0)
     (tasks (res_db pressure_run)).
Proof.
  assert (Hdates : dates_in_range 738886 7 [1; 3; 7]).
  { unfold dates_in_range, window_in_range, is_date, is_timedelta.
    split; [lia|]. intros o [<-|[<-|[<-|[]]]]; lia. }
  assert (Hwf : wf_ids deadline_priority_2024).
  { split.
    - simpl. repeat (apply List.NoDup_cons; [simpl; intuition lia|]). apply List.NoDup_nil.
    - intros t [<-|[<-|[]]]; simpl; lia. }
  pose proof (proj1 (proj2 (proj2 (proj2 (proj2 (proj2
    (backlog_is_processed_by_deadline_priority_difficulty 0 738886 45 [1; 3; 7] 7
       deadline_priority_2024))) Hdates)) Hwf)) as Hwritten.
  split.
  - apply (Hwritten (mk_task 2 "B" "b" 30 3 1 738889 None "any" pending 0) 738886).
    vm_compute. left. reflexivity.
  - apply (Hwritten (mk_task 1 "A" "a" 30 3 5 738891 None "any" pending 0) 738887).
    vm_compute. right. left. reflexivity.
Defined.

(** * Further properties *)

(** ** The two passes are one first-fit scan *)

(** X1. The deadline-aware pass and the fallback pass together are a
    single scan: a row goes to the earliest day of the whole window
    whose remaining capacity covers its calibrated minutes, and stays
    unscheduled when no day does.  The deadline of a row decides when
    the row is processed, never which day it gets. *)
Theorem placement_is_first_fit_over_the_window (speed : gmap string float)
    (today lookahead_days : Z) (st : sched_state) (row : task) :
  place_task speed (schedule_days today lookahead_days) st row =
  match first_with_capacity (day_capacity st) (minutes_needed speed row)
          (schedule_days today lookahead_days) with
  | Some d => commit_placement (minutes_needed speed row) row d st
  | None => st
  end.
Proof.
  unfold place_task, candidates.
  destruct (schedule_days_split today lookahead_days (deadline row))
    as (pre & post & Hdays & Hpre).
  rewrite Hpre. destruct pre as [|p pre].
  - now destruct (first_with_capacity _ _ _).
  - assert (Hscan :
      first_with_capacity (day_capacity st) (minutes_needed speed row)
        (schedule_days today lookahead_days) =
      match first_with_capacity (day_capacity st) (minutes_needed speed row) (p :: pre) with
      | Some d => Some d
      | None => first_with_capacity (day_capacity st) (minutes_needed speed row) post
      end).
    { rewrite Hdays. apply first_with_capacity_app. }
    rewrite Hscan.
    now destruct (first_with_capacity _ _ (p :: pre)).
Qed.

(** A task whose deadline has passed is placed all the same, on the
    first day with room. *)
Example overdue_task_is_placed_today :
  res_placed (smart_schedule_run 0 10 120 [] 7
                (mk_store [mk_task 1 "X" "t" 60 3 3 2 None "any" pending 0] [] [])) =
  [(mk_task 1 "X" "t" 60 3 3 2 None "any" pending 0, 10)].
Proof. vm_compute. reflexivity. Qed.

(** ** One review chain per subject *)

Lemma placement_loop_ind (speed : gmap string float) (days : list Z)
    (P : list task -> sched_state -> Prop) (st0 : sched_state) (rows : list task) :
  P [] st0 ->
  (forall seen st row, P seen st -> P (seen ++ [row]) st) ->
  (forall seen st row d, P seen st ->
     P (seen ++ [row]) (commit_placement (minutes_needed speed row) row d st)) ->
  P rows (fold_left (place_task speed days) rows st0).
Proof.
  intros H0 Hskip Hcommit.
  assert (Hgen : forall todo seen st, P seen st ->
            P (seen ++ todo) (fold_left (place_task speed days) todo st)).
  { induction todo as [|row todo IH]; intros seen st HP; simpl.
    - now rewrite app_nil_r.
    - replace (seen ++ row :: todo) with ((seen ++ [row]) ++ todo)
        by (now rewrite <- app_assoc).
      apply IH.
      destruct (place_task_cases speed days st row) as [[-> _]|(d & c & _ & _ & _ & ->)];
        auto. }
  apply (Hgen rows [] st0 H0).
Qed.

Lemma existsb_key (sub : string) (first : list (string * Z)) :
  existsb (fun e => String.eqb (fst e) sub) first = true <-> In sub (map fst first).
Proof.
  split.
  - intros H. apply List.existsb_exists in H as (e & He & Heq).
    apply String.eqb_eq in Heq. subst sub. now apply in_map.
  - intros H. apply in_map_iff in H as (e & <- & He).
    apply List.existsb_exists. exists e. split; [done|]. apply String.eqb_refl.
Qed.

Lemma first_inv_commit (need : Z) (row : task) (d : Z) (st : sched_state) :
  first_inv st -> first_inv (commit_placement need row d st).
Proof.
  intros [Hnd Hcov Hfirst]. constructor; simpl; unfold record_first.
  - destruct (existsb _ _) eqn:E; [done|].
    rewrite map_app. simpl. apply List.NoDup_app; [done| |].
    + apply List.NoDup_cons; [intros []|apply List.NoDup_nil].
    + intros s Hs [<-|[]]. apply existsb_key in Hs. congruence.
  - intros row' d' [Hin|[[= <- <-]|[]]]%in_app_or.
    + specialize (Hcov _ _ Hin). destruct (existsb _ _); [done|].
      rewrite map_app. apply in_or_app. now left.
    + destruct (existsb _ _) eqn:E; [now apply existsb_key|].
      rewrite map_app. apply in_or_app. right. now left.
  - intros sub D Hin.
    assert (Hold : In (sub, D) (first_scheduled_for_topic st) ->
              exists pre row0 post,
                placed st ++ [(row, d)] = pre ++ (row0, D) :: post /\
                subject row0 = sub /\ forall e, In e pre -> subject (fst e) <> sub).
    { intros Hin'. destruct (Hfirst _ _ Hin') as (pre & row0 & post & Hp & Hs & Hpre).
      exists pre, row0, (post ++ [(row, d)]). rewrite Hp, <- app_assoc. auto. }
    destruct (existsb _ _) eqn:E; [auto|].
    apply in_app_or in Hin as [Hin|[[= <- <-]|[]]]; [auto|].
    exists (placed st), row, []. split; [reflexivity|]. split; [reflexivity|].
    intros [r0 d0] He Heq. simpl in Heq.
    apply Hcov in He. rewrite Heq in He. apply existsb_key in He. congruence.
Qed.

Lemma placement_loop_first_inv (speed : gmap string float) (today daily L : Z)
    (rows : list task) (db : store) :
  first_inv (placement_loop speed today daily L rows db).
Proof.
  unfold placement_loop.
  apply (placement_loop_ind speed _ (fun _ st => first_inv st)).
  - constructor; simpl; [apply List.NoDup_nil|tauto|tauto].
  - auto.
  - intros seen st row d H. now apply first_inv_commit.
Qed.

(** X2. A run records every subject it places at most once, with the
    day of the first row of that subject in processing order: the
    subjects of [first_scheduled_for_topic] are distinct, they are
    exactly the subjects of the placed rows, and the day kept for a
    subject is the day of its earliest placement in the run, so later
    rows of the subject start no review chain of their own. *)
Theorem first_scheduled_is_first_placement_of_each_subject
    (now today daily_minutes : Z) (review_intervals : list Z)
    (lookahead_days : Z) (db : store) :
  let r := smart_schedule_run now today daily_minutes review_intervals lookahead_days db in
  List.NoDup (map fst (res_first r)) /\
  (forall sub, In sub (map fst (res_first r)) <->
               exists row d, In (row, d) (res_placed r) /\ subject row = sub) /\
  (forall sub D, In (sub, D) (res_first r) ->
     exists pre row post,
       res_placed r = pre ++ (row, D) :: post /\ subject row = sub /\
       forall e, In e pre -> subject (fst e) <> sub).
Proof.
  intros r.
  destruct (smart_schedule_run_placement now today daily_minutes review_intervals
              lookahead_days db) as (_ & Hplaced & Hfirst & _).
  fold r in Hplaced, Hfirst. rewrite Hplaced, Hfirst.
  destruct (placement_loop_first_inv (compute_subject_speed db) today daily_minutes
              lookahead_days (sorted_pending db) db) as [Hnd Hcov Hfst].
  split; [exact Hnd|]. split; [|exact Hfst].
  intros sub. split.
  - intros Hin. apply in_map_iff in Hin as ([s D] & <- & Hin).
    destruct (Hfst _ _ Hin) as (pre & row & post & Hp & Hs & _).
    exists row, D. split; [|done]. rewrite Hp. apply in_or_app. right. now left.
  - intros (row & d & Hin & <-). eauto.
Qed.

(** Two Mathematics tasks, placed on days 1 and 0 in that order: the
    subject keeps day 1, the day of the row processed first. *)
Example mathematics_is_recorded_once :
  res_first (smart_schedule_run 100 0 120 [1; 3; 7] 5 (seed_demo_data 0 0)) =
  [("Python"%string, 0); ("Mathematics"%string, 1);
   ("Algorithms"%string, 2); ("History"%string, 3)] /\
  map (fun e => (subject (fst e), snd e))
      (res_placed (smart_schedule_run 100 0 120 [1; 3; 7] 5 (seed_demo_data 0 0))) =
  [("Python"%string, 0); ("Mathematics"%string, 1); ("Mathematics"%string, 0);
   ("Algorithms"%string, 2); ("History"%string, 3)].
Proof. vm_compute. split; reflexivity. Qed.

(** ** Running the scheduler again *)

Lemma tasks_replay (log : list (task * Z)) (db : store) :
  tasks (replay log db) = map (replay_row log) (tasks db).
Proof.
  revert db. induction log as [|e log IH]; intros db; simpl.
  - symmetry. apply map_id.
  - rewrite IH, tasks_update_task_schedule, map_map. reflexivity.
Qed.

Lemma backlog_set_schedule (d : Z) (tw : string) (tid : Z) (t : task) :
  is_unscheduled_pending (set_schedule d pending tw tid t) = true ->
  is_unscheduled_pending t = true /\ t_id t <> tid.
Proof.
  unfold set_schedule. destruct (Z.eqb_spec (t_id t) tid) as [Heq|Hne]; [|auto].
  unfold is_unscheduled_pending. intros H.
  apply andb_true_iff in H as [_ H]. apply bool_decide_eq_true in H.
  simpl in H. discriminate H.
Qed.

Lemma set_schedule_id (d : Z) (st : task_status) (tw : string) (tid : Z) (t : task) :
  t_id (set_schedule d st tw tid t) = t_id t.
Proof. unfold set_schedule. now destruct (t_id t =? tid). Qed.

Lemma backlog_replay_row (log : list (task * Z)) (t : task) :
  is_unscheduled_pending (replay_row log t) = true ->
  is_unscheduled_pending t = true /\
  forall row d, In (row, d) log -> t_id row <> t_id t.
Proof.
  unfold replay_row. revert t.
  induction log as [|[row0 d0] log IH]; intros t; simpl; [tauto|].
  intros H. apply IH in H as [H Hrest]. apply backlog_set_schedule in H as [Ht Hne].
  split; [done|]. intros row d [[= <- <-]|Hin]; [congruence|].
  specialize (Hrest row d Hin). now rewrite set_schedule_id in Hrest.
Qed.

Lemma no_backlog_create_review (now today L : Z) (sub : string) (D oid : Z)
    (top : string) (mins : Z) (db : store) (offset : Z) :
  no_backlog db -> no_backlog (create_review now today L sub D oid top mins db offset).
Proof.
  intros Hnb t. rewrite tasks_create_review.
  destruct (D + offset <=? today + L); [|apply Hnb].
  intros Ht. apply in_map_iff in Ht as (t0 & <- & Ht0).
  destruct (is_unscheduled_pending (set_schedule _ _ _ _ t0)) eqn:E; [|done].
  apply backlog_set_schedule in E as [E _].
  apply in_app_or in Ht0 as [Ht0|[<-|[]]]; [|discriminate E].
  rewrite (Hnb t0 Ht0) in E. discriminate E.
Qed.

Lemma no_backlog_review_loop (now today L : Z) (offs : list Z)
    (first : list (string * Z)) (db : store) :
  no_backlog db ->
  no_backlog (fold_left (create_reviews_for now today L offs) first db).
Proof.
  revert db. induction first as [|e first IH]; intros db H; simpl; [done|].
  apply IH. unfold create_reviews_for.
  destruct (first_task_of_subject db (fst e)) as [[[oid top] mins]|]; [|done].
  clear IH. revert db H. induction offs as [|o offs IHo]; intros db H; simpl; [done|].
  apply IHo. now apply no_backlog_create_review.
Qed.

Lemma no_backlog_schedule_noop (now today daily : Z) (offs : list Z) (L : Z)
    (db : store) :
  no_backlog db -> smart_schedule now today daily offs L db = (0, db).
Proof.
  intros Hnb. unfold smart_schedule, smart_schedule_run, fetch_tasks.
  now rewrite (filter_none is_unscheduled_pending (tasks db) Hnb).
Qed.

Lemma all_placed_when_counts_agree (speed : gmap string float) (today daily L : Z)
    (rows : list task) (db : store) :
  let st := placement_loop speed today daily L rows db in
  length (placed st) = length rows ->
  forall row, In row rows -> exists d, In (row, d) (placed st).
Proof.
  unfold placement_loop.
  apply (placement_loop_ind speed _
           (fun seen st =>
              (length (placed st) <= length seen)%nat /\
              (length (placed st) = length seen ->
               forall row, In row seen -> exists d, In (row, d) (placed st)))).
  - simpl. split; [lia|]. intros _ row [].
  - intros seen st row [Hle _]. rewrite length_app. simpl. split; [lia|].
    intros Heq. lia.
  - intros seen st row d [Hle Hall]. simpl. rewrite !length_app. simpl.
    split; [lia|]. intros Heq row' [Hin|[<-|[]]]%in_app_or.
    + destruct (Hall ltac:(lia) row' Hin) as [d' Hd'].
      exists d'. apply in_or_app. now left.
    + exists d. apply in_or_app. right. now left.
Qed.

(** X3. When a run has placed the whole backlog (its return value is
    the number of pending, undated tasks), the database it leaves holds
    no pending, undated task: the placed rows are dated and the review
    rows are not pending.  Any further run, whatever its arguments,
    returns 0 and changes nothing. *)
Theorem rerun_after_full_placement_changes_nothing
    (now today daily_minutes : Z) (review_intervals : list Z)
    (lookahead_days : Z) (db : store)
    (now' today' daily_minutes' : Z) (review_intervals' : list Z)
    (lookahead_days' : Z) :
  let r := smart_schedule_run now today daily_minutes review_intervals lookahead_days db in
  res_count r = Z.of_nat (length (sorted_pending db)) ->
  (forall t, In t (tasks (res_db r)) ->
     ~ (status t = pending /\ scheduled_date t = None)) /\
  smart_schedule now' today' daily_minutes' review_intervals' lookahead_days' (res_db r) =
  (0, res_db r).
Proof.
  intros r Hcount.
  destruct (smart_schedule_run_placement now today daily_minutes review_intervals
              lookahead_days db) as (Hc & Hplaced & _ & Hdb & _).
  fold r in Hc, Hplaced, Hdb.
  pose proof (placement_loop_inv (compute_subject_speed db) today daily_minutes
                lookahead_days (sorted_pending db) db) as Hinv.
  pose proof (all_placed_when_counts_agree (compute_subject_speed db) today
                daily_minutes lookahead_days (sorted_pending db) db) as Hall.
  simpl in Hall.
  set (st := placement_loop (compute_subject_speed db) today daily_minutes
               lookahead_days (sorted_pending db) db) in *.
  assert (Hlen : length (placed st) = length (sorted_pending db)).
  { rewrite Hc, (inv_count _ _ _ _ _ _ Hinv) in Hcount. lia. }
  assert (Hnb : no_backlog (res_db r)).
  { rewrite Hdb. apply no_backlog_review_loop.
    intros t Ht. rewrite (inv_db _ _ _ _ _ _ Hinv), tasks_replay in Ht.
    apply in_map_iff in Ht as (t0 & <- & Ht0).
    destruct (is_unscheduled_pending (replay_row (placed st) t0)) eqn:E; [|done].
    apply backlog_replay_row in E as [Hb Hnot].
    assert (Hrow : In t0 (sorted_pending db)).
    { apply in_sorted_pending. unfold is_unscheduled_pending, status_eqb in Hb.
      apply andb_true_iff in Hb as [H1 H2].
      apply bool_decide_eq_true in H1, H2. auto. }
    destruct (Hall Hlen t0 Hrow) as [d Hd].
    exfalso. now apply (Hnot t0 d Hd). }
  split; [|now apply no_backlog_schedule_noop].
  intros t Ht [Hs Hd]. specialize (Hnb t Ht).
  unfold is_unscheduled_pending, status_eqb in Hnb.
  rewrite !bool_decide_eq_true_2 in Hnb by done. discriminate Hnb.
Qed.

Lemma rerun_after_full_placement_changes_nothing_witness :
  smart_schedule 200 1 90 [2] 30
    (res_db (smart_schedule_run 100 0 120 [1; 3; 7] 60 (seed_demo_data 0 0))) =
  (0, res_db (smart_schedule_run 100 0 120 [1; 3; 7] 60 (seed_demo_data 0 0))).
Proof.
  apply (rerun_after_full_placement_changes_nothing 100 0 120 [1; 3; 7] 60
           (seed_demo_data 0 0) 200 1 90 [2] 30).
  vm_compute. reflexivity.
Defined.

(** ** The primary key of [tasks] *)

Lemma wf_ids_alt (db : store) :
  wf_ids db <->
  List.NoDup (map t_id (tasks db)) /\ forall x, In x (map t_id (tasks db)) -> 1 <= x.
Proof.
  unfold wf_ids. split; intros [Hnd Hpos]; (split; [done|]).
  - intros x Hx. apply in_map_iff in Hx as (t & <- & Ht). auto.
  - intros t Ht. apply Hpos. now apply in_map.
Qed.

Lemma wf_ids_same_ids (db db' : store) :
  map t_id (tasks db') = map t_id (tasks db) -> wf_ids db -> wf_ids db'.
Proof. rewrite !wf_ids_alt. now intros ->. Qed.

Lemma fold_max_ge_in (x y : Z) (l : list Z) : In y l -> y <= fold_right Z.max x l.
Proof.
  induction l as [|z l IH]; simpl; [tauto|].
  intros [->|Hin]; [lia|]. specialize (IH Hin). lia.
Qed.

Lemma next_rowid_fresh (ts : list task) (t : task) :
  In t ts -> t_id t < next_rowid ts.
Proof.
  destruct ts as [|t0 ts]; simpl; [tauto|].
  intros [->|Hin].
  - pose proof (fold_max_ge (t_id t) (map t_id ts)). lia.
  - pose proof (fold_max_ge_in (t_id t0) (t_id t) (map t_id ts) (in_map t_id _ _ Hin)). lia.
Qed.

Lemma wf_ids_append (db db' : store) :
  map t_id (tasks db') = map t_id (tasks db) ++ [next_rowid (tasks db)] ->
  wf_ids db -> wf_ids db'.
Proof.
  intros Hids Hwf. pose proof (proj2 Hwf) as Hpos.
  apply wf_ids_alt in Hwf as [Hnd Hpos']. apply wf_ids_alt. rewrite Hids. split.
  - apply List.NoDup_app; [done| |].
    + apply List.NoDup_cons; [intros []|apply List.NoDup_nil].
    + intros x Hx [<-|[]]. apply in_map_iff in Hx as (t & Heq & Ht).
      pose proof (next_rowid_fresh _ _ Ht). lia.
  - intros x [Hx|[<-|[]]]%in_app_or; [auto|]. now apply next_rowid_positive.
Qed.

Lemma ids_update_task_schedule (tid d : Z) (tw : string) (db : store) :
  map t_id (tasks (update_task_schedule tid d tw db)) = map t_id (tasks db).
Proof.
  rewrite tasks_update_task_schedule, map_map. apply map_ext.
  intros t. apply set_schedule_id.
Qed.

Lemma ids_update_status_query (st : task_status) (tid : Z) (db : store) :
  map t_id (tasks (update_status_query st tid db)) = map t_id (tasks db).
Proof.
  rewrite tasks_update_status_query, map_map. apply map_ext.
  intros t. unfold set_status. now destruct (t_id t =? tid).
Qed.

Lemma ids_create_review (now today L : Z) (sub : string) (D oid : Z)
    (top : string) (mins : Z) (db : store) (offset : Z) :
  map t_id (tasks (create_review now today L sub D oid top mins db offset)) =
  map t_id (tasks db) ++
  (if D + offset <=? today + L then [next_rowid (tasks db)] else []).
Proof.
  rewrite tasks_create_review. destruct (D + offset <=? today + L).
  - rewrite map_map, map_app. simpl. rewrite set_schedule_id. simpl. f_equal.
    apply map_ext. intros t. apply set_schedule_id.
  - now rewrite app_nil_r.
Qed.

Lemma wf_ids_create_review (now today L : Z) (sub : string) (D oid : Z)
    (top : string) (mins : Z) (db : store) (offset : Z) :
  wf_ids db -> wf_ids (create_review now today L sub D oid top mins db offset).
Proof.
  intros Hwf.
  pose proof (ids_create_review now today L sub D oid top mins db offset) as Hids.
  destruct (D + offset <=? today + L).
  - now apply (wf_ids_append db).
  - rewrite app_nil_r in Hids. now apply (wf_ids_same_ids db).
Qed.

Lemma wf_ids_review_loop (now today L : Z) (offs : list Z)
    (first : list (string * Z)) (db : store) :
  wf_ids db -> wf_ids (fold_left (create_reviews_for now today L offs) first db).
Proof.
  revert db. induction first as [|e first IH]; intros db H; simpl; [done|].
  apply IH. unfold create_reviews_for.
  destruct (first_task_of_subject db (fst e)) as [[[oid top] mins]|]; [|done].
  clear IH. revert db H. induction offs as [|o offs IHo]; intros db H; simpl; [done|].
  apply IHo. now apply wf_ids_create_review.
Qed.

Lemma ids_replay_replaced (log : list (task * Z)) (db : store) :
  map t_id (tasks (replay_replaced log db)) = map t_id (tasks db).
Proof.
  revert db. induction log as [|e log IH]; intros db; simpl; [done|].
  now rewrite IH, ids_update_status_query, ids_update_task_schedule.
Qed.

Lemma fold_max_le (x b : Z) (l : list Z) :
  x <= b -> (forall y, In y l -> y <= b) -> fold_right Z.max x l <= b.
Proof.
  intros Hx. induction l as [|z l IH]; simpl; intros H; [exact Hx|].
  pose proof (H z (or_introl eq_refl)).
  assert (fold_right Z.max x l <= b) by (apply IH; intros; apply H; now right). lia.
Qed.

Lemma next_rowid_le (ts : list task) (b : Z) :
  0 <= b -> (forall x, In x (map t_id ts) -> x <= b) -> next_rowid ts <= b + 1.
Proof.
  intros Hb H. destruct ts as [|t ts]; simpl; [lia|].
  assert (fold_right Z.max (t_id t) (map t_id ts) <= b); [|lia].
  apply fold_max_le.
  - apply H. now left.
  - intros y Hy. apply H. now right.
Qed.

Lemma ids_le_create_review (now today L : Z) (sub : string) (D oid : Z)
    (top : string) (mins : Z) (db : store) (offset b : Z) :
  0 <= b -> (forall x, In x (map t_id (tasks db)) -> x <= b) ->
  forall x, In x (map t_id (tasks (create_review now today L sub D oid top mins db offset))) ->
            x <= b + 1.
Proof.
  intros Hb H x. rewrite ids_create_review.
  intros [Hx|Hx]%in_app_or; [specialize (H x Hx); lia|].
  destruct (D + offset <=? today + L); [|destruct Hx].
  destruct Hx as [<-|[]]. now apply next_rowid_le.
Qed.

Lemma ids_le_review_loop (now today L : Z) (offs : list Z)
    (first : list (string * Z)) (db : store) (b : Z) :
  0 <= b -> (forall x, In x (map t_id (tasks db)) -> x <= b) ->
  forall x,
    In x (map t_id (tasks (fold_left (create_reviews_for now today L offs) first db))) ->
    x <= b + Z.of_nat (length first) * Z.of_nat (length offs).
Proof.
  assert (Hoffs : forall sub D oid top mins os db0 b0,
    0 <= b0 -> (forall x, In x (map t_id (tasks db0)) -> x <= b0) ->
    forall x,
      In x (map t_id (tasks (fold_left (create_review now today L sub D oid top mins)
                               os db0))) ->
      x <= b0 + Z.of_nat (length os)).
  { intros sub D oid top mins os.
    induction os as [|o os IH]; intros db0 b0 Hb0 H x Hx; simpl in *.
    - specialize (H x Hx). lia.
    - pose proof (IH _ (b0 + 1) ltac:(lia)
                    (ids_le_create_review now today L sub D oid top mins db0 o b0 Hb0 H)
                    x Hx). lia. }
  revert db b. induction first as [|e first IH]; intros db b Hb H x Hx; simpl in *.
  - specialize (H x Hx). lia.
  - assert (Hstep : forall y,
              In y (map t_id (tasks (create_reviews_for now today L offs db e))) ->
              y <= b + Z.of_nat (length offs)).
    { unfold create_reviews_for.
      destruct (first_task_of_subject db (fst e)) as [[[oid top] mins]|].
      - now apply Hoffs.
      - intros y Hy. specialize (H y Hy). lia. }
    pose proof (IH _ (b + Z.of_nat (length offs)) ltac:(lia) Hstep x Hx). lia.
Qed.

Lemma first_no_longer_than_backlog (speed : gmap string float) (today daily L : Z)
    (rows : list task) (db : store) :
  (length (first_scheduled_for_topic (placement_loop speed today daily L rows db))
   <= length rows)%nat.
Proof.
  unfold placement_loop.
  apply (placement_loop_ind speed (schedule_days today L)
           (fun seen st => (length (first_scheduled_for_topic st) <= length seen)%nat)).
  - simpl. lia.
  - intros seen st row IH. rewrite length_app. simpl. lia.
  - intros seen st row d IH. rewrite length_app. simpl. unfold record_first.
    destruct (existsb _ _); [lia|]. rewrite length_app. simpl. lia.
Qed.

(** X4. Every writer keeps the primary key of [tasks] intact, as long as
    the rowids stay below SQLite's limit [2^63 - 1], where an INSERT
    takes the largest rowid plus one.  If the rowids are distinct and
    positive, they still are after [add_task] (whose new rowid is larger
    than every old one), after a status or schedule update, after
    [record_session], after a run of [smart_schedule] (which inserts at
    most one review task per backlog task and offset) and after a run of
    [reschedule_missed]; the last one neither adds nor removes a row. *)
Theorem writers_keep_rowids_distinct (db : store) :
  wf_ids db ->
  (forall now sub top mins diff prio dl st tw,
     rowids_fit db 1 ->
     wf_ids (add_task now sub top mins diff prio dl st tw db) /\
     (forall t, In t (tasks db) -> t_id t < next_rowid (tasks db)) /\
     (forall t, In t (tasks (add_task now sub top mins diff prio dl st tw db)) ->
        t_id t <= max_rowid)) /\
  (forall tid d tw, wf_ids (update_task_schedule tid d tw db)) /\
  (forall tid st, wf_ids (update_task_status tid st db)) /\
  (forall tid dur, wf_ids (record_session tid dur db)) /\
  (forall now today daily_minutes review_intervals lookahead_days,
     rowids_fit db (Z.of_nat (length (sorted_pending db)) *
                    Z.of_nat (length review_intervals)) ->
     wf_ids (snd (smart_schedule now today daily_minutes review_intervals
                    lookahead_days db)) /\
     (forall t, In t (tasks (snd (smart_schedule now today daily_minutes review_intervals
                                    lookahead_days db))) ->
        t_id t <= max_rowid)) /\
  (forall today daily_minutes lookahead_days,
     wf_ids (snd (reschedule_missed today daily_minutes lookahead_days db)) /\
     map t_id (tasks (snd (reschedule_missed today daily_minutes lookahead_days db))) =
     map t_id (tasks db)).
Proof.
  intros Hwf.
  assert (Hnext : 1 <= next_rowid (tasks db)) by (apply next_rowid_positive, Hwf).
  assert (Hbelow : forall x, In x (map t_id (tasks db)) -> x <= next_rowid (tasks db) - 1).
  { intros x Hx. apply in_map_iff in Hx as (t & <- & Ht).
    pose proof (next_rowid_fresh _ _ Ht). lia. }
  split; [|split; [|split; [|split; [|split]]]].
  - intros now sub top mins diff prio dl st tw Hfit. unfold rowids_fit in Hfit.
    split; [|split].
    + apply (wf_ids_append db); [|done].
      unfold add_task. simpl. now rewrite map_app.
    + intros t Ht. now apply next_rowid_fresh.
    + unfold add_task. simpl. intros t [Ht|[<-|[]]]%in_app_or.
      * pose proof (next_rowid_fresh _ _ Ht). lia.
      * simpl. lia.
  - intros tid d tw. apply (wf_ids_same_ids db); [|done]. apply ids_update_task_schedule.
  - intros tid st. apply (wf_ids_same_ids db); [|done]. apply ids_update_status_query.
  - intros tid dur. apply (wf_ids_same_ids db); [|done]. reflexivity.
  - intros now today daily_minutes review_intervals lookahead_days Hfit.
    unfold rowids_fit in Hfit.
    unfold smart_schedule. cbn [snd].
    destruct (smart_schedule_run_placement now today daily_minutes review_intervals
                lookahead_days db) as (_ & _ & _ & Hdb & _).
    pose proof (inv_db _ _ _ _ _ _
                  (placement_loop_inv (compute_subject_speed db) today daily_minutes
                     lookahead_days (sorted_pending db) db)) as Hsched.
    rewrite Hdb. split.
    + apply wf_ids_review_loop.
      apply (wf_ids_same_ids db); [|done]. rewrite Hsched. apply replay_ids.
    + intros t Ht.
      pose proof (first_no_longer_than_backlog (compute_subject_speed db) today
                    daily_minutes lookahead_days (sorted_pending db) db) as Hlen.
      assert (Hids : forall x,
                In x (map t_id (tasks (sched_db
                        (placement_loop (compute_subject_speed db) today daily_minutes
                           lookahead_days (sorted_pending db) db)))) ->
                x <= next_rowid (tasks db) - 1).
      { rewrite Hsched, replay_ids. exact Hbelow. }
      pose proof (ids_le_review_loop now today lookahead_days review_intervals _ _
                    (next_rowid (tasks db) - 1) ltac:(lia) Hids (t_id t)
                    (in_map t_id _ _ Ht)) as Hle.
      assert (Z.of_nat (length (first_scheduled_for_topic
                (placement_loop (compute_subject_speed db) today daily_minutes
                   lookahead_days (sorted_pending db) db))) *
              Z.of_nat (length review_intervals) <=
              Z.of_nat (length (sorted_pending db)) * Z.of_nat (length review_intervals))
        by (apply Z.mul_le_mono_nonneg_r; lia).
      lia.
  - intros today daily_minutes lookahead_days.
    assert (Hids :
      map t_id (tasks (snd (reschedule_missed today daily_minutes lookahead_days db))) =
      map t_id (tasks db)).
    { unfold reschedule_missed. simpl.
      rewrite (rinv_db _ _ _ _ _ _
                 (reschedule_missed_run_inv today daily_minutes lookahead_days db)).
      apply ids_replay_replaced. }
    split; [|exact Hids]. now apply (wf_ids_same_ids db).
Qed.

Lemma seed_demo_data_wf : wf_ids (seed_demo_data 0 0).
Proof.
  split.
  - vm_compute. repeat (apply List.NoDup_cons; [simpl; lia|]). apply List.NoDup_nil.
  - intros t Ht. vm_compute in Ht.
    repeat (destruct Ht as [<-|Ht]; [vm_compute; discriminate|]). destruct Ht.
Qed.

Lemma writers_keep_rowids_distinct_witness :
  wf_ids (snd (smart_schedule 100 0 120 [1; 3; 7] 60 (seed_demo_data 0 0))).
Proof.
  assert (Hfit : rowids_fit (seed_demo_data 0 0)
                   (Z.of_nat (length (sorted_pending (seed_demo_data 0 0))) *
                    Z.of_nat (length [1; 3; 7]))).
  { unfold rowids_fit. vm_compute. discriminate. }
  exact (proj1 (proj1 (proj2 (proj2 (proj2 (proj2
           (writers_keep_rowids_distinct (seed_demo_data 0 0) seed_demo_data_wf)))))
         100 0 120 [1; 3; 7] 60 Hfit)).
Defined.

(** ** What a run leaves alone *)

Lemma sessions_replay (log : list (task * Z)) (db : store) :
  sessions (replay log db) = sessions db.
Proof.
  revert db. induction log as [|e log IH]; intros db; simpl; [done|].
  now rewrite IH.
Qed.

Lemma sessions_create_review (now today L : Z) (sub : string) (D oid : Z)
    (top : string) (mins : Z) (db : store) (offset : Z) :
  sessions (create_review now today L sub D oid top mins db offset) = sessions db.
Proof. unfold create_review. now destruct (D + offset <=? today + L). Qed.

Lemma sessions_review_loop (now today L : Z) (offs : list Z)
    (first : list (string * Z)) (db : store) :
  sessions (fold_left (create_reviews_for now today L offs) first db) = sessions db.
Proof.
  revert db. induction first as [|e first IH]; intros db; simpl; [done|].
  rewrite IH. unfold create_reviews_for.
  destruct (first_task_of_subject db (fst e)) as [[[oid top] mins]|]; [|done].
  clear IH. revert db. induction offs as [|o offs IHo]; intros db; simpl; [done|].
  now rewrite IHo, sessions_create_review.
Qed.

Lemma review_loop_appends (now today L : Z) (offs : list Z)
    (first all : list (string * Z)) (db : store) :
  (forall e, In e first -> In e all) ->
  exists added links,
    map task_content (tasks (fold_left (create_reviews_for now today L offs) first db)) =
      map task_content (tasks db) ++ added /\
    reviews (fold_left (create_reviews_for now today L offs) first db) =
      reviews db ++ links /\
    length added = length links /\
    (forall c, In c added -> is_review_content all offs c) /\
    (forall lk, In lk links -> review_task_id lk = 0 /\ In (interval_days lk) offs).
Proof.
  revert db. induction first as [|[sub D] first IH]; intros db Hall; simpl.
  - exists [], []. rewrite !app_nil_r.
    split; [done|]. split; [done|]. split; [done|]. split; intros ? [].
  - destruct (IH (create_reviews_for now today L offs db (sub, D)))
      as (added & links & Hc & Hr & Hlen & Hadded & Hlinks).
    { intros e He. apply Hall. now right. }
    unfold create_reviews_for in *. simpl fst in *. simpl snd in *.
    destruct (first_task_of_subject db sub) as [[[oid top] mins]|].
    + destruct (review_offsets_loop now today L sub D oid top mins offs db) as [Hr1 Hc1].
      rewrite Hc1 in Hc. rewrite Hr1 in Hr. rewrite <- app_assoc in Hc, Hr.
      eexists _, _. split; [exact Hc|]. split; [exact Hr|].
      split; [|split].
      * rewrite !length_app, !length_map. lia.
      * intros c [Hin|Hin]%in_app_or; [|auto].
        apply in_map_iff in Hin as (o & <- & Ho). apply filter_In in Ho as [Ho _].
        exists sub, D, top, mins, o. repeat split; auto. apply Hall. now left.
      * intros lk [Hin|Hin]%in_app_or; [|auto].
        apply in_map_iff in Hin as (o & <- & Ho). apply filter_In in Ho as [Ho _].
        simpl. auto.
    + exists added, links. auto.
Qed.

(** X5. A run of [smart_schedule] deletes nothing and rewrites no
    content: the [sessions] table is untouched; the subject, topic,
    minutes, difficulty, priority and deadline of every existing task
    are as before, in the same order; and what is appended is one link
    per review task, the review task carrying the suffixed subject and
    topic of a subject placed in this run, difficulty 1, priority 3 and
    a deadline at one of the offsets, the link naming review task 0. *)
Theorem schedule_only_appends_reviews (now today daily_minutes : Z)
    (review_intervals : list Z) (lookahead_days : Z) (db : store) :
  let r := smart_schedule_run now today daily_minutes review_intervals lookahead_days db in
  sessions (res_db r) = sessions db /\
  exists added links,
    map task_content (tasks (res_db r)) = map task_content (tasks db) ++ added /\
    reviews (res_db r) = reviews db ++ links /\
    length added = length links /\
    (forall c, In c added -> is_review_content (res_first r) review_intervals c) /\
    (forall lk, In lk links -> review_task_id lk = 0 /\ In (interval_days lk) review_intervals).
Proof.
  intros r.
  destruct (smart_schedule_run_placement now today daily_minutes review_intervals
              lookahead_days db) as (_ & _ & Hfirst & Hdb & _).
  fold r in Hfirst, Hdb.
  pose proof (placement_loop_inv (compute_subject_speed db) today daily_minutes
                lookahead_days (sorted_pending db) db) as Hinv.
  set (st := placement_loop (compute_subject_speed db) today daily_minutes
               lookahead_days (sorted_pending db) db) in *.
  split.
  - rewrite Hdb, sessions_review_loop, (inv_db _ _ _ _ _ _ Hinv). apply sessions_replay.
  - destruct (review_loop_appends now today lookahead_days review_intervals
                (first_scheduled_for_topic st) (res_first r) (sched_db st))
      as (added & links & Hc & Hr & Hlen & Hadded & Hlinks).
    { rewrite Hfirst. auto. }
    exists added, links. rewrite Hdb.
    rewrite (inv_db _ _ _ _ _ _ Hinv) in Hc, Hr.
    rewrite content_replay in Hc. rewrite reviews_replay in Hr.
    rewrite (inv_db _ _ _ _ _ _ Hinv). auto.
Qed.

(** ** More on [reschedule_missed] *)

Lemma reschedule_loop_ind (today daily L : Z) (P : resched_state -> Prop)
    (rows : list task) (st0 : resched_state) :
  P st0 ->
  (forall st r cand, P st ->
     first_fitting_day today L (used st) (minutes r) daily cand ->
     P (commit_replacement r cand st)) ->
  P (reschedule_loop today daily L rows st0).
Proof.
  intros H0 Hstep. revert st0 H0. unfold reschedule_loop.
  induction rows as [|r rows IH]; intros st0 H0; simpl; [done|].
  apply IH. unfold reschedule_one.
  destruct (first_fit _ _ _ _) as [cand|] eqn:E; [|done].
  apply Hstep; [done|]. now apply first_fit_first.
Qed.

(** X6. [reschedule_missed] never over-fills a day it uses: for every
    day that received a re-placed task, the minutes of the tasks that
    were scheduled on that day when the run began (counted only for
    days inside the ledger, that is before [today + lookahead_days])
    plus the minutes re-placed there are at most [daily_minutes]. *)
Theorem replaced_days_stay_within_daily_minutes (today daily_minutes lookahead_days : Z)
    (db : store) :
  let st := reschedule_missed_run today daily_minutes lookahead_days db in
  forall r d, In (r, d) (replaced st) ->
    (if d <? today + lookahead_days then scheduled_minutes (tasks db) d else 0) +
    replaced_minutes (replaced st) d <= daily_minutes.
Proof.
  intros st r d Hin.
  pose proof (reschedule_missed_run_inv today daily_minutes lookahead_days db) as Hinv.
  fold st in Hinv.
  assert (Hroom : forall d0, (exists r0, In (r0, d0) (replaced st)) ->
                             used_get (used st) d0 <= daily_minutes).
  { unfold st, reschedule_missed_run.
    apply (reschedule_loop_ind today daily_minutes lookahead_days
             (fun s => forall d0, (exists r0, In (r0, d0) (replaced s)) ->
                                  used_get (used s) d0 <= daily_minutes)).
    - simpl. intros d0 [r0 []].
    - intros s r1 cand IH (_ & Hfit & _) d0 [r0 Hr0]. simpl in *.
      rewrite used_get_insert. destruct (Z.eqb_spec cand d0) as [<-|Hne]; [exact Hfit|].
      apply IH. apply in_app_or in Hr0 as [Hr0|[[= _ Heq]|[]]]; [eauto|congruence]. }
  specialize (Hroom d (ex_intro _ r Hin)).
  rewrite (rinv_used _ _ _ _ _ _ Hinv), used_ledger_get in Hroom.
  pose proof (rinv_days _ _ _ _ _ _ Hinv r d Hin) as Hd.
  destruct (Z.leb_spec today d); [|lia]. exact Hroom.
Qed.

Lemma replaced_days_stay_within_daily_minutes_witness :
  (if 2 <? 0 + 2 then scheduled_minutes (tasks overbooked_db) 2 else 0) +
  replaced_minutes (replaced (reschedule_missed_run 0 60 2 overbooked_db)) 2 <= 60.
Proof.
  apply (replaced_days_stay_within_daily_minutes 0 60 2 overbooked_db
           (mk_task 3 "M" "m" 30 3 3 9 (Some (-1)) "any" missed 0) 2).
  vm_compute. left. reflexivity.
Defined.

Lemma replaced_grows (today daily L : Z) (rows : list task) (st : resched_state)
    (e : task * Z) :
  In e (replaced st) -> In e (replaced (reschedule_loop today daily L rows st)).
Proof.
  intros He.
  apply (reschedule_loop_ind today daily L (fun s => In e (replaced s))); [done|].
  intros s r cand IH _. simpl. apply in_or_app. now left.
Qed.

(** X7. The first missed task the loop takes up is re-placed whenever
    there is at least one candidate day (all of them within the range
    of [date]) and its minutes alone are at most [daily_minutes],
    however full the calendar is: the last
    candidate day, [today + lookahead_days], is not in the ledger and
    counts as empty.  Its day is the first day after today on which it
    fits the ledger of the tasks already scheduled; with distinct
    rowids the table the run leaves holds the task with that date and
    the status [pending], and the run returns at least 1. *)
Theorem first_missed_task_is_always_replaced (today daily_minutes lookahead_days : Z)
    (db : store) (r : task) (rest : list task) :
  window_in_range today lookahead_days ->
  fetch_tasks is_missed db = r :: rest ->
  1 <= lookahead_days ->
  minutes r <= daily_minutes ->
  List.NoDup (map t_id (tasks db)) ->
  let st := reschedule_missed_run today daily_minutes lookahead_days db in
  (exists d,
     first_fitting_day today lookahead_days (used_ledger today lookahead_days db)
       (minutes r) daily_minutes d /\
     In (r, d) (replaced st) /\
     In (replaced_row r d)
        (tasks (snd (reschedule_missed today daily_minutes lookahead_days db)))) /\
  1 <= fst (reschedule_missed today daily_minutes lookahead_days db).
Proof.
  intros _ Hrows HL Hmin Hnd st.
  pose proof (reschedule_missed_run_inv today daily_minutes lookahead_days db) as Hinv.
  fold st in Hinv.
  assert (Hex : exists d,
            first_fitting_day today lookahead_days (used_ledger today lookahead_days db)
              (minutes r) daily_minutes d /\ In (r, d) (replaced st)).
  { unfold st, reschedule_missed_run. rewrite Hrows.
    change (reschedule_loop today daily_minutes lookahead_days (r :: rest) ?s)
      with (reschedule_loop today daily_minutes lookahead_days rest
              (reschedule_one today daily_minutes lookahead_days s r)).
    unfold reschedule_one. simpl used.
    destruct (first_fit _ _ _ _) as [cand|] eqn:E.
    - exists cand. split; [now apply first_fit_first|].
      apply replaced_grows. simpl. now left.
    - exfalso. apply first_fit_none in E.
      apply (E (today + lookahead_days)); [lia|].
      unfold fits. rewrite used_ledger_get.
      destruct (Z.ltb_spec (today + lookahead_days) (today + lookahead_days)); [lia|].
      rewrite andb_false_r. lia. }
  destruct Hex as (d & Hfirst & Hd). split.
  - exists d. split; [exact Hfirst|]. split; [exact Hd|].
    unfold reschedule_missed. cbn [snd]. fold st.
    now apply reschedule_writes_replacements.
  - unfold reschedule_missed. fold st. simpl.
    rewrite (rinv_count _ _ _ _ _ _ Hinv).
    destruct (replaced st); [destruct Hd|]. simpl. lia.
Qed.

Lemma first_missed_task_is_always_replaced_witness :
  exists d,
    first_fitting_day 738886 3 (used_ledger 738886 3 day_one_busy_db) 30 60 d /\
    In (mk_task 2 "M" "m" 30 3 3 738895 (Some 738884) "any" missed 0, d)
       (replaced (reschedule_missed_run 738886 60 3 day_one_busy_db)) /\
    In (replaced_row (mk_task 2 "M" "m" 30 3 3 738895 (Some 738884) "any" missed 0) d)
       (tasks (snd (reschedule_missed 738886 60 3 day_one_busy_db))).
Proof.
  assert (Hwin : window_in_range 738886 3).
  { unfold window_in_range, is_date, is_timedelta. lia. }
  assert (Hrows : fetch_tasks is_missed day_one_busy_db =
                  [mk_task 2 "M" "m" 30 3 3 738895 (Some 738884) "any" missed 0;
                   mk_task 3 "N" "n" 70 3 3 738895 (Some 738885) "evening" missed 0])
    by reflexivity.
  assert (HL : 1 <= 3) by lia.
  assert (Hmin : minutes (mk_task 2 "M" "m" 30 3 3 738895 (Some 738884) "any" missed 0) <= 60)
    by (simpl; lia).
  assert (Hnd : List.NoDup (map t_id (tasks day_one_busy_db))).
  { simpl. repeat (apply List.NoDup_cons; [simpl; intuition lia|]). apply List.NoDup_nil. }
  exact (proj1 (first_missed_task_is_always_replaced 738886 60 3 day_one_busy_db _ _
                  Hwin Hrows HL Hmin Hnd)).
Defined.

Lemma sessions_reviews_replay_replaced (log : list (task * Z)) (db : store) :
  sessions (replay_replaced log db) = sessions db /\
  reviews (replay_replaced log db) = reviews db.
Proof.
  revert db. induction log as [|e log IH]; intros db; simpl; [done|].
  destruct (IH (update_status_query pending (t_id (fst e))
                  (update_task_schedule (t_id (fst e)) (snd e) "any" db))) as [-> ->].
  done.
Qed.

Lemma content_replay_replaced (log : list (task * Z)) (db : store) :
  map task_content (tasks (replay_replaced log db)) = map task_content (tasks db).
Proof.
  revert db. induction log as [|e log IH]; intros db; simpl; [done|].
  rewrite IH, tasks_update_status_query, tasks_update_task_schedule, !map_map.
  apply map_ext. intros t. rewrite set_status_set_schedule.
  apply task_content_set_schedule.
Qed.

Lemma replay_replaced_snoc (log : list (task * Z)) (e : task * Z) (db : store) :
  replay_replaced (log ++ [e]) db =
  update_status_query pending (t_id (fst e))
    (update_task_schedule (t_id (fst e)) (snd e) "any" (replay_replaced log db)).
Proof. unfold replay_replaced. now rewrite fold_left_app. Qed.

Lemma replay_replaced_touched (log : list (task * Z)) (db : store) (t : task) :
  In t (tasks (replay_replaced log db)) -> In t (tasks db) \/ status t = pending.
Proof.
  revert t. induction log as [|e log IH] using rev_ind; intros t Ht; [now left|].
  rewrite replay_replaced_snoc, tasks_update_status_query, tasks_update_task_schedule,
    map_map in Ht.
  apply in_map_iff in Ht as (t' & <- & Ht'). rewrite set_status_set_schedule.
  unfold set_schedule. destruct (t_id t' =? t_id (fst e)); [now right|auto].
Qed.

(** X8. [reschedule_missed] writes only the date, status and time
    window of tasks: [sessions] and [reviews] are untouched, no task is
    added or removed and no subject, topic, minutes, difficulty,
    priority or deadline changes.  Every task still [missed] afterwards
    is a row the run did not touch; and with distinct rowids every task
    that was not [missed] is left exactly as it was. *)
Theorem reschedule_writes_only_missed_rows (today daily_minutes lookahead_days : Z)
    (db : store) :
  let db' := snd (reschedule_missed today daily_minutes lookahead_days db) in
  sessions db' = sessions db /\
  reviews db' = reviews db /\
  map task_content (tasks db') = map task_content (tasks db) /\
  (forall t, In t (tasks db') -> status t = missed -> In t (tasks db)) /\
  (List.NoDup (map t_id (tasks db)) ->
   forall t, In t (tasks db) -> status t <> missed -> In t (tasks db')).
Proof.
  intros db'. unfold db', reschedule_missed. simpl.
  pose proof (reschedule_missed_run_inv today daily_minutes lookahead_days db) as Hinv.
  set (st := reschedule_missed_run today daily_minutes lookahead_days db) in *.
  rewrite (rinv_db _ _ _ _ _ _ Hinv).
  destruct (sessions_reviews_replay_replaced (replaced st) db) as [Hs Hr].
  split; [exact Hs|]. split; [exact Hr|].
  split; [apply content_replay_replaced|]. split.
  - intros t Ht Hm. apply replay_replaced_touched in Ht as [Ht|Hp]; [done|congruence].
  - intros Hnd t Ht Hnm. apply replay_replaced_keeps; [done|].
    intros r d Hin Heq.
    apply (rinv_rows _ _ _ _ _ _ Hinv) in Hin.
    apply in_fetch_tasks in Hin as [Hr' Hm].
    assert (r = t) by (now apply (NoDup_map_eq t_id (tasks db))).
    subst r. unfold is_missed, status_eqb in Hm.
    apply bool_decide_eq_true in Hm. contradiction.
Qed.

Lemma reschedule_writes_only_missed_rows_witness :
  In (mk_task 1 "A" "a" 60 3 3 9 (Some 2) "any" pending 0)
     (tasks (snd (reschedule_missed 0 60 2 overbooked_db))).
Proof.
  apply (proj2 (proj2 (proj2 (proj2
           (reschedule_writes_only_missed_rows 0 60 2 overbooked_db))))).
  - simpl. repeat (apply List.NoDup_cons; [simpl; lia|]). apply List.NoDup_nil.
  - simpl. now left.
  - simpl. discriminate.
Defined.

(** ** Sessions and multipliers *)

Lemma existsb_perm {A : Type} (f : A -> bool) (l1 l2 : list A) :
  Permutation l1 l2 -> existsb f l1 = existsb f l2.
Proof.
  intros Hp. destruct (existsb f l2) eqn:E2.
  - apply List.existsb_exists in E2 as (x & Hx & Hf). apply List.existsb_exists.
    exists x. split; [|done]. eapply Permutation_in; [symmetry; exact Hp|done].
  - destruct (existsb f l1) eqn:E1; [|done].
    apply List.existsb_exists in E1 as (x & Hx & Hf).
    assert (existsb f l2 = true); [|congruence].
    apply List.existsb_exists. exists x. split; [|done].
    eapply Permutation_in; [exact Hp|done].
Qed.

Lemma mean_perm (l1 l2 : list Z) : Permutation l1 l2 -> mean l1 = mean l2.
Proof.
  intros Hp. unfold mean.
  now rewrite (sum_Z_perm _ _ Hp), (Permutation_length Hp).
Qed.

Lemma compute_subject_speed_rows (db1 db2 : store) :
  Permutation (joined_rows db1) (joined_rows db2) ->
  compute_subject_speed db1 = compute_subject_speed db2.
Proof.
  intros Hp. apply map_eq. intros sub.
  rewrite !compute_subject_speed_lookup.
  rewrite (existsb_perm _ _ _ Hp).
  destruct (existsb _ (joined_rows db2)); [|done].
  unfold mean_estimated, mean_actual, group_of.
  assert (Hg : Permutation
                 (List.filter (fun r => String.eqb (row_subject r) sub) (joined_rows db1))
                 (List.filter (fun r => String.eqb (row_subject r) sub) (joined_rows db2)))
    by now apply filter_perm.
  rewrite (mean_perm _ _ (Permutation_map row_estimated Hg)).
  rewrite (mean_perm _ _ (Permutation_map row_actual Hg)).
  reflexivity.
Qed.

(** X9. As long as the column sums are exact, so that the order in
    which the doubles are added cannot matter, the multipliers do not
    depend on the order in which the sessions were recorded: of two
    databases with the same tasks and the same sessions in any order,
    the second has exact sums when the first has, and both have the
    same [compute_subject_speed]. *)
Theorem multipliers_ignore_session_order (db1 db2 : store) :
  sums_exact db1 ->
  tasks db1 = tasks db2 ->
  Permutation (sessions db1) (sessions db2) ->
  sums_exact db2 /\ compute_subject_speed db1 = compute_subject_speed db2.
Proof.
  intros (Hest & Hact & Hlen) Ht Hs.
  assert (Hp : Permutation (joined_rows db1) (joined_rows db2)).
  { unfold joined_rows. rewrite Ht. now apply Permutation_flat_map. }
  split; [|now apply compute_subject_speed_rows].
  unfold sums_exact.
  rewrite <- (sum_Z_perm _ _ (Permutation_map (fun r => Z.abs (row_estimated r)) Hp)).
  rewrite <- (sum_Z_perm _ _ (Permutation_map (fun r => Z.abs (row_actual r)) Hp)).
  rewrite <- (Permutation_length Hp). auto.
Qed.

Lemma multipliers_ignore_session_order_witness :
  compute_subject_speed
    (mk_store (tasks calibration_db) [mk_session 1 75; mk_session 2 40] []) =
  compute_subject_speed
    (mk_store (tasks calibration_db) [mk_session 2 40; mk_session 1 75] []).
Proof.
  apply multipliers_ignore_session_order; [|reflexivity|simpl; apply perm_swap].
  unfold sums_exact. vm_compute. repeat split; reflexivity.
Defined.

Lemma joined_rows_record_session (tid dur : Z) (db : store) :
  joined_rows (record_session tid dur db) =
  joined_rows db ++
  map (fun t => (subject t, minutes t, dur))
    (List.filter (fun t => tid =? t_id t) (tasks db)).
Proof.
  unfold joined_rows, record_session. simpl.
  rewrite flat_map_app. simpl. now rewrite app_nil_r.
Qed.

(** X10. [record_session] appends one session and touches nothing
    else.  A session for a rowid that no task has changes no
    multiplier (the join drops it); a session for an existing task
    makes the task's subject a key of [compute_subject_speed], with a
    multiplier between 0.6 and 1.6, whatever the duration recorded. *)
Theorem recorded_session_reaches_the_multipliers (tid dur : Z) (db : store) :
  let db' := record_session tid dur db in
  tasks db' = tasks db /\ reviews db' = reviews db /\
  sessions db' = sessions db ++ [mk_session tid dur] /\
  ((forall t, In t (tasks db) -> t_id t <> tid) ->
   compute_subject_speed db' = compute_subject_speed db) /\
  (forall t, In t (tasks db) -> t_id t = tid ->
     exists m, compute_subject_speed db' !! subject t = Some m /\
               PrimFloat.leb 0.6 m = true /\ PrimFloat.leb m 1.6 = true).
Proof.
  intros db'. split; [reflexivity|]. split; [reflexivity|]. split; [reflexivity|].
  split.
  - intros Hnone. apply compute_subject_speed_rows.
    unfold db'. rewrite joined_rows_record_session, filter_none.
    + simpl. now rewrite app_nil_r.
    + intros t Ht. apply Z.eqb_neq. specialize (Hnone t Ht). lia.
  - intros t Ht Hid.
    pose proof (compute_subject_speed_lookup db' (subject t)) as Hl.
    assert (Hex : existsb (fun r => String.eqb (row_subject r) (subject t))
                    (joined_rows db') = true).
    { apply existsb_row_subject. exists (subject t, minutes t, dur). split; [|done].
      unfold db'. rewrite joined_rows_record_session. apply in_or_app. right.
      apply in_map_iff. exists t. split; [done|]. apply filter_In. split; [done|lia]. }
    rewrite Hex in Hl. eexists. split; [exact Hl|]. apply clamp_bounds.
Qed.

Lemma recorded_session_reaches_the_multipliers_witness :
  exists m,
    compute_subject_speed practised_db !! "Mathematics"%string = Some m /\
    PrimFloat.leb 0.6 m = true /\ PrimFloat.leb m 1.6 = true.
Proof.
  apply (proj2 (proj2 (proj2 (proj2
           (recorded_session_reaches_the_multipliers 1 60 (seed_demo_data 0 0)))))
         (mk_task 1 "Mathematics" "Calculus - Limits & Continuity" 90 4 5 10 None
            "morning" pending 0)).
  - vm_compute. now left.
  - reflexivity.
Defined.

(** ** The progress table *)

Lemma get_progress_fold (progress : list progress_row) (m : gmap string (Z * Z))
    (k : string) :
  fold_left (fun m0 r => <[ p_topic r := (completed r, last_score r) ]> m0) progress m !! k =
  match last (List.filter (fun r => String.eqb (p_topic r) k) progress) with
  | Some r => Some (completed r, last_score r)
  | None => m !! k
  end.
Proof.
  revert m. induction progress as [|r progress IH]; intros m; simpl; [done|].
  rewrite IH. destruct (String.eqb_spec (p_topic r) k) as [<-|Hne].
  - rewrite last_cons. destruct (last _); [done|]. apply lookup_insert_eq.
  - destruct (last _); [done|]. now apply lookup_insert_ne.
Qed.

Lemma get_progress_lookup (progress : list progress_row) (k : string) :
  get_progress progress !! k =
  match last (List.filter (fun r => String.eqb (p_topic r) k) progress) with
  | Some r => Some (completed r, last_score r)
  | None => None
  end.
Proof. unfold get_progress. rewrite get_progress_fold. now rewrite lookup_empty. Qed.

Lemma filter_map_same {A : Type} (P : A -> bool) (g : A -> A) (l : list A) :
  (forall x, P (g x) = P x) ->
  List.filter P (map g l) = map g (List.filter P l).
Proof.
  intros H. induction l as [|x l IH]; simpl; [done|].
  rewrite H. destruct (P x); simpl; now rewrite IH.
Qed.

Lemma get_progress_marked (top : string) (score : Z) (progress : list progress_row) :
  get_progress (mark_topic_completed top score progress) !! top = Some (1, score).
Proof.
  unfold mark_topic_completed.
  set (g := fun r => if String.eqb (p_topic r) top
                     then mk_progress (p_topic r) 1 score else r).
  assert (Hg : forall k r, String.eqb (p_topic (g r)) k = String.eqb (p_topic r) k).
  { intros k r. unfold g. now destruct (String.eqb (p_topic r) top). }
  destruct (List.filter (fun r => String.eqb (p_topic r) top) progress)
    as [|r0 found] eqn:E.
  - rewrite get_progress_lookup, List.filter_app, E. simpl.
    now rewrite String.eqb_refl.
  - rewrite get_progress_lookup, (filter_map_same _ g) by (intros; apply Hg).
    rewrite E.
    assert (Hlast : exists r, last (r0 :: found) = Some r /\ p_topic r = top).
    { destruct (last (r0 :: found)) as [r|] eqn:El.
      - exists r. split; [done|]. apply last_Some_elem_of, list_elem_of_In in El.
        rewrite <- E in El. apply filter_In in El as [_ El].
        now apply String.eqb_eq.
      - apply last_None in El. discriminate El. }
    destruct Hlast as (r & Hl & Ht). apply last_Some in Hl as [l' Hl].
    rewrite Hl, map_app. simpl. rewrite last_snoc.
    unfold g. rewrite Ht, String.eqb_refl. reflexivity.
Qed.

(** X11. [mark_topic_completed(topic, score)] followed by
    [get_progress()] gives completed = 1 and that score for the topic,
    whatever was stored before, and the entry of every other topic is
    as before.  The table gets a new row only for a topic it did not
    hold, so distinct topics stay distinct, and marking a topic again
    adds no row. *)
Theorem marked_topic_reads_back (top : string) (score : Z)
    (progress : list progress_row) :
  let progress' := mark_topic_completed top score progress in
  get_progress progress' !! top = Some (1, score) /\
  (forall other, other <> top ->
     get_progress progress' !! other = get_progress progress !! other) /\
  (List.NoDup (map p_topic progress) -> List.NoDup (map p_topic progress')) /\
  (forall score', length (mark_topic_completed top score' progress') = length progress').
Proof.
  intros progress'.
  split; [apply get_progress_marked|].
  unfold progress', mark_topic_completed.
  set (g := fun r => if String.eqb (p_topic r) top
                     then mk_progress (p_topic r) 1 score else r).
  assert (Hg : forall k r, String.eqb (p_topic (g r)) k = String.eqb (p_topic r) k).
  { intros k r. unfold g. now destruct (String.eqb (p_topic r) top). }
  destruct (List.filter (fun r => String.eqb (p_topic r) top) progress)
    as [|r0 found] eqn:E.
  - split; [|split].
    + intros other Hne. rewrite !get_progress_lookup, List.filter_app. simpl.
      destruct (String.eqb_spec top other); [congruence|]. now rewrite app_nil_r.
    + intros Hnd. rewrite map_app. simpl. apply List.NoDup_app; [done| |].
      * apply List.NoDup_cons; [intros []|apply List.NoDup_nil].
      * intros k Hk [<-|[]]. apply in_map_iff in Hk as (r & Hr & Hin).
        assert (Hf : In r (List.filter (fun r => String.eqb (p_topic r) top) progress)).
        { apply filter_In. split; [done|]. now apply String.eqb_eq. }
        rewrite E in Hf. destruct Hf.
    + intros score'. rewrite List.filter_app, E. simpl.
      rewrite String.eqb_refl. simpl. now rewrite length_map.
  - split; [|split].
    + intros other Hne. rewrite !get_progress_lookup.
      rewrite (filter_map_same _ g) by (intros; apply Hg).
      rewrite (map_ext_in g (fun r => r)); [now rewrite map_id|].
      intros r Hr. apply filter_In in Hr as [_ Hr]. apply String.eqb_eq in Hr.
      unfold g. destruct (String.eqb_spec (p_topic r) top); [congruence|done].
    + intros Hnd. rewrite map_map.
      rewrite (map_ext (fun r => p_topic (g r)) p_topic); [done|].
      intros r. unfold g. now destruct (String.eqb (p_topic r) top).
    + intros score'. rewrite (filter_map_same _ g) by (intros; apply Hg).
      rewrite E. simpl. now rewrite !length_map.
Qed.

Lemma marked_topic_reads_back_witness :
  List.NoDup (map p_topic
                (mark_topic_completed "Limits" 2
                   [mk_progress "Limits" 1 5; mk_progress "Series" 0 0])).
Proof.
  apply (proj1 (proj2 (proj2
           (marked_topic_reads_back "Limits" 2
              [mk_progress "Limits" 1 5; mk_progress "Series" 0 0])))).
  simpl. repeat (apply List.NoDup_cons; [simpl; intuition discriminate|]).
  apply List.NoDup_nil.
Defined.

(** ** The order of [fetch_tasks] *)

Lemma fetch_leb_iff (a b : task) : fetch_leb a b = true <-> fetch_before a b.
Proof.
  unfold fetch_leb, fetch_cmp, fetch_before, lex, cmp_leb, cmp_null_flag, cmp_option.
  destruct (scheduled_date a) as [x|], (scheduled_date b) as [y|]; simpl.
  - destruct (Z.compare_spec x y), (Z.compare_spec (deadline a) (deadline b));
      split; intros ?; try done; try lia.
  - tauto.
  - split; [discriminate|tauto].
  - destruct (Z.compare_spec (deadline a) (deadline b)); split; intros ?; try done; lia.
Qed.

Lemma fetch_leb_total (a b : task) : fetch_leb a b = true \/ fetch_leb b a = true.
Proof.
  rewrite !fetch_leb_iff. unfold fetch_before.
  destruct (scheduled_date a), (scheduled_date b); lia.
Qed.

Lemma fetch_leb_trans (a b c : task) :
  fetch_leb a b = true -> fetch_leb b c = true -> fetch_leb a c = true.
Proof.
  rewrite !fetch_leb_iff. unfold fetch_before.
  destruct (scheduled_date a), (scheduled_date b), (scheduled_date c); lia.
Qed.

Lemma sorted_tail_undated (l : list task) :
  StronglySorted fetch_before l ->
  forall pre a post, l = pre ++ a :: post -> scheduled_date a = None ->
  forall b, In b post -> scheduled_date b = None.
Proof.
  intros Hs pre. revert l Hs. induction pre as [|p pre IH]; intros l Hs a post -> Ha b Hb.
  - apply StronglySorted_inv in Hs as [_ Hall].
    rewrite List.Forall_forall in Hall. specialize (Hall b Hb).
    unfold fetch_before in Hall. rewrite Ha in Hall.
    now destruct (scheduled_date b).
  - apply StronglySorted_inv in Hs as [Hs _]. exact (IH _ Hs a post eq_refl Ha b Hb).
Qed.

(** X12. [fetch_tasks] returns the rows that satisfy the WHERE clause,
    each once, with the dated rows first in the order of their dates and
    then of their deadlines, and the undated rows after them in the
    order of their deadlines: once an undated row has appeared, only
    undated rows follow.  Rows with the same date and deadline keep the
    order of the table. *)
Theorem fetch_tasks_lists_dated_rows_first (where_clause : task -> bool) (db : store) :
  let rows := fetch_tasks where_clause db in
  Permutation rows (List.filter where_clause (tasks db)) /\
  StronglySorted fetch_before rows /\
  (forall pre a post, rows = pre ++ a :: post -> scheduled_date a = None ->
     forall b, In b post -> scheduled_date b = None) /\
  (forall x,
     List.filter (fun t => bool_decide (scheduled_date t = scheduled_date x) &&
                           (deadline t =? deadline x)) rows =
     List.filter (fun t => bool_decide (scheduled_date t = scheduled_date x) &&
                           (deadline t =? deadline x))
       (List.filter where_clause (tasks db))).
Proof.
  intros rows.
  assert (Hsorted : StronglySorted fetch_before rows).
  { apply (StronglySorted_impl (fun a b => fetch_leb a b = true)).
    - intros a b. apply fetch_leb_iff.
    - apply stable_sort_sorted; [apply fetch_leb_total|apply fetch_leb_trans]. }
  split; [apply stable_sort_perm|]. split; [exact Hsorted|].
  split; [now apply sorted_tail_undated|].
  intros x. apply filter_stable_sort.
  intros a b _ _ Ha Hb.
  apply andb_true_iff in Ha as [Ha1 Ha2], Hb as [Hb1 Hb2].
  apply bool_decide_eq_true in Ha1, Hb1. apply Z.eqb_eq in Ha2, Hb2.
  apply fetch_leb_iff. unfold fetch_before. rewrite Ha1, Hb1.
  destruct (scheduled_date x); lia.
Qed.

(** The schedule view of the seed data after one run: dated rows by
    day, then the undated review rows by deadline. *)
Example schedule_view_order :
  map (fun t => (t_id t, scheduled_date t, deadline t))
      (fetch_tasks (fun _ => true)
         (res_db (smart_schedule_run 100 0 120 [1] 5 (seed_demo_data 0 0)))) =
  [(3, Some 0, 7); (2, Some 0, 14); (1, Some 1, 10); (4, Some 2, 20); (5, Some 3, 30);
   (6, None, 1); (7, None, 2); (8, None, 3); (9, None, 4)].
Proof. vm_compute. reflexivity. Qed.

(** ** The dashboard statistics *)

Lemma count_status_perm (st : task_status) (l1 l2 : list task) :
  Permutation l1 l2 -> count_status st l1 = count_status st l2.
Proof.
  intros H. unfold count_status. f_equal.
  apply Permutation_length. now apply filter_perm.
Qed.

Lemma count_status_partition (rows : list task) :
  Z.of_nat (length rows) =
  count_status done rows + count_status missed rows +
  count_status pending rows + count_status review rows.
Proof.
  unfold count_status, status_eqb.
  induction rows as [|t rows IH]; [reflexivity|].
  cbn [List.filter length].
  destruct (status t); repeat case_bool_decide; try congruence; cbn [length]; lia.
Qed.

Lemma fetch_all_perm (db : store) : Permutation (fetch_tasks (fun _ => true) db) (tasks db).
Proof.
  unfold fetch_tasks. etransitivity; [apply stable_sort_perm|].
  now rewrite filter_all.
Qed.

Lemma unique_match (ts : list task) (x : Z) :
  List.NoDup (map t_id ts) ->
  List.filter (fun t => x =? t_id t) ts = [] \/
  exists t, List.filter (fun t => x =? t_id t) ts = [t].
Proof.
  induction ts as [|t ts IH]; intros Hnd; [now left|].
  cbn [map] in Hnd. apply List.NoDup_cons_iff in Hnd as [Hnotin Hnd].
  cbn [List.filter]. destruct (Z.eqb_spec x (t_id t)) as [->|Hne].
  - right. exists t. f_equal. apply filter_none.
    intros u Hu. apply Z.eqb_neq. intros Heq. apply Hnotin.
    rewrite Heq. now apply in_map.
  - now apply IH.
Qed.

Lemma group_of_absent (rows : list (string * Z * Z)) (sub : string) :
  existsb (fun r => String.eqb (row_subject r) sub) rows = false ->
  group_of rows sub = [].
Proof.
  intros H. unfold group_of. apply filter_none.
  intros r Hr. destruct (String.eqb (row_subject r) sub) eqn:E; [|done].
  assert (Ht : existsb (fun r => String.eqb (row_subject r) sub) rows = true).
  { apply List.existsb_exists. now exists r. }
  congruence.
Qed.

Lemma subject_of_id_filter (db : store) (tid : Z) :
  subject_of_id db tid =
  match List.filter (fun t => tid =? t_id t) (tasks db) with
  | [] => None
  | t :: _ => Some (subject t)
  end.
Proof.
  unfold subject_of_id.
  rewrite (List.filter_ext (fun t => t_id t =? tid) (fun t => tid =? t_id t)); [done|].
  intros t. apply Z.eqb_sym.
Qed.

Lemma time_spent_fold (db : store) :
  List.NoDup (map t_id (tasks db)) ->
  forall (ses : list session) (acc : gmap string Z) (sub : string),
  let rows :=
    flat_map
      (fun s => map (fun t => (subject t, minutes t, duration_minutes s))
                  (List.filter (fun t => task_id s =? t_id t) (tasks db))) ses in
  fold_left (add_time_spent db) ses acc !! sub =
  if existsb (fun r => String.eqb (row_subject r) sub) rows
  then Some (default 0 (acc !! sub) + sum_Z (map row_actual (group_of rows sub)))
  else acc !! sub.
Proof.
  intros Hnd ses. induction ses as [|se ses IH]; intros acc sub; [reflexivity|].
  cbn [fold_left flat_map]. cbv zeta in IH |- *.
  rewrite IH. clear IH.
  set (rest := flat_map _ ses).
  unfold add_time_spent. rewrite subject_of_id_filter.
  destruct (unique_match (tasks db) (task_id se) Hnd) as [E|[t E]]; rewrite E.
  - reflexivity.
  - cbn [map app].
    set (x := (subject t, minutes t, duration_minutes se)).
    assert (Hg : group_of (x :: rest) sub =
                 if String.eqb (subject t) sub then x :: group_of rest sub
                 else group_of rest sub) by reflexivity.
    assert (He : existsb (fun r => String.eqb (row_subject r) sub) (x :: rest) =
                 String.eqb (subject t) sub ||
                 existsb (fun r => String.eqb (row_subject r) sub) rest) by reflexivity.
    rewrite Hg, He. clear Hg He.
    destruct (String.eqb_spec (subject t) sub) as [<-|Hne].
    + rewrite lookup_insert_eq.
      set (d := default 0 (acc !! subject t)).
      change (sum_Z (map row_actual (x :: group_of rest (subject t))))
        with (duration_minutes se + sum_Z (map row_actual (group_of rest (subject t)))).
      cbn [orb from_option]. unfold id.
      destruct (existsb _ rest) eqn:Ex.
      * f_equal. lia.
      * rewrite (group_of_absent _ _ Ex). cbn [map sum_Z fold_right]. f_equal. lia.
    + rewrite lookup_insert_ne by done. reflexivity.
Qed.

(** X13. The dashboard counts every row of [tasks] once: total is the
    number of rows, and it is the sum of the done, missed and pending
    counts and the number of review rows, which no counter reports.
    Where task ids are distinct, the time spent on a subject is the sum
    of the durations of the sessions joined to its tasks, read from the
    rows the speed estimator averages, and the subjects with an entry
    are those with a multiplier; sessions of a task that no longer
    exists are left out of both. *)
Theorem dashboard_counts_every_task_once (db : store) (progress : list progress_row) :
  let s := compute_stats db progress in
  total s = Z.of_nat (length (tasks db)) /\
  total s = stat_done s + stat_missed s + stat_pending s + count_status review (tasks db) /\
  progress_map s = get_progress progress /\
  (List.NoDup (map t_id (tasks db)) ->
   forall sub,
     time_spent s !! sub =
     if existsb (fun r => String.eqb (row_subject r) sub) (joined_rows db)
     then Some (sum_Z (map row_actual (group_of (joined_rows db) sub)))
     else None) /\
  (List.NoDup (map t_id (tasks db)) ->
   forall sub,
     is_Some (time_spent s !! sub) <-> is_Some (compute_subject_speed db !! sub)).
Proof.
  intros s. unfold s, compute_stats. cbn [total stat_done stat_missed stat_pending
                                          time_spent progress_map].
  pose proof (fetch_all_perm db) as Hp.
  assert (Hts : List.NoDup (map t_id (tasks db)) ->
     forall sub,
     time_spent_by_subject db !! sub =
     if existsb (fun r => String.eqb (row_subject r) sub) (joined_rows db)
     then Some (sum_Z (map row_actual (group_of (joined_rows db) sub)))
     else None).
  { intros Hnd sub. unfold time_spent_by_subject.
    rewrite (time_spent_fold db Hnd (sessions db) ∅ sub). cbv zeta.
    fold (joined_rows db). rewrite lookup_empty. cbn [default].
    destruct (existsb _ _); [f_equal; lia|reflexivity]. }
  split; [|split; [|split; [|split]]].
  - f_equal. now apply Permutation_length.
  - rewrite (Permutation_length Hp), (count_status_perm done _ _ Hp),
      (count_status_perm missed _ _ Hp), (count_status_perm pending _ _ Hp).
    apply count_status_partition.
  - reflexivity.
  - exact Hts.
  - intros Hnd sub. rewrite (Hts Hnd), compute_subject_speed_lookup.
    destruct (existsb _ _); [split; intros _; eauto|].
    split; intros [? ?]; discriminate.
Qed.

Lemma dashboard_counts_every_task_once_witness :
  time_spent (compute_stats practised_db []) !! "Mathematics"%string = Some 60.
Proof.
  assert (Hnd : List.NoDup (map t_id (tasks practised_db))).
  { vm_compute. repeat (apply List.NoDup_cons; [simpl; intuition lia|]). apply List.NoDup_nil. }
  exact (proj1 (proj2 (proj2 (proj2 (dashboard_counts_every_task_once practised_db []))))
           Hnd "Mathematics"%string).
Defined.

(** ** The Done button *)

Lemma joined_rows_update_task_status (st : task_status) (tid : Z) (db : store) :
  joined_rows (update_task_status tid st db) = joined_rows db.
Proof.
  unfold joined_rows.
  change (sessions (update_task_status tid st db)) with (sessions db).
  change (tasks (update_task_status tid st db)) with (map (set_status st tid) (tasks db)).
  apply flat_map_ext. intros s.
  rewrite (filter_map_same (fun t => task_id s =? t_id t) (set_status st tid)).
  - rewrite map_map. apply map_ext. intros t.
    unfold set_status. now destruct (t_id t =? tid).
  - intros t. unfold set_status. now destruct (t_id t =? tid).
Qed.

(** X14. The Done button on a row of the table appends one session of
    the entered duration, sets the status of that row to done and
    leaves every other row, every date and every id as they were; the
    row's subject has a speed multiplier from then on.  It also writes
    the progress entry of the row's topic as completed with score 0,
    so a score entered for that topic before is overwritten. *)
Theorem done_button_records_and_completes (r : task) (dur : Z) (db : store)
    (progress : list progress_row) :
  In r (tasks db) ->
  let s' := mark_done r dur (db, progress) in
  sessions (fst s') = sessions db ++ [mk_session (t_id r) dur] /\
  reviews (fst s') = reviews db /\
  map t_id (tasks (fst s')) = map t_id (tasks db) /\
  map scheduled_date (tasks (fst s')) = map scheduled_date (tasks db) /\
  (forall t, In t (tasks (fst s')) -> t_id t = t_id r -> status t = done) /\
  List.filter (fun t => negb (t_id t =? t_id r)) (tasks (fst s')) =
  List.filter (fun t => negb (t_id t =? t_id r)) (tasks db) /\
  is_Some (compute_subject_speed (fst s') !! subject r) /\
  get_progress (snd s') !! topic r = Some (1, 0).
Proof.
  intros Hin s'. unfold s', mark_done. cbn [fst snd].
  change (tasks (update_task_status (t_id r) done (record_session (t_id r) dur db)))
    with (map (set_status done (t_id r)) (tasks db)).
  split; [reflexivity|]. split; [reflexivity|].
  split; [|split; [|split; [|split; [|split]]]].
  - rewrite map_map. apply map_ext. intros t.
    unfold set_status. now destruct (t_id t =? t_id r).
  - rewrite map_map. apply map_ext. intros t.
    unfold set_status. now destruct (t_id t =? t_id r).
  - intros t Ht Hid. apply in_map_iff in Ht as (u & <- & _).
    unfold set_status in Hid |- *.
    destruct (Z.eqb_spec (t_id u) (t_id r)); [reflexivity|]. contradiction.
  - rewrite (filter_map_same _ (set_status done (t_id r))).
    + rewrite (map_ext_in (set_status done (t_id r)) (fun t => t)); [apply map_id|].
      intros t Ht. apply filter_In in Ht as [_ Ht].
      unfold set_status. now destruct (t_id t =? t_id r).
    + intros t. unfold set_status.
      destruct (t_id t =? t_id r) eqn:Eid; cbn [t_id]; now rewrite Eid.
  - rewrite compute_subject_speed_lookup, joined_rows_update_task_status,
      joined_rows_record_session.
    assert (Hex : existsb (fun x => String.eqb (row_subject x) (subject r))
                    (joined_rows db ++
                     map (fun t => (subject t, minutes t, dur))
                       (List.filter (fun t => t_id r =? t_id t) (tasks db))) = true).
    { apply existsb_row_subject. exists (subject r, minutes r, dur).
      split; [|reflexivity]. apply in_or_app. right.
      apply in_map_iff. exists r. split; [reflexivity|].
      apply filter_In. split; [exact Hin|apply Z.eqb_refl]. }
    rewrite Hex. eauto.
  - apply get_progress_marked.
Qed.

Lemma done_button_records_and_completes_witness :
  get_progress
    (snd (mark_done (mk_task 1 "Mathematics" "Calculus - Limits & Continuity" 90 4 5 10 None "morning" pending 0) 45
            (seed_demo_data 0 0,
             [mk_progress "Calculus - Limits & Continuity" 1 80]))) !! "Calculus - Limits & Continuity"%string = Some (1, 0).
Proof.
  refine (proj2 (proj2 (proj2 (proj2 (proj2 (proj2 (proj2
    (done_button_records_and_completes
       (mk_task 1 "Mathematics" "Calculus - Limits & Continuity" 90 4 5 10 None "morning" pending 0) 45
       (seed_demo_data 0 0) [mk_progress "Calculus - Limits & Continuity" 1 80] _))))))));
  vm_compute; tauto.
Defined.
